(** * Coherence validation of Ithkuil case/function pairs

    A shallow embedding of the rule extractor
    ([src/validators/rule_extractor.py]), of the constraint store
    ([src/validators/cooccurrence_rules.py]) and of the validation engine
    ([src/validation_engine.py]), followed by the properties of the
    specification that concern them.

    Conventions of the embedding.
    - A Python [str] is a [string] whose characters are read as the code
      points 0..255; [isupper] and [isalpha] follow the Unicode classes of
      that range.
    - A Python [dict] with text keys is a [gmap string _]; a [set] of text
      values is a [gset string].
    - A Python [float] is a primitive binary64 [float].
    - Mutation of [self.stats] is explicit state passing; an exception is a
      [Raise] result.
    - The grammar dataset is a list of entries, as [_load_data] declares
      it ([List[Dict[str, Any]]]).
    - [print] calls are not modelled. *)

(** The development also embeds the code around these three: the queries
    and statistics of the store, the language-model client
    ([src/llm_client.py]), retrieval from and filling of the collection
    ([src/rag_system.py]), the co-pilot pipeline ([src/copilot.py]) and the
    experiment loop ([src/experiment.py]).  What lies outside the repository
    is a parameter there: the remote completion service, the vector
    collection, [json.loads], the float format [:.2f] and the clock.  The
    validator of the pipeline is the engine with a retriever over such a
    collection, so that a call of [validate] can end in the [IndexError] of
    [RAGSystem.retrieve]. *)

From Stdlib Require Import ZArith String Ascii List PrimFloat.
From stdpp Require Import gmap strings list sorting.

Set Warnings "-inexact-float,-register-all,-clear-no-such-hyp".
Local Open Scope string_scope.

(** ** Python values and built-ins *)

Module Py.

(** The values a decoded JSON document or a literal [dict] can hold. *)
Inductive pyval : Type :=
| VNone
| VBool (b : bool)
| VInt (z : Z)
| VFloat (f : float)
| VStr (s : string)
| VList (l : list pyval)
| VDict (d : list (string * pyval)).

(** [bool(v)]: the truth value tested by [if v] and [not v]. *)
Definition truthy (v : pyval) : bool :=
  match v with
  | VNone => false
  | VBool b => b
  | VInt z => negb (z =? 0)%Z
  | VFloat f => negb (PrimFloat.eqb f 0%float)
  | VStr s => negb (String.eqb s "")
  | VList l => match l with [] => false | _ => true end
  | VDict d => match d with [] => false | _ => true end
  end.

(** [isinstance(v, str)]. *)
Definition is_str (v : pyval) : bool :=
  match v with VStr _ => true | _ => false end.

(** [type(v).__name__]. *)
Definition type_name (v : pyval) : string :=
  match v with
  | VNone => "NoneType"
  | VBool _ => "bool"
  | VInt _ => "int"
  | VFloat _ => "float"
  | VStr _ => "str"
  | VList _ => "list"
  | VDict _ => "dict"
  end.

(** [d.get(k)] on a dict with text keys: [None] when the key is absent. *)
Definition dict_get (d : gmap string pyval) (k : string) : pyval :=
  default VNone (d !! k).

(** Character classes of the code points 0..255. *)
Definition char_isupper (c : ascii) : bool :=
  let n := nat_of_ascii c in
  (((65 <=? n) && (n <=? 90)) || ((192 <=? n) && (n <=? 214))
   || ((216 <=? n) && (n <=? 222)))%nat.

Definition char_islower (c : ascii) : bool :=
  let n := nat_of_ascii c in
  (((97 <=? n) && (n <=? 122)) || (n =? 170) || (n =? 181) || (n =? 186)
   || ((223 <=? n) && (n <=? 246)) || ((248 <=? n) && (n <=? 255)))%nat.

(** No code point below 256 is titlecase. *)
Definition char_istitle (c : ascii) : bool := false.

Definition char_isalpha (c : ascii) : bool :=
  char_isupper c || char_islower c.

(** [s.isupper()]: no lowercase or titlecase character, and at least one
    uppercase one. *)
Fixpoint isupper_from (cased : bool) (s : string) : bool :=
  match s with
  | EmptyString => cased
  | String c s' =>
      if char_islower c || char_istitle c then false
      else isupper_from (cased || char_isupper c) s'
  end.

Definition isupper (s : string) : bool := isupper_from false s.

Fixpoint all_alpha (s : string) : bool :=
  match s with
  | EmptyString => true
  | String c s' => char_isalpha c && all_alpha s'
  end.

(** [s.isalpha()]: non-empty and every character alphabetic. *)
Definition isalpha (s : string) : bool :=
  negb (String.eqb s "") && all_alpha s.

(** [sorted(xs)] for a set of text values: ascending code-point order. *)
Definition sorted (xs : gset string) : list string :=
  merge_sort String.leb (elements xs).

(** [sep.join(xs)]. *)
Definition join (sep : string) (xs : list string) : string :=
  String.concat sep xs.

(** [xs.append(x)] and [xs.extend(ys)], returning the list after the call. *)
Definition list_append {A} (xs : list A) (x : A) : list A := (xs ++ [x])%list.
Definition list_extend {A} (xs ys : list A) : list A := (xs ++ ys)%list.

(** [str(v)] inside an f-string, for a value that is text or [None]. *)
Definition fmt_opt (v : option string) : string :=
  match v with Some s => s | None => "None" end.

(** Exceptions that abort a constructor. *)
Inductive exn : Type :=
| ValueError (msg : string)
| IOError
| ImportError (msg : string).

Inductive result (A : Type) : Type :=
| Ok (a : A)
| Raise (e : exn).
Arguments Ok {A} a.
Arguments Raise {A} e.

End Py.
Import Py.

(** ** [validators/rule_extractor.py] *)

Module RuleExtractor.

(** [@dataclass CaseConstraints].  [case_name] and [case_abbrev] are [None]
    for a dataset entry that has no [code]. *)
Record CaseConstraints := {
  case_name : option string;
  case_abbrev : option string;
  semantic_role : string;
  description : string;
  allowed_functions : gset string;
  forbidden_functions : gset string;
  why_not_alternatives : gmap string string;
  common_mistakes : list string
}.

(** [CaseConstraints.allows_function]. *)
Definition allows_function (self : CaseConstraints) (function : string) : bool :=
  if bool_decide (forbidden_functions self ≠ ∅)
     && bool_decide (function ∈ forbidden_functions self) then false
  else if bool_decide (allowed_functions self ≠ ∅)
          && negb (bool_decide (function ∈ allowed_functions self)) then false
  else true.

(** One value of [ROLE_FUNCTION_RULES]: [{"allowed": ..., "forbidden": ...}]. *)
Record RoleRule := {
  allowed : gset string;
  forbidden : gset string
}.

Definition rule (a f : list string) : RoleRule :=
  {| allowed := list_to_set a; forbidden := list_to_set f |}.

(** The class attribute [RuleExtractor.ROLE_FUNCTION_RULES]. *)
Definition ROLE_FUNCTION_RULES : gmap string RoleRule :=
  list_to_map [
    ("EXPERIENCER", rule ["STA"] ["DYN"; "MNF"]);
    ("AGENT", rule ["DYN"; "MNF"] ["STA"]);
    ("PATIENT", rule ["STA"; "DYN"] []);
    ("AGENT+PATIENT", rule ["STA"; "DYN"] []);
    ("INSTRUMENT", rule ["DYN"] ["STA"]);
    ("CONTENT", rule ["STA"; "DYN"; "MNF"] []);
    ("STIMULUS", rule ["STA"; "DYN"] []);
    ("GOAL", rule ["DYN"; "MNF"] ["STA"]);
    ("PURPOSE", rule ["DYN"; "MNF"] ["STA"]);
    ("ENABLER", rule ["DYN"; "MNF"] []);
    ("ACTIVATION", rule ["DYN"; "MNF"] []);
    ("RECIPIENT", rule ["DYN"] []);
    ("ATTRIBUTE", rule ["STA"] []);
    ("POSSESSOR", rule ["STA"] []);
    ("OWNER", rule ["STA"] []);
    ("LOCATION", rule ["STA"; "DYN"] []);
    ("ORIENTATION", rule ["STA"; "DYN"] []);
    ("SOURCE", rule ["STA"; "DYN"] []);
    ("PART", rule ["STA"; "DYN"] []);
    ("CORRELATION", rule ["STA"; "DYN"] []);
    ("DEPENDENT", rule ["STA"; "DYN"] []);
    ("CONTINGENCY", rule ["STA"; "DYN"] [])
  ].

(** The fallback of [ROLE_FUNCTION_RULES.get]: allow all, forbid none. *)
Definition default_rule : RoleRule := rule ["STA"; "DYN"; "MNF"] [].

(** One entry of the grammar dataset ([Dict[str, Any]]), seen through the
    keys that [extract_case_constraints] reads with [.get]; [None] is an
    absent key.  The values have the types that [CaseConstraints] declares
    for them. *)
Record CaseData := {
  cd_type : option string;
  cd_code : option string;
  cd_name : option string;
  cd_semantic_role : option string;
  cd_description : option string;
  cd_why_not_alternatives : option (gmap string string);
  cd_common_mistakes : option (list string)
}.

(** A [RuleExtractor] instance: the role table it resolves
    [self.ROLE_FUNCTION_RULES] to, and [self.raw_data]. *)
Record t := {
  role_function_rules : gmap string RoleRule;
  raw_data : list CaseData
}.

(** [RuleExtractor.__init__], given what [_load_data] returned. *)
Definition init (data : list CaseData) : t :=
  {| role_function_rules := ROLE_FUNCTION_RULES; raw_data := data |}.

(** The [CaseConstraints(...)] built in the loop body for [case_data]. *)
Definition constraints_of (rules : gmap string RoleRule) (case_data : CaseData)
  : CaseConstraints :=
  let code := cd_code case_data in
  let semantic_role := default "UNKNOWN" (cd_semantic_role case_data) in
  let role_rules := default default_rule (rules !! semantic_role) in
  {| case_name := match cd_name case_data with Some n => Some n | None => code end;
     case_abbrev := code;
     semantic_role := semantic_role;
     description := default "" (cd_description case_data);
     allowed_functions := allowed role_rules;
     forbidden_functions := forbidden role_rules;
     why_not_alternatives := default ∅ (cd_why_not_alternatives case_data);
     common_mistakes := default [] (cd_common_mistakes case_data) |}.

Definition is_case (item : CaseData) : bool :=
  bool_decide (cd_type item = Some "case").

(** [RuleExtractor.extract_case_constraints].  The resulting dict is keyed
    by [code], which is [None] for an entry without one; a later entry
    replaces an earlier one with the same code. *)
Definition extract_case_constraints (self : t)
  : gmap (option string) CaseConstraints :=
  let cases := List.filter is_case (raw_data self) in
  fold_left
    (fun constraints case_data =>
       <[cd_code case_data := constraints_of (role_function_rules self) case_data]>
         constraints)
    cases ∅.

(** [RuleExtractor.validate_rules]: [False] as soon as one record has a
    non-empty [allowed & forbidden], [True] otherwise.  The verdict does
    not depend on the order in which the dict is traversed. *)
Definition validate_rules (self : t) : bool :=
  let constraints := extract_case_constraints self in
  forallb
    (fun kc : option string * CaseConstraints =>
       let overlap := allowed_functions kc.2 ∩ forbidden_functions kc.2 in
       bool_decide (overlap = ∅))
    (map_to_list constraints).

End RuleExtractor.

(** ** [validators/cooccurrence_rules.py] *)

Module CooccurrenceRules.
Import RuleExtractor.

Record t := {
  extractor : RuleExtractor.t;
  constraints : gmap (option string) CaseConstraints
}.

(** The body of [CooccurrenceRules.__init__] once [self.extractor] is set. *)
Definition of_extractor (ex : RuleExtractor.t) : result t :=
  let constraints := extract_case_constraints ex in
  if negb (validate_rules ex) then
    Raise (ValueError "Inconsistent rules detected in grammar data")
  else Ok {| extractor := ex; constraints := constraints |}.

(** [CooccurrenceRules.__init__], given what [_load_data] did. *)
Definition init (loaded : result (list CaseData)) : result t :=
  match loaded with
  | Raise e => Raise e
  | Ok data => of_extractor (RuleExtractor.init data)
  end.

(** [CooccurrenceRules.check_case_function]. *)
Definition check_case_function (self : t) (case function : string)
  : bool * option string :=
  match constraints self !! Some case with
  | None => (true, None)
  | Some constraint =>
      if negb (allows_function constraint function) then
        let allowed := allowed_functions constraint in
        let forbidden := forbidden_functions constraint in
        let msg :=
          case ++ " (" ++ fmt_opt (case_name constraint)
          ++ ") cannot co-occur with " ++ function ++ " function. "
          ++ "Semantic role: " ++ semantic_role constraint ++ ". " in
        let msg :=
          if bool_decide (allowed ≠ ∅)
          then msg ++ "Allowed: " ++ join ", " (sorted allowed) ++ ". "
          else msg in
        let msg :=
          if bool_decide (forbidden ≠ ∅)
          then msg ++ "Forbidden: " ++ join ", " (sorted forbidden) ++ "."
          else msg in
        (false, Some msg)
      else (true, None)
  end.

(** [CooccurrenceRules.get_allowed_functions]. *)
Definition get_allowed_functions (self : t) (case : string) : gset string :=
  match constraints self !! Some case with
  | None => {[ "STA"; "DYN"; "MNF" ]}
  | Some constraint => allowed_functions constraint
  end.

End CooccurrenceRules.

(** ** [rag_system.py]: the retriever consulted by the engine *)

Module RAGSystem.

(** [@dataclass RetrievedChunk]. *)
Record RetrievedChunk := {
  case_code : string;
  case_name : string;
  semantic_role : string;
  description : string;
  citation : string;
  score : float
}.

(** A [RAGSystem] instance as the engine sees it: the answer of
    [retrieve_for_case] for each case code.  The collection is filled once,
    when the instance is built, so the answer is a function of the code. *)
Record t := {
  retrieve_for_case : string -> option RetrievedChunk
}.

End RAGSystem.

(** ** [validation_engine.py] *)

Module ValidationEngine.
Import RuleExtractor.

Inductive ValidationLevel : Type :=
| STRUCTURE
| COHERENCE
| SEMANTIC.

(** [@dataclass ValidationError].  [message] holds the [Optional[str]] that
    [check_case_function] returns in the constraint-lookup branch. *)
Record ValidationError := {
  level : ValidationLevel;
  message : option string;
  slot : option string;
  suggestion : option string
}.

(** [@dataclass ValidationResult]. *)
Record ValidationResult := {
  passed : bool;
  confidence : float;
  errors : list ValidationError;
  citations : list string;
  needs_clarification : bool
}.

(** [self.stats]: the four counters created by [__init__]; [stats_passed]
    is the key ["passed"]. *)
Record Stats := {
  total_validations : Z;
  stats_passed : Z;
  rejected : Z;
  clarification_needed : Z
}.

Definition initial_stats : Stats :=
  {| total_validations := 0; stats_passed := 0; rejected := 0;
     clarification_needed := 0 |}.

(** [self.stats[k] += 1], one definition per key. *)
Definition incr_total_validations (s : Stats) : Stats :=
  {| total_validations := total_validations s + 1; stats_passed := stats_passed s;
     rejected := rejected s; clarification_needed := clarification_needed s |}.

Definition incr_passed (s : Stats) : Stats :=
  {| total_validations := total_validations s; stats_passed := stats_passed s + 1;
     rejected := rejected s; clarification_needed := clarification_needed s |}.

Definition incr_rejected (s : Stats) : Stats :=
  {| total_validations := total_validations s; stats_passed := stats_passed s;
     rejected := rejected s + 1; clarification_needed := clarification_needed s |}.

Definition incr_clarification_needed (s : Stats) : Stats :=
  {| total_validations := total_validations s; stats_passed := stats_passed s;
     rejected := rejected s; clarification_needed := clarification_needed s + 1 |}.

(** The engine's read-only attributes after [__init__] ([grammar_kb] is
    stored and never read). *)
Record t := {
  cooccurrence_rules : option CooccurrenceRules.t;
  rag : option RAGSystem.t
}.

(** What [__init__] learns about [grammar_file]: whether it exists, and what
    [RuleExtractor._load_data] does on it. *)
Record GrammarFile := {
  gf_exists : bool;
  gf_load : result (list CaseData)
}.

(** [ValidationEngine.__init__]: [grammar_file] is [None] when no path is
    given; [rag_ctor] is what [RAGSystem(grammar_file)] does.  Any exception
    of the two constructors is caught, and the attributes assigned before it
    keep their value. *)
Definition init (grammar_file : option GrammarFile) (rag_ctor : result RAGSystem.t)
  : t * Stats :=
  let self :=
    match grammar_file with
    | Some gf =>
        if gf_exists gf then
          match CooccurrenceRules.init (gf_load gf) with
          | Ok rules =>
              match rag_ctor with
              | Ok r => {| cooccurrence_rules := Some rules; rag := Some r |}
              | Raise _ => {| cooccurrence_rules := Some rules; rag := None |}
              end
          | Raise _ => {| cooccurrence_rules := None; rag := None |}
          end
        else {| cooccurrence_rules := None; rag := None |}
    | None => {| cooccurrence_rules := None; rag := None |}
    end in
  (self, initial_stats).

(** [ValidationEngine._validate_structure]: a placeholder that reports
    nothing. *)
Definition _validate_structure (self : t) (semantic_json : gmap string pyval)
  : list ValidationError :=
  let errors : list ValidationError := [] in
  errors.

Definition valid_functions : gset string := {[ "STA"; "DYN"; "MNF" ]}.

(** The errors appended by [_validate_coherence], one per failing stage. *)
Definition case_type_error (case : pyval) : ValidationError :=
  {| level := COHERENCE;
     message := Some ("Case must be a string, got " ++ type_name case);
     slot := Some "case";
     suggestion := Some "Use a 3-letter case code like AFF, ERG, ABS" |}.

Definition function_type_error (function : pyval) : ValidationError :=
  {| level := COHERENCE;
     message := Some ("Function must be a string, got " ++ type_name function);
     slot := Some "function";
     suggestion := Some "Use STA for states or DYN for actions" |}.

Definition function_enum_error (function : string) : ValidationError :=
  {| level := COHERENCE;
     message := Some ("Invalid function '" ++ function ++ "'. Must be one of: "
                      ++ join ", " (sorted valid_functions));
     slot := Some "function";
     suggestion := Some "Use STA for states or DYN for actions" |}.

Definition case_format_error (case : string) : ValidationError :=
  {| level := COHERENCE;
     message := Some ("Invalid case format '" ++ case
                      ++ "'. Cases are 3-letter uppercase codes like AFF, ERG, ABS");
     slot := Some "case";
     suggestion := Some "Use a valid case code" |}.

Definition cooccurrence_error (error_msg : option string) (allowed : gset string)
  : ValidationError :=
  {| level := COHERENCE;
     message := error_msg;
     slot := Some "case+function";
     suggestion := Some ("Try one of: " ++ join ", " (sorted allowed)) |}.

(** [len(case) == 3 and case.isupper() and case.isalpha()]. *)
Definition case_format_ok (case : string) : bool :=
  (String.length case =? 3)%nat && isupper case && isalpha case.

(** [ValidationEngine._validate_coherence]. *)
Definition _validate_coherence (self : t) (semantic_json : gmap string pyval)
  : list ValidationError :=
  let errors : list ValidationError := [] in
  let case := dict_get semantic_json "case" in
  let function := dict_get semantic_json "function" in
  if negb (truthy case) || negb (truthy function) then errors
  else
    match case with
    | VStr case_s =>
        match function with
        | VStr function_s =>
            if negb (bool_decide (function_s ∈ valid_functions)) then
              list_append errors (function_enum_error function_s)
            else if negb (case_format_ok case_s) then
              list_append errors (case_format_error case_s)
            else
              match cooccurrence_rules self with
              | Some rules =>
                  if bool_decide (is_Some (CooccurrenceRules.constraints rules
                                             !! Some case_s)) then
                    let '(is_valid, error_msg) :=
                      CooccurrenceRules.check_case_function rules case_s function_s in
                    if negb is_valid then
                      let allowed :=
                        CooccurrenceRules.get_allowed_functions rules case_s in
                      list_append errors (cooccurrence_error error_msg allowed)
                    else errors
                  else errors
              | None => errors
              end
        | _ => list_append errors (function_type_error function)
        end
    | _ => list_append errors (case_type_error case)
    end.

(** The dict returned by [_validate_semantic]. *)
Record SemanticResult := {
  sem_errors : list ValidationError;
  sem_confidence : float;
  sem_citations : list string
}.

(** The section sign of the fallback citation, code point 167. *)
Definition section_sign : string := String "167"%char EmptyString.

(** [ValidationEngine._validate_semantic].  The guard
    [self.rag and case and isinstance(case, str)] holds exactly in the first
    branch of the match with [truthy case]; every other case is the [else]
    branch of the source. *)
Definition _validate_semantic (self : t) (semantic_json : gmap string pyval)
  : SemanticResult :=
  let errors : list ValidationError := [] in
  let confidence := 0.94%float in
  let citations : list string := [] in
  let case := dict_get semantic_json "case" in
  let '(confidence, citations) :=
    match rag self, case with
    | Some rag, VStr case_s =>
        if truthy case then
          match RAGSystem.retrieve_for_case rag case_s with
          | Some result =>
              let citations := list_append citations (RAGSystem.citation result) in
              let citations :=
                list_append citations
                  (RAGSystem.case_name result ++ " ("
                   ++ RAGSystem.semantic_role result ++ "): "
                   ++ String.substring 0 100 (RAGSystem.description result)
                   ++ "...") in
              (0.95%float, citations)
          | None =>
              (0.70%float,
               list_append citations
                 ("Warning: Case " ++ case_s ++ " not found in grammar database"))
          end
        else (0.90%float, ["Grammar " ++ section_sign ++ "7 (Cases)"])
    | _, _ => (0.90%float, ["Grammar " ++ section_sign ++ "7 (Cases)"])
    end in
  {| sem_errors := errors; sem_confidence := confidence;
     sem_citations := citations |}.

(** [if xs:] on a list. *)
Definition nonempty {A} (xs : list A) : bool :=
  match xs with [] => false | _ => true end.

(** [ValidationEngine.validate]: the verdict, and [self.stats] after the
    call. *)
Definition validate (self : t) (stats : Stats) (semantic_json : gmap string pyval)
  : ValidationResult * Stats :=
  let stats := incr_total_validations stats in
  let errors : list ValidationError := [] in
  let structure_errors := _validate_structure self semantic_json in
  let errors := list_extend errors structure_errors in
  if nonempty structure_errors then
    let stats := incr_rejected stats in
    ({| passed := false; confidence := 0.0%float; errors := errors;
        citations := []; needs_clarification := false |}, stats)
  else
  let coherence_errors := _validate_coherence self semantic_json in
  let errors := list_extend errors coherence_errors in
  if nonempty coherence_errors then
    let stats := incr_rejected stats in
    ({| passed := false; confidence := 0.0%float; errors := errors;
        citations := []; needs_clarification := false |}, stats)
  else
  let semantic_result := _validate_semantic self semantic_json in
  let errors := list_extend errors (sem_errors semantic_result) in
  let confidence := sem_confidence semantic_result in
  let citations := sem_citations semantic_result in
  if nonempty errors then
    let stats := incr_rejected stats in
    ({| passed := false; confidence := confidence; errors := errors;
        citations := citations; needs_clarification := false |}, stats)
  else if PrimFloat.ltb confidence 0.85%float then
    let stats := incr_clarification_needed stats in
    let stats := incr_passed stats in
    ({| passed := true; confidence := confidence; errors := [];
        citations := citations; needs_clarification := true |}, stats)
  else
    let stats := incr_passed stats in
    ({| passed := true; confidence := confidence; errors := [];
        citations := citations; needs_clarification := false |}, stats).

End ValidationEngine.

(** The candidate [{"case": c, "function": f}]. *)
Definition candidate (c f : pyval) : gmap string pyval :=
  <["case" := c]> (<["function" := f]> ∅).

(** ** Sample data used to exercise the model *)

Module Sample.
Import RuleExtractor ValidationEngine.

Definition entry (code name role : string) : CaseData :=
  {| cd_type := Some "case"; cd_code := Some code; cd_name := Some name;
     cd_semantic_role := Some role;
     cd_description := Some ("The " ++ name ++ " case");
     cd_why_not_alternatives := None; cd_common_mistakes := None |}.

(** A few entries in the shape of [data/grammar_chunks.json]. *)
Definition dataset : list CaseData :=
  [ entry "AFF" "Affective" "EXPERIENCER";
    entry "ERG" "Ergative" "AGENT";
    entry "ABS" "Absolutive" "PATIENT";
    entry "INS" "Instrumental" "INSTRUMENT";
    entry "PUR" "Purposive" "FUNCTION" ].

Definition grammar_file : GrammarFile :=
  {| gf_exists := true; gf_load := Ok dataset |}.

(** A retriever that knows the Affective and the Ergative case. *)
Definition chunk (code name role : string) : RAGSystem.RetrievedChunk :=
  {| RAGSystem.case_code := code; RAGSystem.case_name := name;
     RAGSystem.semantic_role := role;
     RAGSystem.description := "The " ++ name ++ " case";
     RAGSystem.citation := "Grammar 4.1";
     RAGSystem.score := 1%float |}.

Definition retriever : RAGSystem.t :=
  {| RAGSystem.retrieve_for_case := fun case_code =>
       if String.eqb case_code "AFF" then Some (chunk "AFF" "Affective" "EXPERIENCER")
       else if String.eqb case_code "ERG" then Some (chunk "ERG" "Ergative" "AGENT")
       else None |}.

(** The engine built from the sample file, with and without a retriever. *)
Definition engine : ValidationEngine.t :=
  (ValidationEngine.init (Some grammar_file) (Ok retriever)).1.

Definition engine_no_rag : ValidationEngine.t :=
  (ValidationEngine.init (Some grammar_file)
     (Raise (ImportError "ChromaDB required for RAG"))).1.

(** The rule store of the sample file. *)
Definition rules : CooccurrenceRules.t :=
  {| CooccurrenceRules.extractor := RuleExtractor.init dataset;
     CooccurrenceRules.constraints :=
       extract_case_constraints (RuleExtractor.init dataset) |}.

(** A dataset whose only entry has a lowercase code. *)
Definition lowercase_dataset : list CaseData :=
  [ entry "aff" "Affective" "EXPERIENCER" ].

Definition lowercase_engine : ValidationEngine.t :=
  (ValidationEngine.init
     (Some {| gf_exists := true; gf_load := Ok lowercase_dataset |})
     (Ok retriever)).1.

(** An entry that carries nothing but its type. *)
Definition bare_entry : CaseData :=
  {| cd_type := Some "case"; cd_code := None; cd_name := None;
     cd_semantic_role := None; cd_description := None;
     cd_why_not_alternatives := None; cd_common_mistakes := None |}.

(** An extractor whose role table contradicts itself on one role. *)
Definition conflicting_extractor : RuleExtractor.t :=
  {| role_function_rules := <["AGENT" := rule ["DYN"; "STA"] ["STA"]]> ROLE_FUNCTION_RULES;
     raw_data := dataset |}.

End Sample.

(** ** Further queries of the rule store and of the extractor *)

Module RuleStatistics.
Import RuleExtractor.

(** The inner dict ["cases_by_function"] of [get_stats]. *)
Record FunctionCounts := {
  count_STA : nat;
  count_DYN : nat;
  count_MNF : nat
}.

(** The dict returned by [RuleExtractor.get_stats]. *)
Record t := {
  total_cases : nat;
  strict_cases : nat;
  permissive_cases : nat;
  cases_by_function : FunctionCounts;
  semantic_roles_covered : nat
}.

(** [constraints.values()]. *)
Definition values (constraints : gmap (option string) CaseConstraints)
  : list CaseConstraints :=
  (map_to_list constraints).*2.

(** [sum(1 for c in constraints.values() if p(c))]. *)
Definition count_if (p : CaseConstraints → bool)
    (constraints : gmap (option string) CaseConstraints) : nat :=
  length (List.filter p (values constraints)).

(** [RuleExtractor.get_stats]. *)
Definition get_stats (self : RuleExtractor.t) : t :=
  let constraints := extract_case_constraints self in
  let strict_cases :=
    count_if (fun c => bool_decide (forbidden_functions c ≠ ∅)) constraints in
  let permissive_cases :=
    count_if (fun c => negb (bool_decide (forbidden_functions c ≠ ∅))) constraints in
  let function_counts :=
    {| count_STA :=
         count_if (fun c => bool_decide ("STA" ∈ allowed_functions c)) constraints;
       count_DYN :=
         count_if (fun c => bool_decide ("DYN" ∈ allowed_functions c)) constraints;
       count_MNF :=
         count_if (fun c => bool_decide ("MNF" ∈ allowed_functions c)) constraints |} in
  {| total_cases := size constraints;
     strict_cases := strict_cases;
     permissive_cases := permissive_cases;
     cases_by_function := function_counts;
     semantic_roles_covered :=
       size (list_to_set (semantic_role <$> values constraints) : gset string) |}.

End RuleStatistics.

Module CooccurrenceQueries.
Import RuleExtractor.

(** [CooccurrenceRules.get_case_description]. *)
Definition get_case_description (self : CooccurrenceRules.t) (case : string)
  : string :=
  match CooccurrenceRules.constraints self !! Some case with
  | None => "Unknown case: " ++ case
  | Some c =>
      fmt_opt (case_name c) ++ " (" ++ semantic_role c ++ "): "
      ++ String.substring 0 100 (description c) ++ "..."
  end.

(** [CooccurrenceRules.get_why_not_alternative]. *)
Definition get_why_not_alternative (self : CooccurrenceRules.t)
    (case alternative : string) : option string :=
  match CooccurrenceRules.constraints self !! Some case with
  | None => None
  | Some c => why_not_alternatives c !! alternative
  end.

(** [CooccurrenceRules.get_common_mistakes]. *)
Definition get_common_mistakes (self : CooccurrenceRules.t) (case : string)
  : list string :=
  match CooccurrenceRules.constraints self !! Some case with
  | None => []
  | Some c => common_mistakes c
  end.

(** [CooccurrenceRules.get_stats]. *)
Definition get_stats (self : CooccurrenceRules.t) : RuleStatistics.t :=
  RuleStatistics.get_stats (CooccurrenceRules.extractor self).

End CooccurrenceQueries.

(** Successive calls of [validate] on one engine, each on the counters left
    by the one before: the verdicts in call order, and the final counters. *)
Fixpoint validate_all (self : ValidationEngine.t) (stats : ValidationEngine.Stats)
    (inputs : list (gmap string pyval))
  : list ValidationEngine.ValidationResult * ValidationEngine.Stats :=
  match inputs with
  | [] => ([], stats)
  | j :: rest =>
      let '(r, stats) := ValidationEngine.validate self stats j in
      let '(rs, stats) := validate_all self stats rest in
      (r :: rs, stats)
  end.

(** ** [llm_client.py] *)

Module LLMClient.

(** One entry of [conversation_history]: [{"role": ..., "content": ...}]. *)
Record Message := {
  role : string;
  content : string
}.

(** What [self.client.chat.completions.create(...)] does: it answers with
    the content of the first choice, or raises an exception [e], of which
    [chat] only uses [str(e)]. *)
Inductive completion : Type :=
| Completed (assistant_message : string)
| Failed (str_e : string).

(** The remote service: the answer to a call with [model], [messages],
    [max_tokens] and [temperature]. *)
Definition Groq : Type := string → list Message → Z → float → completion.

Record t := {
  client : Groq;
  model : string;
  conversation_history : list Message
}.

(** [LLMClient.__init__], given the service that [Groq(api_key=...)]
    connects to. *)
Definition init (client : Groq) : t :=
  {| client := client; model := "llama-3.3-70b-versatile";
     conversation_history := [] |}.

Definition set_history (self : t) (history : list Message) : t :=
  {| client := client self; model := model self;
     conversation_history := history |}.

(** [bool(system_prompt)] for an [Optional[str]]. *)
Definition given (system_prompt : option string) : bool :=
  match system_prompt with
  | Some s => negb (String.eqb s "")
  | None => false
  end.

(** [LLMClient.chat]: the text returned, and the client after the call. *)
Definition chat (self : t) (user_message : string) (system_prompt : option string)
    (max_tokens : Z) (temperature : float) : string * t :=
  let history := conversation_history self in
  let history :=
    if negb (ValidationEngine.nonempty history) && given system_prompt then
      list_append history
        {| role := "system"; content := default "" system_prompt |}
    else history in
  let history :=
    list_append history {| role := "user"; content := user_message |} in
  match client self (model self) history max_tokens temperature with
  | Completed assistant_message =>
      let history :=
        list_append history
          {| role := "assistant"; content := assistant_message |} in
      (assistant_message, set_history self history)
  | Failed str_e =>
      ("Error calling LLM: " ++ str_e, set_history self history)
  end.

(** [LLMClient.reset_conversation]. *)
Definition reset_conversation (self : t) : t := set_history self [].

(** [LLMClient.get_conversation_length]. *)
Definition get_conversation_length (self : t) : nat :=
  length (conversation_history self).

(** The clients that a fresh client becomes through [chat] and
    [reset_conversation] calls. *)
Inductive reachable (client : Groq) : t → Prop :=
| reach_init : reachable client (init client)
| reach_chat self user_message system_prompt max_tokens temperature :
    reachable client self →
    reachable client
      (chat self user_message system_prompt max_tokens temperature).2
| reach_reset self :
    reachable client self → reachable client (reset_conversation self).

End LLMClient.

(** ** [rag_system.py]: retrieval from the collection *)

Module Retrieval.

(** The metadata stored with a chunk by [_embed_and_store]. *)
Record Metadata := {
  md_code : string;
  md_name : string;
  md_semantic_role : string;
  md_description : string;
  md_citation : string
}.

(** The dict returned by [collection.query]: one inner list per query
    text. *)
Record QueryResult := {
  ids : list (list string);
  metadatas : list (list Metadata);
  distances : list (list float)
}.

(** [collection.query(query_texts=[query], n_results=n, where=w)], where [w]
    is [None] or [{"code": c}]. *)
Definition Collection : Type := string → Z → option string → QueryResult.

(** A result, or the [IndexError] of a subscript out of range. *)
Inductive outcome (A : Type) : Type :=
| Return (a : A)
| IndexError.
Arguments Return {A} a.
Arguments IndexError {A}.

(** [min(a, b)] and [max(a, b)] on floats: the first argument unless the
    second is strictly smaller (greater). *)
Definition py_min (a b : float) : float := if PrimFloat.ltb b a then b else a.
Definition py_max (a b : float) : float := if PrimFloat.ltb a b then b else a.

(** The score of a chunk at distance [distance]. *)
Definition clamp_score (distance : float) : float :=
  let score := PrimFloat.sub 1.0%float (PrimFloat.div distance 2.0%float) in
  py_max 0.0%float (py_min 1.0%float score).

(** The body of the loop of [retrieve], for index [i]. *)
Definition chunk_at (results : QueryResult) (i : nat)
  : outcome RAGSystem.RetrievedChunk :=
  match metadatas results !! 0%nat ≫= (fun ms => ms !! i) with
  | None => IndexError
  | Some metadata =>
      match distances results !! 0%nat ≫= (fun ds => ds !! i) with
      | None => IndexError
      | Some distance =>
          Return {| RAGSystem.case_code := md_code metadata;
                    RAGSystem.case_name := md_name metadata;
                    RAGSystem.semantic_role := md_semantic_role metadata;
                    RAGSystem.description := md_description metadata;
                    RAGSystem.citation := md_citation metadata;
                    RAGSystem.score := clamp_score distance |}
      end
  end.

(** The loop [for i in ...: chunks.append(...)] over the indices [is]. *)
Fixpoint collect (results : QueryResult) (chunks : list RAGSystem.RetrievedChunk)
    (indices : list nat) : outcome (list RAGSystem.RetrievedChunk) :=
  match indices with
  | [] => Return chunks
  | i :: rest =>
      match chunk_at results i with
      | IndexError => IndexError
      | Return chunk => collect results (list_append chunks chunk) rest
      end
  end.

(** [RAGSystem.retrieve]. *)
Definition retrieve (collection : Collection) (query : string) (n_results : Z)
    (filter_case : option string) : outcome (list RAGSystem.RetrievedChunk) :=
  let where_ :=
    match filter_case with
    | Some c => if negb (String.eqb c "") then Some c else None
    | None => None
    end in
  let results := collection query n_results where_ in
  let chunks := [] in
  match ids results with
  | ids0 :: _ =>
      if (0 <? length ids0)%nat then collect results chunks (seq 0 (length ids0))
      else Return chunks
  | [] => Return chunks
  end.

(** [RAGSystem.retrieve_for_case]. *)
Definition retrieve_for_case (collection : Collection) (case_code : string)
  : outcome (option RAGSystem.RetrievedChunk) :=
  match retrieve collection case_code 1 (Some case_code) with
  | IndexError => IndexError
  | Return chunks =>
      Return (match chunks with chunk :: _ => Some chunk | [] => None end)
  end.

End Retrieval.

(** ** [validation_engine.py]: the engine over a collection *)

(** The engine as the pipeline builds it.  Its [self.rag], when set, is a
    [RAGSystem] over a collection, and [retrieve_for_case] raises the
    [IndexError] of [retrieve]; nothing in [validate] catches it. *)
Module EngineOverCollection.
Import Py ValidationEngine Retrieval.

(** The engine's read-only attributes after [__init__]. *)
Record t := {
  cooccurrence_rules : option CooccurrenceRules.t;
  rag : option Collection
}.

(** The retriever of the engine where it answers. *)
Definition answers (collection : Collection) : RAGSystem.t :=
  {| RAGSystem.retrieve_for_case :=
       fun case_code =>
         match retrieve_for_case collection case_code with
         | Return chunk => chunk
         | IndexError => None
         end |}.

(** The attributes read by [_validate_structure] and [_validate_coherence],
    which do not call the retriever. *)
Definition engine (self : t) : ValidationEngine.t :=
  {| ValidationEngine.cooccurrence_rules := cooccurrence_rules self;
     ValidationEngine.rag := answers <$> rag self |}.

(** [ValidationEngine._validate_semantic]. *)
Definition _validate_semantic (self : t) (semantic_json : gmap string pyval)
  : outcome SemanticResult :=
  let errors : list ValidationError := [] in
  let confidence := 0.94%float in
  let citations : list string := [] in
  let case := dict_get semantic_json "case" in
  let no_rag :=
    Return {| sem_errors := errors; sem_confidence := 0.90%float;
              sem_citations := ["Grammar " ++ section_sign ++ "7 (Cases)"] |} in
  match rag self, case with
  | Some rag, VStr case_s =>
      if truthy case then
        match retrieve_for_case rag case_s with
        | IndexError => IndexError
        | Return (Some result) =>
            let citations := list_append citations (RAGSystem.citation result) in
            let citations :=
              list_append citations
                (RAGSystem.case_name result ++ " ("
                 ++ RAGSystem.semantic_role result ++ "): "
                 ++ String.substring 0 100 (RAGSystem.description result)
                 ++ "...") in
            Return {| sem_errors := errors; sem_confidence := 0.95%float;
                      sem_citations := citations |}
        | Return None =>
            Return {| sem_errors := errors; sem_confidence := 0.70%float;
                      sem_citations :=
                        list_append citations
                          ("Warning: Case " ++ case_s
                           ++ " not found in grammar database") |}
        end
      else no_rag
  | _, _ => no_rag
  end.

(** [ValidationEngine.validate]: the verdict and [self.stats] after the
    call, or the [IndexError] of the retriever. *)
Definition validate (self : t) (stats : Stats) (semantic_json : gmap string pyval)
  : outcome (ValidationResult * Stats) :=
  let stats := incr_total_validations stats in
  let errors : list ValidationError := [] in
  let structure_errors := _validate_structure (engine self) semantic_json in
  let errors := list_extend errors structure_errors in
  if nonempty structure_errors then
    let stats := incr_rejected stats in
    Return ({| passed := false; confidence := 0.0%float; errors := errors;
               citations := []; needs_clarification := false |}, stats)
  else
  let coherence_errors := _validate_coherence (engine self) semantic_json in
  let errors := list_extend errors coherence_errors in
  if nonempty coherence_errors then
    let stats := incr_rejected stats in
    Return ({| passed := false; confidence := 0.0%float; errors := errors;
               citations := []; needs_clarification := false |}, stats)
  else
  match _validate_semantic self semantic_json with
  | IndexError => IndexError
  | Return semantic_result =>
      let errors := list_extend errors (sem_errors semantic_result) in
      let confidence := sem_confidence semantic_result in
      let citations := sem_citations semantic_result in
      if nonempty errors then
        let stats := incr_rejected stats in
        Return ({| passed := false; confidence := confidence; errors := errors;
                   citations := citations; needs_clarification := false |}, stats)
      else if PrimFloat.ltb confidence 0.85%float then
        let stats := incr_clarification_needed stats in
        let stats := incr_passed stats in
        Return ({| passed := true; confidence := confidence; errors := [];
                   citations := citations; needs_clarification := true |}, stats)
      else
        let stats := incr_passed stats in
        Return ({| passed := true; confidence := confidence; errors := [];
                   citations := citations; needs_clarification := false |}, stats)
  end.

End EngineOverCollection.

(** ** [copilot.py] *)

Module CopilotPipeline.
Import Retrieval.

(** The double quote and the line feed. *)
Definition dq : string := String "034"%char EmptyString.
Definition nl : string := String "010"%char EmptyString.

Definition quoted (s : string) : string := dq ++ s ++ dq.
Definition lines (ls : list string) : string := String.concat nl ls.

(** The last line of every prompt. *)
Definition json_template : string :=
  "{" ++ quoted "case" ++ ": " ++ quoted "THREE_LETTER_CODE" ++ ", "
  ++ quoted "function" ++ ": " ++ quoted "STA_or_DYN" ++ ", "
  ++ quoted "reasoning" ++ ": " ++ quoted "why" ++ "}".

(** [CopilotPipeline._build_prompt_without_rag]. *)
Definition _build_prompt_without_rag (user_input : string) : string :=
  lines [
    "You are an Ithkuil IV grammar expert.";
    "";
    "TASK: Given an English description, select the correct CASE and FUNCTION.";
    "";
    "VALID CASES: AFF, ERG, ABS, INS, THM, DAT, LOC, ALL, ABL, etc. (68 total)";
    "VALID FUNCTIONS: STA (static/states) or DYN (dynamic/actions)";
    "";
    "English description: " ++ quoted user_input;
    "";
    "Respond with ONLY valid JSON:";
    json_template;
    ""
  ].

(** [CopilotPipeline._build_prompt_with_rag]. *)
Definition _build_prompt_with_rag (user_input rag_context : string) : string :=
  lines [
    "You are an Ithkuil IV grammar expert.";
    "";
    "TASK: Given an English description, select the correct CASE and FUNCTION.";
    "";
    "VALID CASES (examples):";
    "- AFF (Affective): for unwilled experiences like feeling cold, sneezing, emotions";
    "- ERG (Ergative): for deliberate agents performing actions";
    "- ABS (Absolutive): for entities undergoing change";
    "- INS (Instrumental): for tools/instruments being used";
    "- THM (Thematic): for neutral content/topics";
    "";
    "VALID FUNCTIONS (only these two):";
    "- STA (Static): for states, conditions, non-changing situations";
    "- DYN (Dynamic): for actions, changes, motion";
    "";
    "KEY RULES:";
    "- AFF case REQUIRES STA function (experiences are states, not actions)";
    "- ERG case REQUIRES DYN function (agents perform actions)";
    "- INS case REQUIRES DYN function (instruments are actively used)";
    "";
    "RELEVANT GRAMMAR FROM OFFICIAL DOCUMENTATION:";
    rag_context;
    "";
    "English description: " ++ quoted user_input;
    "";
    "Respond with ONLY valid JSON:";
    json_template;
    ""
  ].

(** [CopilotPipeline._build_retry_prompt]; [previous_attempt] is not used,
    and [error_msg] is shown as [str] shows it. *)
Definition _build_retry_prompt (user_input : string)
    (previous_attempt : gmap string pyval) (error_msg : option string)
    (rag_context : string) : string :=
  lines [
    "Your previous suggestion was INVALID. Try again.";
    "";
    "VALID FUNCTIONS ARE ONLY: STA or DYN (not EXPERIENCER, not semantic roles)";
    "VALID CASES ARE: AFF, ERG, ABS, INS, THM, etc. (three-letter codes)";
    "";
    "GRAMMAR RULES:";
    rag_context;
    "";
    "REJECTION REASON: " ++ fmt_opt error_msg;
    "";
    "English description: " ++ quoted user_input;
    "";
    "Respond with ONLY valid JSON:";
    json_template;
    ""
  ].

(** The characters of [s] up to and including its first closing brace. *)
Fixpoint through_close_brace (s : string) : option string :=
  match s with
  | EmptyString => None
  | String c s' =>
      if Ascii.eqb c "}"%char then Some (String c EmptyString)
      else String c <$> through_close_brace s'
  end.

(** [re.search(r'\{[^}]+\}', response, re.DOTALL)], as [match.group()]: the
    leftmost opening brace that is followed by at least one character other
    than a closing brace and, later, by a closing brace; the match ends at
    the first closing brace. *)
Fixpoint search_braces (response : string) : option string :=
  match response with
  | EmptyString => None
  | String c rest =>
      let here :=
        if Ascii.eqb c "{"%char then
          match rest with
          | String c' _ =>
              if Ascii.eqb c' "}"%char then None
              else String c <$> through_close_brace rest
          | EmptyString => None
          end
        else None in
      match here with
      | Some m => Some m
      | None => search_braces rest
      end
  end.

(** The pipeline: its retriever's collection, its validator (an engine
    with a retriever of its own), and the two library functions it calls:
    [json.loads] on a text that starts with an opening brace ([None] for
    [JSONDecodeError], otherwise the decoded object), and the format
    [:.2f]. *)
Record t := {
  rag : Collection;
  validator : EngineOverCollection.t;
  json_loads : string → option (gmap string pyval);
  format_2f : float → string
}.

(** What the calls change: the conversation of [self.llm] and the counters
    of [self.validator]. *)
Record State := {
  llm : LLMClient.t;
  stats : ValidationEngine.Stats
}.

(** [CopilotPipeline._retrieve_context]. *)
Definition _retrieve_context (self : t) (user_input : string) : outcome string :=
  match retrieve (rag self) user_input 3 None with
  | IndexError => IndexError
  | Return chunks =>
      if negb (ValidationEngine.nonempty chunks) then
        Return "No specific rules found."
      else
        let context_parts :=
          (fun chunk =>
             "- " ++ RAGSystem.case_code chunk ++ " ("
             ++ RAGSystem.case_name chunk ++ "): "
             ++ RAGSystem.semantic_role chunk ++ nl ++ "  "
             ++ String.substring 0 200 (RAGSystem.description chunk))
          <$> chunks in
        Return (String.concat (nl ++ nl) context_parts)
  end.

(** [CopilotPipeline._parse_llm_response]. *)
Definition _parse_llm_response (self : t) (response : string)
  : option (gmap string pyval) :=
  match search_braces response with
  | Some group => json_loads self group
  | None => None
  end.

(** [bool(suggestion)] for an [Optional[Dict]]. *)
Definition parsed (suggestion : option (gmap string pyval))
  : option (gmap string pyval) :=
  match suggestion with
  | Some d => if (0 <? size d)%nat then Some d else None
  | None => None
  end.

(** [result.errors[0].message if result.errors else fallback]. *)
Definition first_message (result : ValidationEngine.ValidationResult)
    (fallback : string) : option string :=
  match ValidationEngine.errors result with
  | e :: _ => ValidationEngine.message e
  | [] => Some fallback
  end.

Definition raw (response : string) : gmap string pyval :=
  {[ "raw" := VStr response ]}.

(** [CopilotPipeline.suggest_without_rag]: the returned triple and the
    state after the call, or the [IndexError] of the validator's
    retriever. *)
Definition suggest_without_rag (self : t) (st : State) (user_input : string)
  : outcome ((gmap string pyval * bool * option string) * State) :=
  let llm := LLMClient.reset_conversation (llm st) in
  let prompt := _build_prompt_without_rag user_input in
  let '(response, llm) := LLMClient.chat llm prompt None 200 0.3%float in
  match parsed (_parse_llm_response self response) with
  | None =>
      Return ((raw response, false, Some "Failed to parse LLM response"),
              {| llm := llm; stats := stats st |})
  | Some suggestion =>
      match EngineOverCollection.validate (validator self) (stats st) suggestion with
      | IndexError => IndexError
      | Return (result, stats) =>
          if ValidationEngine.passed result then
            Return ((suggestion, true,
                     Some ("Valid (confidence: "
                           ++ format_2f self (ValidationEngine.confidence result)
                           ++ ")")),
                    {| llm := llm; stats := stats |})
          else
            let error_msg := first_message result "Unknown error" in
            Return ((suggestion, false, error_msg),
                    {| llm := llm; stats := stats |})
      end
  end.

(** [CopilotPipeline.suggest_with_rag]: the returned quadruple and the state
    after the call, or the [IndexError] of one of the two retrievers. *)
Definition suggest_with_rag (self : t) (st : State) (user_input : string)
    (max_retries : Z)
  : outcome ((gmap string pyval * bool * option string * Z) * State) :=
  let llm := LLMClient.reset_conversation (llm st) in
  match _retrieve_context self user_input with
  | IndexError => IndexError
  | Return rag_context =>
      let prompt := _build_prompt_with_rag user_input rag_context in
      let '(response, llm) := LLMClient.chat llm prompt None 200 0.3%float in
      match parsed (_parse_llm_response self response) with
      | None =>
          Return ((raw response, false, Some "Failed to parse LLM response", 1%Z),
                  {| llm := llm; stats := stats st |})
      | Some suggestion =>
          match EngineOverCollection.validate (validator self) (stats st)
                  suggestion with
          | IndexError => IndexError
          | Return (result, stats) =>
              if ValidationEngine.passed result then
                Return ((suggestion, true,
                         Some ("Valid (confidence: "
                               ++ format_2f self
                                    (ValidationEngine.confidence result)
                               ++ ")"), 1%Z),
                        {| llm := llm; stats := stats |})
              else
                let fall_through (llm : LLMClient.t)
                    (stats : ValidationEngine.Stats) :=
                  let error_msg := first_message result "Unknown error" in
                  Return ((suggestion, false, error_msg, 1%Z),
                          {| llm := llm; stats := stats |}) in
                if (0 <? max_retries)%Z then
                  let error_msg := first_message result "Unknown error" in
                  let retry_prompt :=
                    _build_retry_prompt user_input suggestion error_msg
                      rag_context in
                  let '(retry_response, llm) :=
                    LLMClient.chat llm retry_prompt None 200 0.2%float in
                  match parsed (_parse_llm_response self retry_response) with
                  | Some retry_suggestion =>
                      match EngineOverCollection.validate (validator self) stats
                              retry_suggestion with
                      | IndexError => IndexError
                      | Return (retry_result, stats) =>
                          if ValidationEngine.passed retry_result then
                            Return ((retry_suggestion, true,
                                     Some ("Valid after retry (confidence: "
                                           ++ format_2f self
                                                (ValidationEngine.confidence
                                                   retry_result)
                                           ++ ")"), 2%Z),
                                    {| llm := llm; stats := stats |})
                          else
                            let error_msg :=
                              first_message retry_result "Unknown" in
                            Return ((retry_suggestion, false, error_msg, 2%Z),
                                    {| llm := llm; stats := stats |})
                      end
                  | None => fall_through llm stats
                  end
                else fall_through llm stats
          end
      end
  end.

End CopilotPipeline.

(** ** [rag_system.py]: filling the collection *)

Module EmbedStore.
Import Retrieval.

(** One entry of the grammar dataset, seen through the keys that
    [_load_grammar_chunks] and [_embed_and_store] read; [None] is an absent
    key. *)
Record GrammarChunk := {
  gc_type : option string;
  gc_id : option string;
  gc_code : option string;
  gc_name : option string;
  gc_semantic_role : option string;
  gc_description : option string;
  gc_citation : option string;
  gc_embedding_text : option string
}.

(** The body of [RAGSystem._load_grammar_chunks] after [json.load]. *)
Definition _load_grammar_chunks (data : list GrammarChunk) : list GrammarChunk :=
  List.filter (fun item => bool_decide (gc_type item = Some "case")) data.

(** The three lists handed to [collection.add], or the [KeyError] of a
    subscript [chunk[key]] on an absent key. *)
Inductive stored : Type :=
| Stored (documents : list string) (metadatas : list Metadata) (ids : list string)
| KeyError (key : string).

(** [chunk[key]] for the three keys read with a subscript. *)
Definition subscript (value : option string) (key : string)
    (k : string → stored) : stored :=
  match value with
  | Some v => k v
  | None => KeyError key
  end.

(** The loop of [RAGSystem._embed_and_store]: the lists after the chunks
    [chunks] have been appended. *)
Fixpoint prepare (chunks : list GrammarChunk) (documents : list string)
    (metadatas : list Metadata) (ids : list string) : stored :=
  match chunks with
  | [] => Stored documents metadatas ids
  | chunk :: rest =>
      let embed_text := default "" (gc_embedding_text chunk) in
      let continue (embed_text : string) : stored :=
        let documents := list_append documents embed_text in
        subscript (gc_code chunk) "code" (fun code =>
        subscript (gc_name chunk) "name" (fun name =>
        let metadatas :=
          list_append metadatas
            {| md_code := code; md_name := name;
               md_semantic_role := default "" (gc_semantic_role chunk);
               md_description :=
                 String.substring 0 200 (default "" (gc_description chunk));
               md_citation := default "" (gc_citation chunk) |} in
        subscript (gc_id chunk) "id" (fun id =>
        let ids := list_append ids id in
        prepare rest documents metadatas ids))) in
      if String.eqb embed_text "" then
        subscript (gc_name chunk) "name" (fun name =>
        subscript (gc_code chunk) "code" (fun code =>
        continue (name ++ " " ++ code ++ " "
                  ++ default "" (gc_semantic_role chunk) ++ " "
                  ++ default "" (gc_description chunk))))
      else continue embed_text
  end.

(** [RAGSystem._embed_and_store], up to the calls of the embedder and of
    [collection.add]. *)
Definition _embed_and_store (chunks : list GrammarChunk) : stored :=
  prepare chunks [] [] [].

End EmbedStore.

(** ** [experiment.py] *)

Module Experiment.
Import Retrieval.

(** One tuple of [TEST_CASES]: the English input, the expected case and
    function, and an explanation. *)
Record TestCase := {
  english : string;
  expected_case : string;
  expected_func : string;
  explanation : string
}.

Definition test_case (e c f x : string) : TestCase :=
  {| english := e; expected_case := c; expected_func := f; explanation := x |}.

Definition TEST_CASES : list TestCase := [
  test_case "experiencing cold involuntarily" "AFF" "STA" "unwilled bodily sensation";
  test_case "feeling fear" "AFF" "STA" "unwilled emotion";
  test_case "sneezing" "AFF" "STA" "involuntary reflex";
  test_case "hearing a loud noise" "AFF" "STA" "sensory experience";
  test_case "feeling hungry" "AFF" "STA" "bodily state";
  test_case "deliberately breaking a vase" "ERG" "DYN" "intentional action";
  test_case "a person writing a letter" "ERG" "DYN" "volitional agent";
  test_case "the chef cooking dinner" "ERG" "DYN" "agent performing action";
  test_case "someone intentionally pushing a door" "ERG" "DYN" "deliberate force";
  test_case "a student solving a problem" "ERG" "DYN" "cognitive agent";
  test_case "using a hammer to hit a nail" "INS" "DYN" "tool in active use";
  test_case "the key that opens the door" "INS" "DYN" "instrument enabling action";
  test_case "cutting with a knife" "INS" "DYN" "tool being wielded";
  test_case "the vase that was broken" "ABS" "STA" "result state of patient";
  test_case "the door being opened" "ABS" "DYN" "patient undergoing change";
  test_case "the topic of discussion" "THM" "STA" "static content";
  test_case "what we are talking about" "THM" "STA" "thematic content";
  test_case "the noise that startled me" "STM" "STA" "stimulus causing reaction";
  test_case "the sight that frightened her" "STM" "STA" "stimulus for emotion";
  test_case "the person receiving a gift" "DAT" "DYN" "recipient of transfer"
].

(** [xs[:n]] for an integer [n]: the first [n] items, or all but the last
    [-n] when [n] is negative. *)
Definition slice_to {A} (xs : list A) (n : Z) : list A :=
  if (0 <=? n)%Z then take (Z.to_nat n) xs
  else take (length xs - Z.to_nat (- n)) xs.

(** [TEST_CASES[:num_cases] if num_cases else TEST_CASES]. *)
Definition selected (num_cases : option Z) : list TestCase :=
  match num_cases with
  | Some n => if negb (n =? 0)%Z then slice_to TEST_CASES n else TEST_CASES
  | None => TEST_CASES
  end.

(** One dict of a ["details"] list; [attempts] is only present in the arm
    with retrieval. *)
Record Detail := {
  input : string;
  expected : string * string;
  got : pyval * pyval;
  detail_valid : bool;
  case_correct : bool;
  func_correct : bool;
  attempts : option Z;
  reasoning : pyval
}.

(** The dict of one arm of the experiment. *)
Record Arm := {
  valid : Z;
  correct_case : Z;
  correct_function : Z;
  fully_correct : Z;
  details : list Detail
}.

Definition empty_arm : Arm :=
  {| valid := 0; correct_case := 0; correct_function := 0; fully_correct := 0;
     details := [] |}.

(** The dict returned by [run_experiment]. *)
Record Results := {
  timestamp : string;
  total_cases : nat;
  without_rag : Arm;
  with_rag : Arm
}.

(** [value == text] for a decoded value and a [str]. *)
Definition equals_text (value : pyval) (text : string) : bool :=
  match value with
  | VStr s => String.eqb s text
  | _ => false
  end.

(** [d.get(key, default)]. *)
Definition get_or (d : gmap string pyval) (key : string) (fallback : string)
  : pyval :=
  default (VStr fallback) (d !! key).

(** The updates of one arm for one test case: the four [+=] and the
    [append]. *)
Definition record (arm : Arm) (case : TestCase) (suggestion : gmap string pyval)
    (is_valid : bool) (attempts : option Z) : Arm :=
  let got_case := get_or suggestion "case" "???" in
  let got_func := get_or suggestion "function" "???" in
  let case_correct := equals_text got_case (expected_case case) in
  let func_correct := equals_text got_func (expected_func case) in
  let fully_correct := case_correct && func_correct in
  {| valid := valid arm + Z.b2z is_valid;
     correct_case := correct_case arm + Z.b2z case_correct;
     correct_function := correct_function arm + Z.b2z func_correct;
     fully_correct := Experiment.fully_correct arm + Z.b2z fully_correct;
     details :=
       list_append (details arm)
         {| input := english case;
            expected := (expected_case case, expected_func case);
            got := (got_case, got_func);
            detail_valid := is_valid;
            case_correct := case_correct;
            func_correct := func_correct;
            attempts := attempts;
            reasoning := get_or suggestion "reasoning" "" |} |}.

(** The loop of [run_experiment] over [cases], from the arms [no_rag] and
    [rag] and the pipeline state [st]. *)
Fixpoint run_cases (pipeline : CopilotPipeline.t) (st : CopilotPipeline.State)
    (cases : list TestCase) (no_rag rag : Arm)
  : outcome ((Arm * Arm) * CopilotPipeline.State) :=
  match cases with
  | [] => Return ((no_rag, rag), st)
  | case :: rest =>
      match CopilotPipeline.suggest_without_rag pipeline st (english case) with
      | IndexError => IndexError
      | Return ((suggestion, is_valid, msg), st) =>
          let no_rag := record no_rag case suggestion is_valid None in
          match CopilotPipeline.suggest_with_rag pipeline st (english case) 1
          with
          | IndexError => IndexError
          | Return ((suggestion, is_valid, msg, attempts), st) =>
              let rag := record rag case suggestion is_valid (Some attempts) in
              run_cases pipeline st rest no_rag rag
          end
      end
  end.

(** [run_experiment]; [now] is [datetime.now().isoformat()]. *)
Definition run_experiment (now : string) (pipeline : CopilotPipeline.t)
    (st : CopilotPipeline.State) (num_cases : option Z)
  : outcome (Results * CopilotPipeline.State) :=
  let cases := selected num_cases in
  match run_cases pipeline st cases empty_arm empty_arm with
  | IndexError => IndexError
  | Return ((no_rag, rag), st) =>
      Return ({| timestamp := now; total_cases := length cases;
                 without_rag := no_rag; with_rag := rag |}, st)
  end.

End Experiment.

(** ** Sample collection, service and pipeline *)

Module SampleRetrieval.
Import Retrieval.

Definition affective : Metadata :=
  {| md_code := "AFF"; md_name := "Affective";
     md_semantic_role := "EXPERIENCER";
     md_description := "The Affective case"; md_citation := "Grammar 4.1" |}.

Definition ergative : Metadata :=
  {| md_code := "ERG"; md_name := "Ergative"; md_semantic_role := "AGENT";
     md_description := "The Ergative case"; md_citation := "Grammar 4.1" |}.

(** A collection of two chunks: a query filtered on a code finds the chunk
    of that code, an unfiltered one finds both. *)
Definition collection : Collection :=
  fun query n_results where_ =>
    match where_ with
    | Some c =>
        if String.eqb c "AFF" then
          {| ids := [["case-aff"]]; metadatas := [[affective]];
             distances := [[0.5%float]] |}
        else if String.eqb c "ERG" then
          {| ids := [["case-erg"]]; metadatas := [[ergative]];
             distances := [[3.0%float]] |}
        else {| ids := [[]]; metadatas := [[]]; distances := [[]] |}
    | None =>
        {| ids := [["case-aff"; "case-erg"]];
           metadatas := [[affective; ergative]];
           distances := [[0.5%float; 1.25%float]] |}
    end.

(** A collection that answers with an id and no metadata. *)
Definition broken_collection : Collection :=
  fun query n_results where_ =>
    {| ids := [["case-aff"]]; metadatas := [[]]; distances := [[0.5%float]] |}.

(** A collection that answers a query without filter as [collection] does,
    and a filtered one with an id and no metadata. *)
Definition filter_broken_collection : Collection :=
  fun query n_results where_ =>
    match where_ with
    | Some _ => broken_collection query n_results where_
    | None => collection query n_results where_
    end.

End SampleRetrieval.

Module SamplePipeline.

(** The texts of two suggestions, as a model would write them. *)
Definition text (case function : string) : string :=
  "{" ++ CopilotPipeline.quoted "case" ++ ": " ++ CopilotPipeline.quoted case
  ++ ", " ++ CopilotPipeline.quoted "function" ++ ": "
  ++ CopilotPipeline.quoted function ++ "}".

(** A decoder that knows these two texts. *)
Definition json_loads (s : string) : option (gmap string pyval) :=
  if String.eqb s (text "AFF" "DYN")
  then Some (candidate (VStr "AFF") (VStr "DYN"))
  else if String.eqb s (text "AFF" "STA")
  then Some (candidate (VStr "AFF") (VStr "STA"))
  else None.

(** A service that first suggests AFF with DYN and, asked again, AFF with
    STA. *)
Definition service : LLMClient.Groq :=
  fun model messages max_tokens temperature =>
    if (length messages <? 2)%nat
    then LLMClient.Completed ("I suggest " ++ text "AFF" "DYN")
    else LLMClient.Completed (text "AFF" "STA" ++ " is my second answer").

Definition format_2f (f : float) : string :=
  if PrimFloat.eqb f 0.95%float then "0.95"
  else if PrimFloat.eqb f 0.70%float then "0.70" else "0.90".

(** The validator of the sample file over a collection. *)
Definition validator (collection : Retrieval.Collection)
  : EngineOverCollection.t :=
  {| EngineOverCollection.cooccurrence_rules := Some Sample.rules;
     EngineOverCollection.rag := Some collection |}.

Definition pipeline : CopilotPipeline.t :=
  {| CopilotPipeline.rag := SampleRetrieval.collection;
     CopilotPipeline.validator := validator SampleRetrieval.collection;
     CopilotPipeline.json_loads := json_loads;
     CopilotPipeline.format_2f := format_2f |}.

(** The same pipeline with a validator whose retriever fails on filtered
    queries. *)
Definition fragile_pipeline : CopilotPipeline.t :=
  {| CopilotPipeline.rag := SampleRetrieval.collection;
     CopilotPipeline.validator :=
       validator SampleRetrieval.filter_broken_collection;
     CopilotPipeline.json_loads := json_loads;
     CopilotPipeline.format_2f := format_2f |}.

Definition start : CopilotPipeline.State :=
  {| CopilotPipeline.llm := LLMClient.init service;
     CopilotPipeline.stats := ValidationEngine.initial_stats |}.

End SamplePipeline.

(** A chunk that has the three keys read with a subscript. *)
Definition chunk_storable (chunk : EmbedStore.GrammarChunk) : Prop :=
  is_Some (EmbedStore.gc_code chunk) ∧ is_Some (EmbedStore.gc_name chunk)
  ∧ is_Some (EmbedStore.gc_id chunk).

(** An arm whose four tallies count the flags of its details. *)
Definition consistent (arm : Experiment.Arm) : Prop :=
  Experiment.valid arm
  = Z.of_nat (length (List.filter Experiment.detail_valid (Experiment.details arm)))
  ∧ Experiment.correct_case arm
    = Z.of_nat (length (List.filter Experiment.case_correct
                          (Experiment.details arm)))
  ∧ Experiment.correct_function arm
    = Z.of_nat (length (List.filter Experiment.func_correct
                          (Experiment.details arm)))
  ∧ Experiment.fully_correct arm
    = Z.of_nat (length (List.filter
                          (fun d => Experiment.case_correct d
                                    && Experiment.func_correct d)
                          (Experiment.details arm))).

(** The retriever of an engine raises on the case code of a suggestion
    that the coherence checks let through. *)
Definition validator_raises (self : EngineOverCollection.t) : Prop :=
  ∃ collection suggestion code,
    EngineOverCollection.rag self = Some collection
    ∧ Py.dict_get suggestion "case" = Py.VStr code ∧ code ≠ ""
    ∧ ValidationEngine._validate_coherence (EngineOverCollection.engine self)
        suggestion = []
    ∧ Retrieval.retrieve_for_case collection code = Retrieval.IndexError.

(** A conversation in which a system message can only come first and every
    assistant message directly follows a user message. *)
Definition well_formed_history (h : list LLMClient.Message) : Prop :=
  ∀ i m, h !! i = Some m →
    (LLMClient.role m = "system" ∨ LLMClient.role m = "user"
     ∨ LLMClient.role m = "assistant")
    ∧ (LLMClient.role m = "system" → i = 0%nat)
    ∧ (LLMClient.role m = "assistant" →
       ∃ j u, i = S j ∧ h !! j = Some u ∧ LLMClient.role u = "user").

(** * Properties *)

Import RuleExtractor ValidationEngine.

(** ** The constraint store *)

Lemma allows_function_false (c : CaseConstraints) (function : string) :
  allows_function c function = false ↔
  function ∈ forbidden_functions c
  ∨ (allowed_functions c ≠ ∅ ∧ function ∉ allowed_functions c).
Proof.
  unfold allows_function.
  repeat case_bool_decide; simpl; split; intros Hx; try done.
  all: try (destruct Hx as [Hx | [Hx1 Hx2]]); try done.
  all: try (by left); try (by right).
  all: set_solver.
Qed.

Lemma check_case_function_valid (self : CooccurrenceRules.t) (case function : string) :
  (CooccurrenceRules.check_case_function self case function).1 =
  match CooccurrenceRules.constraints self !! Some case with
  | None => true
  | Some c => allows_function c function
  end.
Proof.
  unfold CooccurrenceRules.check_case_function.
  destruct (CooccurrenceRules.constraints self !! Some case) as [c|]; [|done].
  by destruct (allows_function c function).
Qed.

(** C1. [check_case_function] answers valid for a code that the constraint
    mapping does not know; for a known code it answers invalid exactly when
    the function is forbidden, or the allowed set is non-empty and does not
    contain the function, and valid otherwise. *)
Theorem C1_check_case_function (self : CooccurrenceRules.t) (case function : string) :
  let is_valid := (CooccurrenceRules.check_case_function self case function).1 in
  match CooccurrenceRules.constraints self !! Some case with
  | None => is_valid = true
  | Some c =>
      (is_valid = false ↔
         function ∈ forbidden_functions c
         ∨ (allowed_functions c ≠ ∅ ∧ function ∉ allowed_functions c))
      ∧ (is_valid = true ↔
           ¬ (function ∈ forbidden_functions c
              ∨ (allowed_functions c ≠ ∅ ∧ function ∉ allowed_functions c)))
  end.
Proof.
  cbv zeta. rewrite check_case_function_valid.
  destruct (CooccurrenceRules.constraints self !! Some case) as [c|]; [|done].
  pose proof (allows_function_false c function) as Hf.
  split; [done|].
  destruct (allows_function c function); split; intros H; try done.
  - intros H'. apply Hf in H'. done.
  - destruct H. by apply Hf.
Qed.

(** ** The stages of [validate] *)

Lemma semantic_errors_nil (self : ValidationEngine.t) (j : gmap string pyval) :
  sem_errors (_validate_semantic self j) = [].
Proof.
  unfold _validate_semantic.
  destruct (rag self) as [r|], (dict_get j "case") as [| | | |s| |]; try done.
  destruct (truthy (VStr s)); [|done].
  by destruct (RAGSystem.retrieve_for_case r s).
Qed.

(** The semantic stage assigns one of three confidences. *)
Lemma semantic_confidence_cases (self : ValidationEngine.t) (j : gmap string pyval) :
  let c := sem_confidence (_validate_semantic self j) in
  c = 0.95%float ∨ c = 0.70%float ∨ c = 0.90%float.
Proof.
  unfold _validate_semantic.
  destruct (rag self) as [r|], (dict_get j "case") as [| | | |s| |];
    simpl; auto.
  destruct (negb (s =? "")); simpl; auto.
  destruct (RAGSystem.retrieve_for_case r s); simpl; auto.
Qed.

(** A non-empty coherence report is returned at once, as a rejection. *)
Lemma validate_rejects (self : ValidationEngine.t) (stats : Stats)
    (j : gmap string pyval) (e : ValidationError) (es : list ValidationError) :
  _validate_coherence self j = e :: es →
  validate self stats j =
  ({| passed := false; confidence := 0%float; errors := e :: es;
      citations := []; needs_clarification := false |},
   incr_rejected (incr_total_validations stats)).
Proof. intros H. unfold validate. rewrite H. reflexivity. Qed.

(** An empty coherence report leads to the semantic stage, whose confidence
    decides between a plain and a flagged acceptance. *)
Lemma validate_accepts (self : ValidationEngine.t) (stats : Stats)
    (j : gmap string pyval) :
  _validate_coherence self j = [] →
  validate self stats j =
  let sem := _validate_semantic self j in
  if PrimFloat.ltb (sem_confidence sem) 0.85%float then
    ({| passed := true; confidence := sem_confidence sem; errors := [];
        citations := sem_citations sem; needs_clarification := true |},
     incr_passed (incr_clarification_needed (incr_total_validations stats)))
  else
    ({| passed := true; confidence := sem_confidence sem; errors := [];
        citations := sem_citations sem; needs_clarification := false |},
     incr_passed (incr_total_validations stats)).
Proof.
  intros H. unfold validate. rewrite H. cbn [_validate_structure nonempty list_extend app].
  rewrite semantic_errors_nil. reflexivity.
Qed.

(** The coherence report, stage by stage. *)
Lemma coherence_absent (self : ValidationEngine.t) (j : gmap string pyval) :
  truthy (dict_get j "case") = false ∨ truthy (dict_get j "function") = false →
  _validate_coherence self j = [].
Proof.
  intros H. unfold _validate_coherence.
  destruct H as [-> | ->]; [done|]. by rewrite orb_true_r.
Qed.

Lemma coherence_case_type (self : ValidationEngine.t) (j : gmap string pyval) :
  truthy (dict_get j "case") = true → truthy (dict_get j "function") = true →
  is_str (dict_get j "case") = false →
  _validate_coherence self j = [case_type_error (dict_get j "case")].
Proof.
  intros Hc Hf Hs. unfold _validate_coherence. rewrite Hc, Hf. simpl.
  by destruct (dict_get j "case").
Qed.

Lemma coherence_function_type (self : ValidationEngine.t) (j : gmap string pyval) :
  truthy (dict_get j "case") = true → truthy (dict_get j "function") = true →
  is_str (dict_get j "case") = true → is_str (dict_get j "function") = false →
  _validate_coherence self j = [function_type_error (dict_get j "function")].
Proof.
  intros Hc Hf Hs Hs'. unfold _validate_coherence. rewrite Hc, Hf. simpl.
  destruct (dict_get j "case"); try done.
  by destruct (dict_get j "function").
Qed.

Lemma coherence_function_enum (self : ValidationEngine.t) (j : gmap string pyval)
    (c f : string) :
  truthy (dict_get j "case") = true → truthy (dict_get j "function") = true →
  dict_get j "case" = VStr c → dict_get j "function" = VStr f →
  f ∉ valid_functions →
  _validate_coherence self j = [function_enum_error f].
Proof.
  intros Hc Hf Ec Ef Hv. unfold _validate_coherence. rewrite Hc, Hf, Ec, Ef. simpl.
  by rewrite bool_decide_eq_false_2.
Qed.

Lemma coherence_case_format (self : ValidationEngine.t) (j : gmap string pyval)
    (c f : string) :
  truthy (dict_get j "case") = true → truthy (dict_get j "function") = true →
  dict_get j "case" = VStr c → dict_get j "function" = VStr f →
  f ∈ valid_functions → case_format_ok c = false →
  _validate_coherence self j = [case_format_error c].
Proof.
  intros Hc Hf Ec Ef Hv Hfmt. unfold _validate_coherence.
  rewrite Hc, Hf, Ec, Ef. simpl.
  rewrite bool_decide_eq_true_2 by done. simpl. by rewrite Hfmt.
Qed.

Lemma coherence_lookup (self : ValidationEngine.t) (j : gmap string pyval)
    (c f : string) :
  truthy (dict_get j "case") = true → truthy (dict_get j "function") = true →
  dict_get j "case" = VStr c → dict_get j "function" = VStr f →
  f ∈ valid_functions → case_format_ok c = true →
  _validate_coherence self j =
  match cooccurrence_rules self with
  | Some rules =>
      match CooccurrenceRules.constraints rules !! Some c with
      | Some r =>
          if allows_function r f then []
          else [cooccurrence_error
                  (CooccurrenceRules.check_case_function rules c f).2
                  (allowed_functions r)]
      | None => []
      end
  | None => []
  end.
Proof.
  intros Hc Hf Ec Ef Hv Hfmt. unfold _validate_coherence.
  rewrite Hc, Hf, Ec, Ef. simpl.
  rewrite bool_decide_eq_true_2 by done. simpl. rewrite Hfmt. simpl.
  destruct (cooccurrence_rules self) as [rules|]; [|done].
  pose proof (check_case_function_valid rules c f) as Hv'.
  unfold CooccurrenceRules.get_allowed_functions.
  destruct (CooccurrenceRules.constraints rules !! Some c) as [r|] eqn:Hr.
  - rewrite bool_decide_eq_true_2 by eauto.
    destruct (CooccurrenceRules.check_case_function rules c f) as [v m].
    simpl in *. subst v. by destruct (allows_function r f).
  - rewrite bool_decide_eq_false_2; [done|]. by intros [? ?].
Qed.

Lemma coherence_length (self : ValidationEngine.t) (j : gmap string pyval) :
  (length (_validate_coherence self j) ≤ 1)%nat.
Proof.
  unfold _validate_coherence.
  destruct (negb _ || negb _); [simpl; lia|].
  destruct (dict_get j "case"); try (simpl; lia).
  destruct (dict_get j "function"); try (simpl; lia).
  destruct (negb (bool_decide _)); [simpl; lia|].
  destruct (negb (case_format_ok _)); [simpl; lia|].
  destruct (cooccurrence_rules self); [|simpl; lia].
  destruct (bool_decide _); [|simpl; lia].
  destruct (CooccurrenceRules.check_case_function _ _ _) as [[] ?]; simpl; lia.
Qed.

(** The [errors] of the verdict are the coherence report. *)
Lemma validate_errors (self : ValidationEngine.t) (stats : Stats)
    (j : gmap string pyval) :
  errors (validate self stats j).1 = _validate_coherence self j.
Proof.
  destruct (_validate_coherence self j) as [|e es] eqn:H.
  - rewrite (validate_accepts _ _ _ H). cbv zeta.
    by destruct (PrimFloat.ltb _ _).
  - by rewrite (validate_rejects _ _ _ _ _ H).
Qed.

(** ** The verdict *)

(** C2. Final verdict policy: when the stages accumulate an error the
    verdict has [passed = false]; when they accumulate none and the
    confidence of the semantic stage is at least 0.85 the verdict has
    [passed = true] and [needs_clarification = false]; when they accumulate
    none and that confidence is below 0.85 the verdict has [passed = true]
    and [needs_clarification = true]. *)
Theorem C2_final_verdict_policy (self : ValidationEngine.t) (stats : Stats)
    (j : gmap string pyval) :
  let r := (validate self stats j).1 in
  let sem := _validate_semantic self j in
  let accumulated :=
    list_extend
      (list_extend (list_extend [] (_validate_structure self j))
         (_validate_coherence self j))
      (sem_errors sem) in
  (accumulated ≠ [] → passed r = false)
  ∧ (accumulated = [] → PrimFloat.leb 0.85%float (sem_confidence sem) = true →
     passed r = true ∧ needs_clarification r = false)
  ∧ (accumulated = [] → PrimFloat.ltb (sem_confidence sem) 0.85%float = true →
     passed r = true ∧ needs_clarification r = true).
Proof.
  cbv zeta. rewrite semantic_errors_nil.
  cbn [_validate_structure list_extend app]. rewrite app_nil_r.
  destruct (_validate_coherence self j) as [|e es] eqn:H.
  - rewrite (validate_accepts _ _ _ H). cbv zeta.
    split; [done|].
    destruct (semantic_confidence_cases self j) as [-> | [-> | ->]];
      vm_compute; repeat split; intros; congruence.
  - rewrite (validate_rejects _ _ _ _ _ H). simpl. repeat split; intros; done.
Qed.

Lemma C2_witness :
  passed (validate Sample.engine initial_stats
            (candidate (VStr "AFF") (VStr "DYN"))).1 = false
  ∧ (passed (validate Sample.engine initial_stats
               (candidate (VStr "AFF") (VStr "STA"))).1 = true
     ∧ needs_clarification
         (validate Sample.engine initial_stats
            (candidate (VStr "AFF") (VStr "STA"))).1 = false)
  ∧ (passed (validate Sample.engine initial_stats
               (candidate (VStr "XYZ") (VStr "STA"))).1 = true
     ∧ needs_clarification
         (validate Sample.engine initial_stats
            (candidate (VStr "XYZ") (VStr "STA"))).1 = true).
Proof.
  split; [|split].
  - apply (proj1 (C2_final_verdict_policy Sample.engine initial_stats
                    (candidate (VStr "AFF") (VStr "DYN")))).
    vm_compute. discriminate.
  - apply (proj1 (proj2 (C2_final_verdict_policy Sample.engine initial_stats
                           (candidate (VStr "AFF") (VStr "STA")))));
      vm_compute; reflexivity.
  - apply (proj2 (proj2 (C2_final_verdict_policy Sample.engine initial_stats
                           (candidate (VStr "XYZ") (VStr "STA")))));
      vm_compute; reflexivity.
Defined.

(** C3. The verdict reports at most one error, and when several stage
    conditions fail together only the first stage reports: the type check
    (case, then function) comes before the function enumeration check, which
    comes before the case format check, which comes before the constraint
    lookup. *)
Theorem C3_short_circuit (self : ValidationEngine.t) (stats : Stats)
    (j : gmap string pyval) :
  let r := (validate self stats j).1 in
  let case := dict_get j "case" in
  let function := dict_get j "function" in
  (length (errors r) ≤ 1)%nat
  ∧ (truthy case = true → truthy function = true →
     (is_str case = false → errors r = [case_type_error case])
     ∧ (is_str case = true → is_str function = false →
        errors r = [function_type_error function])
     ∧ (∀ c f : string, case = VStr c → function = VStr f →
        (f ∉ valid_functions → errors r = [function_enum_error f])
        ∧ (f ∈ valid_functions → case_format_ok c = false →
           errors r = [case_format_error c])
        ∧ (f ∈ valid_functions → case_format_ok c = true →
           errors r = []
           ∨ ∃ msg allowed, errors r = [cooccurrence_error msg allowed]))).
Proof.
  cbv zeta. rewrite validate_errors. split; [apply coherence_length|].
  intros Hc Hf. split; [|split].
  - by apply coherence_case_type.
  - by apply coherence_function_type.
  - intros c f Ec Ef. split; [|split].
    + intros Hv. by apply (coherence_function_enum self j c f).
    + intros Hv Hfmt. by apply (coherence_case_format self j c f).
    + intros Hv Hfmt.
      rewrite (coherence_lookup self j c f Hc Hf Ec Ef Hv Hfmt).
      destruct (cooccurrence_rules self) as [rules|]; [|by left].
      destruct (CooccurrenceRules.constraints rules !! Some c) as [rec|];
        [|by left].
      destruct (allows_function rec f); [by left|right; eauto].
Qed.

Lemma C3_witness :
  errors (validate Sample.engine initial_stats
            (candidate (VInt 123) (VStr "EXPERIENCER"))).1
  = [case_type_error (VInt 123)]
  ∧ errors (validate Sample.engine initial_stats
              (candidate (VStr "aff") (VStr "EXPERIENCER"))).1
    = [function_enum_error "EXPERIENCER"].
Proof.
  split.
  - destruct (C3_short_circuit Sample.engine initial_stats
                (candidate (VInt 123) (VStr "EXPERIENCER")))
      as [_ H].
    apply (proj1 (H eq_refl eq_refl)). reflexivity.
  - destruct (C3_short_circuit Sample.engine initial_stats
                (candidate (VStr "aff") (VStr "EXPERIENCER")))
      as [_ H].
    apply (proj1 (proj2 (proj2 (H eq_refl eq_refl)) "aff" "EXPERIENCER"
                    eq_refl eq_refl)).
    apply (bool_decide_eq_false_1 _). reflexivity.
Defined.

(** C7 as stated fails: a numeric [case] with no [function] beside it never
    reaches the type check, and the candidate passes. *)
Lemma C7_counterexample :
  dict_get (<["case" := VInt 123]> ∅) "case" = VInt 123
  ∧ is_str (VInt 123) = false
  ∧ passed (validate Sample.engine initial_stats (<["case" := VInt 123]> ∅)).1 = true
  ∧ errors (validate Sample.engine initial_stats (<["case" := VInt 123]> ∅)).1 = [].
Proof. repeat split; vm_compute; reflexivity. Qed.

(** C7, amended. When [case] holds a value that is not text and both [case]
    and [function] hold a value that Python counts as true, [validate]
    rejects with the single type error of the case field: its slot is
    ["case"], its message names the kind of the value, and it is reported at
    the [COHERENCE] level.  The verdict is the same whatever rule store and
    retriever the engine holds: the later stages do not run. *)
Theorem C7_non_text_case (self : ValidationEngine.t) (stats : Stats)
    (j : gmap string pyval) :
  let case := dict_get j "case" in
  truthy case = true → is_str case = false →
  truthy (dict_get j "function") = true →
  validate self stats j =
  ({| passed := false; confidence := 0%float;
      errors :=
        [ {| level := COHERENCE;
             message := Some ("Case must be a string, got " ++ type_name case);
             slot := Some "case";
             suggestion := Some "Use a 3-letter case code like AFF, ERG, ABS" |} ];
      citations := []; needs_clarification := false |},
   incr_rejected (incr_total_validations stats)).
Proof.
  intros case Hc Hs Hf.
  apply validate_rejects. by apply coherence_case_type.
Qed.

Lemma C7_witness :
  passed (validate Sample.engine initial_stats
            (candidate (VInt 123) (VStr "STA"))).1 = false
  ∧ message <$> errors (validate Sample.engine initial_stats
                          (candidate (VInt 123) (VStr "STA"))).1
    = [Some "Case must be a string, got int"].
Proof.
  rewrite (C7_non_text_case Sample.engine initial_stats
             (candidate (VInt 123) (VStr "STA")) eq_refl eq_refl eq_refl).
  split; reflexivity.
Defined.

(** C8 as stated fails: an acceptance flagged for clarification increments
    two of the three outcome counters. *)
Lemma C8_counterexample :
  (validate Sample.engine initial_stats
     (candidate (VStr "XYZ") (VStr "STA"))).2
  = {| total_validations := 1; stats_passed := 1; rejected := 0;
       clarification_needed := 1 |}.
Proof. vm_compute. reflexivity. Qed.

(** C8, amended. Every call increments [total_validations] by one, and
    besides it: [rejected] alone when the verdict fails; [passed] alone when
    the verdict passes without a clarification flag; [passed] and
    [clarification_needed] together when the verdict passes with the flag.
    Every other counter keeps its value. *)
Theorem C8_statistics (self : ValidationEngine.t) (stats : Stats)
    (j : gmap string pyval) :
  let r := (validate self stats j).1 in
  let stats' := (validate self stats j).2 in
  total_validations stats' = (total_validations stats + 1)%Z
  ∧ ((passed r = false
      ∧ rejected stats' = (rejected stats + 1)%Z
      ∧ stats_passed stats' = stats_passed stats
      ∧ clarification_needed stats' = clarification_needed stats)
     ∨ (passed r = true ∧ needs_clarification r = false
        ∧ stats_passed stats' = (stats_passed stats + 1)%Z
        ∧ rejected stats' = rejected stats
        ∧ clarification_needed stats' = clarification_needed stats)
     ∨ (passed r = true ∧ needs_clarification r = true
        ∧ stats_passed stats' = (stats_passed stats + 1)%Z
        ∧ clarification_needed stats' = (clarification_needed stats + 1)%Z
        ∧ rejected stats' = rejected stats)).
Proof.
  cbv zeta.
  destruct (_validate_coherence self j) as [|e es] eqn:H.
  - rewrite (validate_accepts _ _ _ H). cbv zeta.
    destruct (PrimFloat.ltb _ _); simpl; split; auto 10.
  - rewrite (validate_rejects _ _ _ _ _ H). simpl. split; auto 10.
Qed.

(** The verdict does not depend on the counters. *)
Lemma validate_stats_irrelevant (self : ValidationEngine.t) (s s' : Stats)
    (j : gmap string pyval) :
  (validate self s j).1 = (validate self s' j).1.
Proof.
  destruct (_validate_coherence self j) as [|e es] eqn:H.
  - rewrite !(validate_accepts _ _ _ H). cbv zeta.
    by destruct (PrimFloat.ltb _ _).
  - by rewrite !(validate_rejects _ _ _ _ _ H).
Qed.

(** C9. For one engine (one loaded dataset, one retriever), a second call of
    [validate] on the same input, made on the counters that the first call
    left, returns the same [passed], [errors], [confidence], [citations] and
    [needs_clarification]. *)
Theorem C9_validate_twice (self : ValidationEngine.t) (stats : Stats)
    (j : gmap string pyval) :
  let first := validate self stats j in
  let second := validate self first.2 j in
  passed second.1 = passed first.1
  ∧ errors second.1 = errors first.1
  ∧ confidence second.1 = confidence first.1
  ∧ citations second.1 = citations first.1
  ∧ needs_clarification second.1 = needs_clarification first.1.
Proof.
  cbv zeta.
  by rewrite (validate_stats_irrelevant self (validate self stats j).2 stats j).
Qed.

(** C10. A verdict with [passed = false] has confidence 0.0, no citation and
    no clarification flag: it comes from the early return on the coherence
    report, and the semantic stage reports no error of its own. *)
Theorem C10_rejected_verdict (self : ValidationEngine.t) (stats : Stats)
    (j : gmap string pyval) :
  let r := (validate self stats j).1 in
  passed r = false →
  confidence r = 0%float ∧ citations r = [] ∧ needs_clarification r = false
  ∧ errors r = _validate_coherence self j ∧ errors r ≠ []
  ∧ sem_errors (_validate_semantic self j) = [].
Proof.
  cbv zeta. rewrite validate_errors, semantic_errors_nil.
  destruct (_validate_coherence self j) as [|e es] eqn:H.
  - rewrite (validate_accepts _ _ _ H). cbv zeta.
    by destruct (PrimFloat.ltb _ _).
  - by rewrite (validate_rejects _ _ _ _ _ H).
Qed.

Lemma C10_witness :
  confidence (validate Sample.engine initial_stats
                (candidate (VStr "AFF") (VStr "DYN"))).1 = 0%float
  ∧ citations (validate Sample.engine initial_stats
                 (candidate (VStr "AFF") (VStr "DYN"))).1 = []
  ∧ needs_clarification
      (validate Sample.engine initial_stats
         (candidate (VStr "AFF") (VStr "DYN"))).1 = false.
Proof.
  destruct (C10_rejected_verdict Sample.engine initial_stats
              (candidate (VStr "AFF") (VStr "DYN")))
    as (H1 & H2 & H3 & _).
  - vm_compute. reflexivity.
  - exact (conj H1 (conj H2 H3)).
Defined.

(** ** Extraction and the rule store *)

Lemma fold_insert_lookup (rules : gmap string RoleRule) (cases : list CaseData)
    (acc : gmap (option string) CaseConstraints) (k : option string)
    (c : CaseConstraints) :
  fold_left
    (fun constraints case_data =>
       <[cd_code case_data := constraints_of rules case_data]> constraints)
    cases acc !! k = Some c →
  acc !! k = Some c
  ∨ ∃ d, d ∈ cases ∧ cd_code d = k ∧ c = constraints_of rules d.
Proof.
  revert acc. induction cases as [|d cases IH]; intros acc H; simpl in H.
  - by left.
  - apply IH in H as [H | (d' & Hin & Hk & Hc)].
    + destruct (decide (cd_code d = k)) as [<- | Hne].
      * rewrite lookup_insert_eq in H. injection H as <-.
        right. exists d. split; [left|done].
      * rewrite lookup_insert_ne in H by done. by left.
    + right. exists d'. split; [by right|done].
Qed.

(** Every extracted record is built from a dataset entry of type ["case"]
    carrying its code. *)
Lemma extract_lookup (ex : RuleExtractor.t) (k : option string)
    (c : CaseConstraints) :
  extract_case_constraints ex !! k = Some c →
  ∃ d, d ∈ raw_data ex ∧ is_case d = true ∧ cd_code d = k
       ∧ c = constraints_of (role_function_rules ex) d.
Proof.
  unfold extract_case_constraints. intros H.
  apply fold_insert_lookup in H as [H | (d & Hin & Hk & Hc)].
  - by rewrite lookup_empty in H.
  - apply list_elem_of_In, filter_In in Hin as [Hin Hcase].
    exists d. by rewrite list_elem_of_In.
Qed.

Lemma extract_snoc (rules : gmap string RoleRule) (data : list CaseData)
    (d : CaseData) :
  extract_case_constraints
    {| role_function_rules := rules; raw_data := (data ++ [d])%list |}
  = if is_case d
    then <[cd_code d := constraints_of rules d]>
           (extract_case_constraints
              {| role_function_rules := rules; raw_data := data |})
    else extract_case_constraints
           {| role_function_rules := rules; raw_data := data |}.
Proof.
  unfold extract_case_constraints. simpl.
  rewrite List.filter_app. simpl.
  destruct (is_case d); simpl.
  - by rewrite fold_left_app.
  - by rewrite app_nil_r.
Qed.

Lemma validate_rules_true (ex : RuleExtractor.t) :
  validate_rules ex = true ↔
  ∀ k c, extract_case_constraints ex !! k = Some c →
         allowed_functions c ∩ forbidden_functions c = ∅.
Proof.
  unfold validate_rules. rewrite forallb_forall. split.
  - intros H k c Hk.
    specialize (H (k, c)). simpl in H.
    eapply bool_decide_eq_true_1. apply H. apply list_elem_of_In.
    by apply elem_of_map_to_list.
  - intros H [k c] Hin. simpl.
    apply bool_decide_eq_true_2. apply (H k).
    by apply elem_of_map_to_list, list_elem_of_In.
Qed.

Lemma unknown_role : ROLE_FUNCTION_RULES !! "UNKNOWN" = None.
Proof. vm_compute. reflexivity. Qed.

Lemma experiencer_role :
  ROLE_FUNCTION_RULES !! "EXPERIENCER" = Some (rule ["STA"] ["DYN"; "MNF"]).
Proof. vm_compute. reflexivity. Qed.

(** No value of the class's role table, and not the fallback either, allows
    a function that it forbids. *)
Lemma role_table_consistent (role : string) :
  let r := default default_rule (ROLE_FUNCTION_RULES !! role) in
  allowed r ∩ forbidden r = ∅.
Proof.
  assert (map_Forall (fun _ r => allowed r ∩ forbidden r = ∅) ROLE_FUNCTION_RULES)
    as Hall by (apply (bool_decide_unpack _); vm_compute; exact I).
  cbv zeta. destruct (ROLE_FUNCTION_RULES !! role) as [r|] eqn:Hr; simpl.
  - by apply (Hall role).
  - apply (bool_decide_unpack _). vm_compute. exact I.
Qed.

Lemma extract_consistent (data : list CaseData) (k : option string)
    (c : CaseConstraints) :
  extract_case_constraints (RuleExtractor.init data) !! k = Some c →
  allowed_functions c ∩ forbidden_functions c = ∅.
Proof.
  intros H. apply extract_lookup in H as (d & _ & _ & _ & ->).
  apply role_table_consistent.
Qed.

(** With the class's role table the rule store is always built. *)
Lemma init_ok (data : list CaseData) :
  CooccurrenceRules.init (Ok data) =
  Ok {| CooccurrenceRules.extractor := RuleExtractor.init data;
        CooccurrenceRules.constraints :=
          extract_case_constraints (RuleExtractor.init data) |}.
Proof.
  unfold CooccurrenceRules.init, CooccurrenceRules.of_extractor.
  replace (validate_rules (RuleExtractor.init data)) with true; [done|].
  symmetry. apply validate_rules_true. intros k c. apply extract_consistent.
Qed.

(** C5 as stated fails: from the empty dataset, and from a dataset whose only
    entry has neither code nor name nor semantic role, extraction returns a
    constraint mapping and the rule store is built. *)
Lemma C5_counterexample :
  extract_case_constraints (RuleExtractor.init []) = ∅
  ∧ CooccurrenceRules.init (Ok []) =
    Ok {| CooccurrenceRules.extractor := RuleExtractor.init [];
          CooccurrenceRules.constraints := ∅ |}
  ∧ extract_case_constraints (RuleExtractor.init [Sample.bare_entry]) !! None =
    Some {| case_name := None; case_abbrev := None; semantic_role := "UNKNOWN";
            description := ""; allowed_functions := allowed default_rule;
            forbidden_functions := ∅; why_not_alternatives := ∅;
            common_mistakes := [] |}
  ∧ CooccurrenceRules.init (Ok [Sample.bare_entry]) =
    Ok {| CooccurrenceRules.extractor := RuleExtractor.init [Sample.bare_entry];
          CooccurrenceRules.constraints :=
            extract_case_constraints (RuleExtractor.init [Sample.bare_entry]) |}.
Proof.
  split; [reflexivity|]. split; [apply (init_ok [])|].
  split; [|apply init_ok].
  unfold extract_case_constraints. simpl. by rewrite lookup_insert_eq.
Qed.

(** C5, amended. Extraction checks nothing and fails on no list of entries:
    the empty dataset gives the empty mapping; entries are taken one after
    the other, one whose type is ["case"] being stored under its code and
    any other being skipped; an entry without name and semantic role gets
    its code as name and the role ["UNKNOWN"], with the three functions
    allowed and none forbidden; and the rule store is built from every
    dataset. *)
Theorem C5_extraction_unchecked :
  extract_case_constraints (RuleExtractor.init []) = ∅
  ∧ (∀ (data : list CaseData) (d : CaseData),
       extract_case_constraints (RuleExtractor.init (data ++ [d])%list)
       = if bool_decide (cd_type d = Some "case")
         then <[cd_code d := constraints_of ROLE_FUNCTION_RULES d]>
                (extract_case_constraints (RuleExtractor.init data))
         else extract_case_constraints (RuleExtractor.init data))
  ∧ (∀ ty code descr why mistakes,
       constraints_of ROLE_FUNCTION_RULES
         {| cd_type := ty; cd_code := code; cd_name := None;
            cd_semantic_role := None; cd_description := descr;
            cd_why_not_alternatives := why; cd_common_mistakes := mistakes |}
       = {| case_name := code; case_abbrev := code; semantic_role := "UNKNOWN";
            description := default "" descr;
            allowed_functions := {[ "STA"; "DYN"; "MNF" ]};
            forbidden_functions := ∅;
            why_not_alternatives := default ∅ why;
            common_mistakes := default [] mistakes |})
  ∧ (∀ data : list CaseData,
       CooccurrenceRules.init (Ok data) =
       Ok {| CooccurrenceRules.extractor := RuleExtractor.init data;
             CooccurrenceRules.constraints :=
               extract_case_constraints (RuleExtractor.init data) |}).
Proof.
  split; [reflexivity|]. split; [|split; [|apply init_ok]].
  - intros data d. apply extract_snoc.
  - intros. unfold constraints_of.
    cbn [cd_code cd_name cd_semantic_role cd_description
         cd_why_not_alternatives cd_common_mistakes from_option id].
    rewrite unknown_role.
    cbn [from_option id default_rule rule allowed forbidden list_to_set foldr].
    f_equal; set_solver.
Qed.

(** C6. Every record that extraction produces has disjoint allowed and
    forbidden sets; and were a record to have a common element (which takes
    a role table other than the class's), building the rule store would
    raise [ValueError] instead of returning a store.  Hence a store that was
    built, and the store an engine holds, is consistent. *)
Theorem C6_load_time_consistency :
  (∀ (data : list CaseData) k c,
     extract_case_constraints (RuleExtractor.init data) !! k = Some c →
     allowed_functions c ∩ forbidden_functions c = ∅)
  ∧ (∀ (ex : RuleExtractor.t) k c,
       extract_case_constraints ex !! k = Some c →
       allowed_functions c ∩ forbidden_functions c ≠ ∅ →
       CooccurrenceRules.of_extractor ex =
       Raise (ValueError "Inconsistent rules detected in grammar data"))
  ∧ (∀ (ex : RuleExtractor.t) (rules : CooccurrenceRules.t),
       CooccurrenceRules.of_extractor ex = Ok rules →
       ∀ k c, CooccurrenceRules.constraints rules !! k = Some c →
              allowed_functions c ∩ forbidden_functions c = ∅)
  ∧ (∀ grammar_file rag_ctor (rules : CooccurrenceRules.t),
       cooccurrence_rules (ValidationEngine.init grammar_file rag_ctor).1
       = Some rules →
       ∀ k c, CooccurrenceRules.constraints rules !! k = Some c →
              allowed_functions c ∩ forbidden_functions c = ∅).
Proof.
  assert (∀ (ex : RuleExtractor.t) (rules : CooccurrenceRules.t),
            CooccurrenceRules.of_extractor ex = Ok rules →
            ∀ k c, CooccurrenceRules.constraints rules !! k = Some c →
                   allowed_functions c ∩ forbidden_functions c = ∅) as Hok.
  { intros ex rules H k c Hk. unfold CooccurrenceRules.of_extractor in H.
    destruct (validate_rules ex) eqn:Hv; [|done].
    injection H as <-. simpl in Hk.
    by apply (proj1 (validate_rules_true ex) Hv k c). }
  split; [apply extract_consistent|]. split; [|split; [exact Hok|]].
  - intros ex k c Hk Hne. unfold CooccurrenceRules.of_extractor.
    destruct (validate_rules ex) eqn:Hv; [|done].
    destruct Hne. by apply (proj1 (validate_rules_true ex) Hv k c).
  - intros gf rag_ctor rules H. unfold ValidationEngine.init in H. simpl in H.
    destruct gf as [gf|]; [|done].
    destruct (gf_exists gf); [|done].
    destruct (gf_load gf) as [data|e]; [|done].
    simpl in H.
    destruct (CooccurrenceRules.of_extractor (RuleExtractor.init data))
      as [rules'|e] eqn:Hr; [|done].
    assert (rules' = rules) as <-
      by (destruct rag_ctor; simpl in H; congruence).
    apply (Hok _ rules' Hr).
Qed.

Lemma C6_witness :
  CooccurrenceRules.of_extractor Sample.conflicting_extractor =
  Raise (ValueError "Inconsistent rules detected in grammar data").
Proof.
  apply (proj1 (proj2 C6_load_time_consistency) Sample.conflicting_extractor
           (Some "ERG")
           (constraints_of (role_function_rules Sample.conflicting_extractor)
              (Sample.entry "ERG" "Ergative" "AGENT"))).
  - vm_compute. reflexivity.
  - apply (bool_decide_eq_false_1 _). vm_compute. reflexivity.
Defined.

(** ** Case records of the EXPERIENCER role *)

Lemma dict_get_candidate_case (c f : pyval) :
  dict_get (candidate c f) "case" = c.
Proof. unfold dict_get, candidate. by rewrite lookup_insert_eq. Qed.

Lemma dict_get_candidate_function (c f : pyval) :
  dict_get (candidate c f) "function" = f.
Proof.
  unfold dict_get, candidate.
  rewrite lookup_insert_ne by done. by rewrite lookup_insert_eq.
Qed.

Lemma case_format_ok_truthy (code : string) :
  case_format_ok code = true → truthy (VStr code) = true.
Proof. by destruct code. Qed.

Lemma valid_functions_spec (f : string) :
  f ∈ valid_functions ↔ f = "STA" ∨ f = "DYN" ∨ f = "MNF".
Proof.
  unfold valid_functions. rewrite !elem_of_union, !elem_of_singleton. tauto.
Qed.

(** An engine started on a readable grammar file holds the store extracted
    from it. *)
Lemma engine_rules (data : list CaseData) (rag_ctor : result RAGSystem.t) :
  cooccurrence_rules
    (ValidationEngine.init (Some {| gf_exists := true; gf_load := Ok data |})
       rag_ctor).1
  = Some {| CooccurrenceRules.extractor := RuleExtractor.init data;
            CooccurrenceRules.constraints :=
              extract_case_constraints (RuleExtractor.init data) |}.
Proof.
  unfold ValidationEngine.init.
  cbn [fst gf_exists gf_load]. rewrite init_ok. by destruct rag_ctor.
Qed.

(** An extracted record of role EXPERIENCER allows STA and forbids DYN and
    MNF. *)
Lemma experiencer_sets (data : list CaseData) (k : option string)
    (c : CaseConstraints) :
  extract_case_constraints (RuleExtractor.init data) !! k = Some c →
  semantic_role c = "EXPERIENCER" →
  allowed_functions c = list_to_set ["STA"]
  ∧ forbidden_functions c = list_to_set ["DYN"; "MNF"].
Proof.
  intros H Hrole. apply extract_lookup in H as (d & _ & _ & _ & ->).
  unfold constraints_of in *.
  cbn [semantic_role allowed_functions forbidden_functions] in *.
  cbn [RuleExtractor.init role_function_rules] in *.
  rewrite Hrole, experiencer_role. done.
Qed.

Lemma experiencer_allows (c : CaseConstraints) :
  allowed_functions c = list_to_set ["STA"] →
  forbidden_functions c = list_to_set ["DYN"; "MNF"] →
  allows_function c "STA" = true
  ∧ allows_function c "DYN" = false
  ∧ allows_function c "MNF" = false.
Proof.
  intros Ha Hf. split; [|split].
  - destruct (allows_function c "STA") eqn:E; [done|].
    apply allows_function_false in E. rewrite Ha, Hf in E. set_solver.
  - apply allows_function_false. left. rewrite Hf. set_solver.
  - apply allows_function_false. left. rewrite Hf. set_solver.
Qed.

(** The case records of the data model carry a three-letter uppercase code.
    The engine relies on it: a record of role EXPERIENCER stored under a
    code written in lowercase is never reached, its code with STA is
    rejected by the case format check. *)
Lemma lowercase_record_unreachable :
  (cooccurrence_rules Sample.lowercase_engine
     ≫= (fun rules => semantic_role <$>
                        CooccurrenceRules.constraints rules !! Some "aff"))
  = Some "EXPERIENCER"
  ∧ passed (validate Sample.lowercase_engine initial_stats
              (candidate (VStr "aff") (VStr "STA"))).1 = false
  ∧ errors (validate Sample.lowercase_engine initial_stats
              (candidate (VStr "aff") (VStr "STA"))).1
    = [case_format_error "aff"].
Proof. repeat split; vm_compute; reflexivity. Qed.

(** C4. For every case record of the store whose semantic role is
    EXPERIENCER, its code being what the data model says a code is, a
    three-letter uppercase identifier, validating that code with STA
    passes, and validating it with DYN or MNF is rejected with a COHERENCE
    error, the one of the constraint lookup and the only error of the
    verdict. *)
Theorem C4_experiencer (data : list CaseData) (rag_ctor : result RAGSystem.t)
    (stats : Stats) (code : string) (c : CaseConstraints) :
  let self :=
    (ValidationEngine.init (Some {| gf_exists := true; gf_load := Ok data |})
       rag_ctor).1 in
  extract_case_constraints (RuleExtractor.init data) !! Some code = Some c →
  semantic_role c = "EXPERIENCER" →
  case_format_ok code = true →
  passed (validate self stats (candidate (VStr code) (VStr "STA"))).1 = true
  ∧ ∀ f : string, f = "DYN" ∨ f = "MNF" →
      let r := (validate self stats (candidate (VStr code) (VStr f))).1 in
      passed r = false
      ∧ ∃ e, errors r = [e] ∧ level e = COHERENCE
             ∧ slot e = Some "case+function".
Proof.
  intros self Hc Hrole Hfmt.
  destruct (experiencer_sets data _ c Hc Hrole) as [Ha Hf].
  assert (∀ f, f ∈ valid_functions →
            _validate_coherence self (candidate (VStr code) (VStr f))
            = if allows_function c f then []
              else [cooccurrence_error
                      (CooccurrenceRules.check_case_function
                         {| CooccurrenceRules.extractor := RuleExtractor.init data;
                            CooccurrenceRules.constraints :=
                              extract_case_constraints (RuleExtractor.init data) |}
                         code f).2
                      (allowed_functions c)]) as Hcoh.
  { intros f Hv.
    assert (truthy (dict_get (candidate (VStr code) (VStr f)) "case") = true)
      as Htc.
    { rewrite dict_get_candidate_case. by apply case_format_ok_truthy. }
    assert (truthy (dict_get (candidate (VStr code) (VStr f)) "function") = true)
      as Htf.
    { rewrite dict_get_candidate_function.
      by destruct (proj1 (valid_functions_spec f) Hv) as [-> | [-> | ->]]. }
    rewrite (coherence_lookup self _ code f Htc Htf
               (dict_get_candidate_case _ _) (dict_get_candidate_function _ _)
               Hv Hfmt).
    unfold self. rewrite engine_rules.
    cbn [CooccurrenceRules.constraints]. by rewrite Hc. }
  destruct (experiencer_allows c Ha Hf) as (Hsta & Hdyn & Hmnf).
  split.
  - specialize (Hcoh "STA"). rewrite Hsta in Hcoh.
    rewrite (validate_accepts self stats _
               (Hcoh ltac:(apply valid_functions_spec; tauto))).
    cbv zeta. by destruct (PrimFloat.ltb _ _).
  - intros f Hdm. cbv zeta.
    assert (allows_function c f = false) as Hal by (by destruct Hdm as [-> | ->]).
    specialize (Hcoh f). rewrite Hal in Hcoh.
    rewrite (validate_rejects self stats _ _ _
               (Hcoh ltac:(apply valid_functions_spec; tauto))).
    split; [done|]. eexists. split; [done|]. done.
Qed.

Lemma C4_witness :
  passed (validate Sample.engine initial_stats
            (candidate (VStr "AFF") (VStr "STA"))).1 = true
  ∧ passed (validate Sample.engine initial_stats
              (candidate (VStr "AFF") (VStr "DYN"))).1 = false
  ∧ passed (validate Sample.engine initial_stats
              (candidate (VStr "AFF") (VStr "MNF"))).1 = false.
Proof.
  destruct (C4_experiencer Sample.dataset (Ok Sample.retriever) initial_stats
              "AFF"
              (constraints_of ROLE_FUNCTION_RULES
                 (Sample.entry "AFF" "Affective" "EXPERIENCER")))
    as [Hsta Hother].
  - vm_compute. reflexivity.
  - reflexivity.
  - reflexivity.
  - split; [exact Hsta|].
    split.
    + exact (proj1 (Hother "DYN" (or_introl eq_refl))).
    + exact (proj1 (Hother "MNF" (or_intror eq_refl))).
Defined.

(** * Further properties of the extractor, the store and the engine *)

Lemma fold_insert_last (rules : gmap string RoleRule) (cases : list CaseData)
    (acc : gmap (option string) CaseConstraints) (k : option string) :
  fold_left
    (fun constraints case_data =>
       <[cd_code case_data := constraints_of rules case_data]> constraints)
    cases acc !! k
  = match last (List.filter (fun d => bool_decide (cd_code d = k)) cases) with
    | Some d => Some (constraints_of rules d)
    | None => acc !! k
    end.
Proof.
  induction cases as [|d cases IH] using rev_ind; [done|].
  rewrite fold_left_app, List.filter_app. cbn [fold_left List.filter].
  case_bool_decide as Hk.
  - subst k. by rewrite lookup_insert_eq, last_snoc.
  - rewrite lookup_insert_ne by done. by rewrite app_nil_r.
Qed.

Lemma filter_and {A} (p q : A → bool) (l : list A) :
  List.filter q (List.filter p l) = List.filter (fun x => p x && q x) l.
Proof.
  induction l as [|x l IH]; [done|]. cbn [List.filter].
  destruct (p x); cbn [List.filter andb]; [|done]. by rewrite IH.
Qed.

(** X1. Extraction is a last-entry-wins table: the record stored under a
    code is the one built from the last dataset entry of type ["case"] that
    carries this code, and a code that no such entry carries is absent. *)
Theorem extract_last_wins (ex : RuleExtractor.t) (k : option string) :
  extract_case_constraints ex !! k
  = constraints_of (role_function_rules ex)
      <$> last (List.filter
                  (fun d => is_case d && bool_decide (cd_code d = k))
                  (raw_data ex)).
Proof.
  unfold extract_case_constraints.
  rewrite fold_insert_last, filter_and, lookup_empty.
  by destruct (last _).
Qed.

(** Every rule of the class's role table, and the fallback, allows at least
    one function and only names valid functions. *)
Lemma role_table_within_valid (role : string) :
  let r := default default_rule (ROLE_FUNCTION_RULES !! role) in
  allowed r ≠ ∅ ∧ allowed r ⊆ valid_functions ∧ forbidden r ⊆ valid_functions.
Proof.
  assert (map_Forall
            (fun _ r => allowed r ≠ ∅ ∧ allowed r ⊆ valid_functions
                        ∧ forbidden r ⊆ valid_functions)
            ROLE_FUNCTION_RULES)
    as Hall by (apply (bool_decide_unpack _); vm_compute; exact I).
  cbv zeta. destruct (ROLE_FUNCTION_RULES !! role) as [r|] eqn:Hr; simpl.
  - by apply (Hall role).
  - apply (bool_decide_unpack _). vm_compute. exact I.
Qed.

(** X2. Whatever the dataset and whatever the code asked for, the store
    built from the dataset answers [get_allowed_functions] with a non-empty
    set of valid functions. *)
Theorem get_allowed_functions_valid (data : list CaseData) (case : string) :
  let rules :=
    {| CooccurrenceRules.extractor := RuleExtractor.init data;
       CooccurrenceRules.constraints :=
         extract_case_constraints (RuleExtractor.init data) |} in
  CooccurrenceRules.get_allowed_functions rules case ≠ ∅
  ∧ CooccurrenceRules.get_allowed_functions rules case ⊆ valid_functions.
Proof.
  cbv zeta. unfold CooccurrenceRules.get_allowed_functions.
  cbn [CooccurrenceRules.constraints].
  destruct (extract_case_constraints (RuleExtractor.init data) !! Some case)
    as [c|] eqn:Hc.
  - apply extract_lookup in Hc as (d & _ & _ & _ & ->).
    unfold constraints_of. cbn [allowed_functions].
    split; apply role_table_within_valid.
  - split; [|done]. apply (bool_decide_unpack _). vm_compute. exact I.
Qed.

(** X3. The suggestion of a constraint rejection is sound: when a candidate
    with a well-formed code and a valid function is rejected, the store
    knows the code, the set of functions it suggests is not empty, and the
    same code with any suggested function passes. *)
Theorem suggested_functions_pass (data : list CaseData)
    (rag_ctor : result RAGSystem.t) (stats stats' : Stats) (code f : string) :
  let self :=
    (ValidationEngine.init (Some {| gf_exists := true; gf_load := Ok data |})
       rag_ctor).1 in
  let rules :=
    {| CooccurrenceRules.extractor := RuleExtractor.init data;
       CooccurrenceRules.constraints :=
         extract_case_constraints (RuleExtractor.init data) |} in
  case_format_ok code = true → f ∈ valid_functions →
  passed (validate self stats (candidate (VStr code) (VStr f))).1 = false →
  suggestion <$> errors (validate self stats (candidate (VStr code) (VStr f))).1
  = [Some ("Try one of: "
           ++ join ", " (sorted (CooccurrenceRules.get_allowed_functions rules code)))]
  ∧ CooccurrenceRules.get_allowed_functions rules code ≠ ∅
  ∧ ∀ f', f' ∈ CooccurrenceRules.get_allowed_functions rules code →
          passed (validate self stats' (candidate (VStr code) (VStr f'))).1 = true.
Proof.
  intros self rules Hfmt Hv Hrej.
  assert (∀ g, g ∈ valid_functions →
            _validate_coherence self (candidate (VStr code) (VStr g))
            = match CooccurrenceRules.constraints rules !! Some code with
              | Some r =>
                  if allows_function r g then []
                  else [cooccurrence_error
                          (CooccurrenceRules.check_case_function rules code g).2
                          (allowed_functions r)]
              | None => []
              end) as Hcoh.
  { intros g Hg.
    rewrite (coherence_lookup self _ code g); try done.
    - unfold self. by rewrite engine_rules.
    - rewrite dict_get_candidate_case. by apply case_format_ok_truthy.
    - rewrite dict_get_candidate_function.
      by destruct (proj1 (valid_functions_spec g) Hg) as [-> | [-> | ->]]. }
  revert Hrej. rewrite validate_errors.
  destruct (_validate_coherence self (candidate (VStr code) (VStr f)))
    as [|e es] eqn:Hf.
  { rewrite (validate_accepts _ _ _ Hf). cbv zeta.
    by destruct (PrimFloat.ltb _ _). }
  intros _. rewrite (Hcoh f Hv) in Hf.
  unfold CooccurrenceRules.get_allowed_functions in *.
  destruct (CooccurrenceRules.constraints rules !! Some code) as [r|] eqn:Hr;
    [|done].
  assert (allowed_functions r ≠ ∅ ∧ allowed_functions r ⊆ valid_functions)
    as [Hne Hsub].
  { pose proof Hr as Hd. apply extract_lookup in Hd as (d & _ & _ & _ & ->).
    unfold constraints_of. cbn [allowed_functions].
    split; apply role_table_within_valid. }
  destruct (allows_function r f); [done|].
  injection Hf as <- <-. split; [done|]. split; [done|].
  intros f' Hf'.
  assert (allows_function r f' = true) as Hal.
  { destruct (allows_function r f') eqn:E; [done|].
    apply allows_function_false in E.
    pose proof (extract_consistent data _ r Hr) as Hdisj.
    destruct E as [E | [_ E]]; [|done]. set_solver. }
  rewrite (validate_accepts self stats' (candidate (VStr code) (VStr f'))).
  - cbv zeta. by destruct (PrimFloat.ltb _ _).
  - by rewrite (Hcoh f' (Hsub f' Hf')), Hal.
Qed.

Lemma suggested_functions_pass_witness :
  passed (validate Sample.engine initial_stats
            (candidate (VStr "ERG") (VStr "DYN"))).1 = true.
Proof.
  apply (proj2 (proj2 (suggested_functions_pass Sample.dataset
                         (Ok Sample.retriever) initial_stats initial_stats
                         "ERG" "STA" eq_refl
                         ltac:(apply valid_functions_spec; tauto) eq_refl))).
  apply (bool_decide_unpack _). vm_compute. exact I.
Defined.

Lemma check_case_function_message (self : CooccurrenceRules.t)
    (case function : string) :
  (CooccurrenceRules.check_case_function self case function).1 = false →
  is_Some (CooccurrenceRules.check_case_function self case function).2.
Proof.
  unfold CooccurrenceRules.check_case_function.
  destruct (CooccurrenceRules.constraints self !! Some case) as [c|]; [|done].
  destruct (allows_function c function); [done|]. simpl. eauto.
Qed.

Lemma coherence_errors_complete (self : ValidationEngine.t)
    (j : gmap string pyval) (e : ValidationError) :
  e ∈ _validate_coherence self j →
  level e = COHERENCE
  ∧ is_Some (message e) ∧ is_Some (slot e) ∧ is_Some (suggestion e).
Proof.
  unfold _validate_coherence.
  destruct (negb _ || negb _); [by intros ?%elem_of_nil|].
  assert (∀ e0 : ValidationError,
            level e0 = COHERENCE ∧ is_Some (message e0) ∧ is_Some (slot e0)
            ∧ is_Some (suggestion e0) →
            e ∈ list_append [] e0 →
            level e = COHERENCE ∧ is_Some (message e) ∧ is_Some (slot e)
            ∧ is_Some (suggestion e)) as Hone.
  { intros e0 H0 Hin. apply list_elem_of_singleton in Hin. by subst. }
  destruct (dict_get j "case") as [| | | |c| |];
    try (apply Hone; cbn; eauto).
  destruct (dict_get j "function") as [| | | |f| |];
    try (apply Hone; cbn; eauto).
  destruct (negb (bool_decide _)); [apply Hone; cbn; eauto|].
  destruct (negb (case_format_ok _)); [apply Hone; cbn; eauto|].
  destruct (cooccurrence_rules self) as [rules|]; [|by intros ?%elem_of_nil].
  destruct (bool_decide _); [|by intros ?%elem_of_nil].
  pose proof (check_case_function_message rules c f) as Hm.
  destruct (CooccurrenceRules.check_case_function rules c f) as [[] m];
    [by intros ?%elem_of_nil|].
  apply Hone. cbn. repeat split; eauto.
Qed.

(** X4. A verdict is accepted exactly when it reports no error, and every
    error that it reports is complete: it is at the COHERENCE level and
    carries a message, the slot it concerns and a suggestion, whatever the
    engine and the input. *)
Theorem reported_errors_complete (self : ValidationEngine.t) (stats : Stats)
    (j : gmap string pyval) :
  let r := (validate self stats j).1 in
  (passed r = true ↔ errors r = [])
  ∧ ∀ e, e ∈ errors r →
         level e = COHERENCE
         ∧ is_Some (message e) ∧ is_Some (slot e) ∧ is_Some (suggestion e).
Proof.
  cbv zeta. split.
  - destruct (_validate_coherence self j) as [|e es] eqn:H.
    + rewrite (validate_accepts _ _ _ H). cbv zeta.
      by destruct (PrimFloat.ltb _ _).
    + by rewrite (validate_rejects _ _ _ _ _ H).
  - intros e. rewrite validate_errors. apply coherence_errors_complete.
Qed.

Lemma reported_errors_complete_witness :
  is_Some (message (case_type_error (VInt 123))).
Proof.
  apply (proj2 (reported_errors_complete Sample.engine initial_stats
                  (candidate (VInt 123) (VStr "STA")))
           (case_type_error (VInt 123))).
  apply list_elem_of_singleton. reflexivity.
Defined.

(** X5. A candidate whose [case] or [function] is absent, [None] or any
    other value that Python counts as false (empty text, zero, an empty
    list) is accepted without an error by every engine. *)
Theorem validate_absent_field (self : ValidationEngine.t) (stats : Stats)
    (j : gmap string pyval) :
  truthy (dict_get j "case") = false ∨ truthy (dict_get j "function") = false →
  passed (validate self stats j).1 = true
  ∧ errors (validate self stats j).1 = [].
Proof.
  intros H. apply (coherence_absent self) in H.
  rewrite validate_errors, (validate_accepts _ _ _ H). cbv zeta.
  by destruct (PrimFloat.ltb _ _).
Qed.

Lemma validate_absent_field_witness :
  passed (validate Sample.engine initial_stats
            (candidate (VInt 0) (VStr "DYN"))).1 = true
  ∧ errors (validate Sample.engine initial_stats
              (candidate (VInt 0) (VStr "DYN"))).1 = [].
Proof.
  apply (validate_absent_field Sample.engine initial_stats
           (candidate (VInt 0) (VStr "DYN"))).
  left. reflexivity.
Defined.

(** X6. Open world: a well-formed case code that the rule store does not
    know (or any well-formed code when the engine has no rule store), paired
    with a valid function, is accepted without an error. *)
Theorem validate_unknown_code (self : ValidationEngine.t) (stats : Stats)
    (j : gmap string pyval) (c f : string) :
  dict_get j "case" = VStr c → dict_get j "function" = VStr f →
  case_format_ok c = true → f ∈ valid_functions →
  (∀ rules, cooccurrence_rules self = Some rules →
            CooccurrenceRules.constraints rules !! Some c = None) →
  passed (validate self stats j).1 = true
  ∧ errors (validate self stats j).1 = [].
Proof.
  intros Ec Ef Hfmt Hv Hunknown.
  assert (_validate_coherence self j = []) as H.
  { rewrite (coherence_lookup self j c f); try done.
    - destruct (cooccurrence_rules self) as [rules|]; [|done].
      by rewrite (Hunknown rules eq_refl).
    - rewrite Ec. by apply case_format_ok_truthy.
    - rewrite Ef.
      by destruct (proj1 (valid_functions_spec f) Hv) as [-> | [-> | ->]]. }
  rewrite validate_errors, (validate_accepts _ _ _ H). cbv zeta.
  by destruct (PrimFloat.ltb _ _).
Qed.

Lemma validate_unknown_code_witness :
  passed (validate {| cooccurrence_rules := Some Sample.rules;
                      rag := Some Sample.retriever |}
            initial_stats (candidate (VStr "XYZ") (VStr "MNF"))).1 = true
  ∧ errors (validate {| cooccurrence_rules := Some Sample.rules;
                        rag := Some Sample.retriever |}
              initial_stats (candidate (VStr "XYZ") (VStr "MNF"))).1 = [].
Proof.
  apply (validate_unknown_code
           {| cooccurrence_rules := Some Sample.rules;
              rag := Some Sample.retriever |}
           initial_stats
           (candidate (VStr "XYZ") (VStr "MNF")) "XYZ" "MNF"
           eq_refl eq_refl eq_refl).
  - apply valid_functions_spec. tauto.
  - intros rules H. injection H as <-. vm_compute. reflexivity.
Defined.

(** The three outcomes of the semantic stage. *)
Lemma semantic_stage_cases (self : ValidationEngine.t) (j : gmap string pyval) :
  let sem := _validate_semantic self j in
  (∃ rg s ch, rag self = Some rg ∧ dict_get j "case" = VStr s ∧ s ≠ ""
              ∧ RAGSystem.retrieve_for_case rg s = Some ch
              ∧ sem_confidence sem = 0.95%float
              ∧ ∃ c1 c2, sem_citations sem = [c1; c2])
  ∨ (∃ rg s, rag self = Some rg ∧ dict_get j "case" = VStr s ∧ s ≠ ""
             ∧ RAGSystem.retrieve_for_case rg s = None
             ∧ sem_confidence sem = 0.70%float
             ∧ ∃ c1, sem_citations sem = [c1])
  ∨ ((rag self = None ∨ is_str (dict_get j "case") = false
      ∨ dict_get j "case" = VStr "")
     ∧ sem_confidence sem = 0.90%float
     ∧ ∃ c1, sem_citations sem = [c1]).
Proof.
  cbv zeta. unfold _validate_semantic.
  destruct (rag self) as [rg|].
  2:{ right; right. split; [by left|].
      destruct (dict_get j "case"); split; try reflexivity;
        eexists; reflexivity. }
  destruct (dict_get j "case") as [| | | |s| |];
    try (right; right; split; [right; left; reflexivity|];
         split; [reflexivity|eexists; reflexivity]).
  cbn [truthy]. destruct (String.eqb_spec s "") as [-> | Hs]; cbn [negb].
  { right; right. split; [right; right; reflexivity|].
    split; [reflexivity|eexists; reflexivity]. }
  destruct (RAGSystem.retrieve_for_case rg s) as [ch|] eqn:Hret.
  - left. exists rg, s, ch. do 4 (split; [done|]).
    split; [reflexivity|]. do 2 eexists. reflexivity.
  - right; left. exists rg, s. do 4 (split; [done|]).
    split; [reflexivity|]. eexists. reflexivity.
Qed.

(** X7. A verdict asks for clarification exactly when the candidate passed
    the coherence stage, the engine has a retriever, the case is a non-empty
    text and the retriever has no entry for it.  A verdict carries a
    citation exactly when it is accepted. *)
Theorem clarification_iff_retriever_miss (self : ValidationEngine.t)
    (stats : Stats) (j : gmap string pyval) :
  let r := (validate self stats j).1 in
  (needs_clarification r = true ↔
     passed r = true
     ∧ ∃ rg s, rag self = Some rg ∧ dict_get j "case" = VStr s ∧ s ≠ ""
               ∧ RAGSystem.retrieve_for_case rg s = None)
  ∧ (passed r = true ↔ citations r ≠ []).
Proof.
  cbv zeta.
  destruct (_validate_coherence self j) as [|e es] eqn:H.
  2:{ rewrite (validate_rejects _ _ _ _ _ H). cbn.
      split; split; try done. by intros [? _]. }
  rewrite (validate_accepts _ _ _ H). cbv zeta.
  destruct (semantic_stage_cases self j)
    as [(rg & s & ch & Hr & Hc & Hs & Hret & -> & c1 & c2 & ->)
       |[(rg & s & Hr & Hc & Hs & Hret & -> & c1 & ->)
        |(Hno & -> & c1 & ->)]].
  - change (PrimFloat.ltb 0.95 0.85)%float with false. cbn.
    split; split; try done.
    intros (_ & rg' & s' & Hr' & Hc' & _ & Hmiss). congruence.
  - change (PrimFloat.ltb 0.70 0.85)%float with true. cbn.
    split; split; try done. intros _. split; [done|]. by exists rg, s.
  - change (PrimFloat.ltb 0.90 0.85)%float with false. cbn.
    split; split; try done.
    intros (_ & rg' & s' & Hr' & Hc' & Hs' & _).
    destruct Hno as [Hno | [Hno | Hno]]; [congruence| |congruence].
    by rewrite Hc' in Hno.
Qed.

(** Only an accepted verdict is flagged. *)
Lemma flagged_verdict_passed (self : ValidationEngine.t)
    (stats : Stats) (j : gmap string pyval) :
  needs_clarification (validate self stats j).1 = true →
  passed (validate self stats j).1 = true.
Proof.
  destruct (_validate_coherence self j) as [|e es] eqn:H.
  - rewrite (validate_accepts _ _ _ H). cbv zeta.
    by destruct (PrimFloat.ltb _ _).
  - by rewrite (validate_rejects _ _ _ _ _ H).
Qed.

(** One call of [validate], seen from the counters. *)
Lemma validate_counters (self : ValidationEngine.t) (stats : Stats)
    (j : gmap string pyval) :
  let r := (validate self stats j).1 in
  let stats' := (validate self stats j).2 in
  total_validations stats' = (total_validations stats + 1)%Z
  ∧ stats_passed stats'
    = (stats_passed stats + if passed r then 1 else 0)%Z
  ∧ rejected stats' = (rejected stats + if passed r then 0 else 1)%Z
  ∧ clarification_needed stats'
    = (clarification_needed stats + if needs_clarification r then 1 else 0)%Z.
Proof.
  cbv zeta.
  destruct (_validate_coherence self j) as [|e es] eqn:H.
  - rewrite (validate_accepts _ _ _ H). cbv zeta.
    destruct (PrimFloat.ltb _ _); cbn; repeat split; lia.
  - rewrite (validate_rejects _ _ _ _ _ H). cbn. repeat split; lia.
Qed.

Lemma validate_all_counters (self : ValidationEngine.t)
    (inputs : list (gmap string pyval)) (stats : Stats) :
  let rs := (validate_all self stats inputs).1 in
  let stats' := (validate_all self stats inputs).2 in
  length rs = length inputs
  ∧ total_validations stats'
    = (total_validations stats + Z.of_nat (length inputs))%Z
  ∧ stats_passed stats'
    = (stats_passed stats + Z.of_nat (length (List.filter passed rs)))%Z
  ∧ rejected stats'
    = (rejected stats
       + Z.of_nat (length (List.filter (fun r => negb (passed r)) rs)))%Z
  ∧ clarification_needed stats'
    = (clarification_needed stats
       + Z.of_nat (length (List.filter needs_clarification rs)))%Z.
Proof.
  revert stats. induction inputs as [|j rest IH]; intros stats.
  - cbn. repeat split; lia.
  - cbn [validate_all].
    pose proof (validate_counters self stats j) as (Ht & Hp & Hr & Hc).
    destruct (validate self stats j) as [r s1]. cbn [fst snd] in *.
    specialize (IH s1).
    destruct (validate_all self s1 rest) as [rs s2]. cbn [fst snd] in *.
    destruct IH as (Hl & Ht' & Hp' & Hr' & Hc').
    cbn [List.filter length].
    destruct (passed r), (needs_clarification r); cbn [negb length];
      repeat split; lia.
Qed.

(** X8. After any series of calls on a fresh engine the counters count the
    verdicts: [total_validations] is the number of calls, [passed] the number
    of accepted verdicts, [rejected] the number of rejected ones and
    [clarification_needed] the number of flagged ones; hence
    [total_validations = passed + rejected] and
    [clarification_needed <= passed]. *)
Theorem counters_count_verdicts (self : ValidationEngine.t)
    (inputs : list (gmap string pyval)) :
  let rs := (validate_all self initial_stats inputs).1 in
  let stats := (validate_all self initial_stats inputs).2 in
  length rs = length inputs
  ∧ total_validations stats = Z.of_nat (length inputs)
  ∧ stats_passed stats = Z.of_nat (length (List.filter passed rs))
  ∧ rejected stats
    = Z.of_nat (length (List.filter (fun r => negb (passed r)) rs))
  ∧ clarification_needed stats
    = Z.of_nat (length (List.filter needs_clarification rs))
  ∧ total_validations stats = (stats_passed stats + rejected stats)%Z
  ∧ (0 ≤ clarification_needed stats ≤ stats_passed stats)%Z.
Proof.
  cbv zeta.
  pose proof (validate_all_counters self inputs initial_stats)
    as (Hl & Ht & Hp & Hr & Hc).
  cbn [initial_stats total_validations stats_passed rejected
       clarification_needed] in *.
  set (rs := (validate_all self initial_stats inputs).1) in *.
  assert (length (List.filter passed rs)
          + length (List.filter (fun r => negb (passed r)) rs)
          = length rs)%nat as Hpart.
  { clear. induction rs as [|r rs IH]; [done|].
    cbn [List.filter]. destruct (passed r); cbn [negb length]; lia. }
  assert (length (List.filter needs_clarification rs)
          ≤ length (List.filter passed rs))%nat as Hle.
  { assert (Forall (fun r => needs_clarification r = true → passed r = true) rs)
      as Hall.
    { subst rs. clear. generalize initial_stats.
      induction inputs as [|j rest IH]; intros s; [by constructor|].
      cbn [validate_all].
      pose proof (flagged_verdict_passed self s j) as Haux.
      destruct (validate self s j) as [r s1]. cbn [fst] in Haux.
      specialize (IH s1). destruct (validate_all self s1 rest) as [rs s2].
      constructor; [exact Haux|exact IH]. }
    clear -Hall. induction Hall as [|r rs Hr _ IH]; [done|].
    cbn [List.filter]. destruct (needs_clarification r).
    - rewrite (Hr eq_refl). cbn. lia.
    - destruct (passed r); cbn; lia. }
  repeat split; lia.
Qed.

(** X9. What [__init__] leaves in the engine: fresh counters; a rule store
    only if the grammar file exists and loads, and then the store extracted
    from its data; a retriever only if its constructor succeeded, and never
    without a rule store. *)
Theorem engine_init_attributes (grammar_file : option GrammarFile)
    (rag_ctor : result RAGSystem.t) :
  let self := (ValidationEngine.init grammar_file rag_ctor).1 in
  (ValidationEngine.init grammar_file rag_ctor).2 = initial_stats
  ∧ (∀ rules, cooccurrence_rules self = Some rules →
       ∃ gf data, grammar_file = Some gf ∧ gf_exists gf = true
                  ∧ gf_load gf = Ok data
                  ∧ rules = {| CooccurrenceRules.extractor := RuleExtractor.init data;
                               CooccurrenceRules.constraints :=
                                 extract_case_constraints (RuleExtractor.init data) |})
  ∧ (∀ r, rag self = Some r →
       rag_ctor = Ok r ∧ is_Some (cooccurrence_rules self))
  ∧ (∀ gf data, grammar_file = Some gf → gf_exists gf = true →
       gf_load gf = Ok data →
       is_Some (cooccurrence_rules self)
       ∧ rag self = match rag_ctor with Ok r => Some r | Raise _ => None end).
Proof.
  cbv zeta. split; [done|].
  unfold ValidationEngine.init. cbn [fst].
  destruct grammar_file as [gf|]; [|by repeat split].
  destruct (gf_exists gf) eqn:Hex.
  2:{ split; [done|]. split; [done|]. intros gf' data' [= <-]. congruence. }
  destruct (gf_load gf) as [data|e] eqn:Hload.
  2:{ cbn. split; [done|]. split; [done|]. intros gf' data' [= <-]. congruence. }
  rewrite init_ok.
  split; [|split].
  - intros rules H. exists gf, data. repeat split; try done.
    destruct rag_ctor; cbn [cooccurrence_rules] in H; by injection H as <-.
  - intros r H. destruct rag_ctor; cbn [rag cooccurrence_rules] in *; [|done].
    injection H as <-. split; [done|eauto].
  - intros gf' data' [= <-] _ _.
    destruct rag_ctor; cbn [rag cooccurrence_rules]; eauto.
Qed.

Lemma engine_init_attributes_witness :
  is_Some (cooccurrence_rules Sample.engine_no_rag)
  ∧ rag Sample.engine_no_rag = None.
Proof.
  apply (proj2 (proj2 (proj2 (engine_init_attributes
                                (Some Sample.grammar_file)
                                (Raise (ImportError "ChromaDB required for RAG")))))
           Sample.grammar_file Sample.dataset eq_refl eq_refl eq_refl).
Defined.

Lemma filter_length_le {A} (p : A → bool) (l : list A) :
  (length (List.filter p l) ≤ length l)%nat.
Proof. induction l as [|x l IH]; cbn; [lia|]. destruct (p x); cbn; lia. Qed.

Lemma filter_length_partition {A} (p : A → bool) (l : list A) :
  (length (List.filter p l) + length (List.filter (fun x => negb (p x)) l)
   = length l)%nat.
Proof. induction l as [|x l IH]; cbn; [lia|]. destruct (p x); cbn; lia. Qed.

Lemma size_list_to_set_le (l : list string) :
  (size (list_to_set l : gset string) ≤ length l)%nat.
Proof.
  induction l as [|x l IH]; cbn.
  - by rewrite size_empty.
  - rewrite size_union_alt, size_singleton.
    assert (size (list_to_set l ∖ {[x]} : gset string)
            ≤ size (list_to_set l : gset string))%nat
      by (apply subseteq_size; set_solver).
    lia.
Qed.

(** X10. The figures of [get_stats] agree with each other, for any role
    table and dataset: strict and permissive cases add up to the total, and
    neither a per-function count nor the number of roles covered exceeds the
    total. *)
Theorem get_stats_consistent (ex : RuleExtractor.t) :
  let st := RuleStatistics.get_stats ex in
  let total := RuleStatistics.total_cases st in
  (RuleStatistics.strict_cases st + RuleStatistics.permissive_cases st = total
   ∧ RuleStatistics.count_STA (RuleStatistics.cases_by_function st) ≤ total
   ∧ RuleStatistics.count_DYN (RuleStatistics.cases_by_function st) ≤ total
   ∧ RuleStatistics.count_MNF (RuleStatistics.cases_by_function st) ≤ total
   ∧ RuleStatistics.semantic_roles_covered st ≤ total)%nat.
Proof.
  cbv zeta. unfold RuleStatistics.get_stats.
  cbn [RuleStatistics.total_cases RuleStatistics.strict_cases
       RuleStatistics.permissive_cases RuleStatistics.cases_by_function
       RuleStatistics.semantic_roles_covered RuleStatistics.count_STA
       RuleStatistics.count_DYN RuleStatistics.count_MNF].
  set (m := extract_case_constraints ex).
  assert (length (RuleStatistics.values m) = size m) as Hlen.
  { unfold RuleStatistics.values.
    by rewrite length_fmap, length_map_to_list. }
  unfold RuleStatistics.count_if. rewrite <- Hlen.
  split; [apply filter_length_partition|].
  repeat split; try apply filter_length_le.
  etrans; [apply size_list_to_set_le|]. by rewrite length_fmap.
Qed.

(** X11. The descriptive queries of a store answer from the last dataset
    entry of type ["case"] that carries the code, and with their defaults
    when no entry does: no mistakes, no explanation, and the text
    ["Unknown case: <code>"]. *)
Theorem store_queries_last_entry (data : list CaseData) (case alt : string) :
  let rules :=
    {| CooccurrenceRules.extractor := RuleExtractor.init data;
       CooccurrenceRules.constraints :=
         extract_case_constraints (RuleExtractor.init data) |} in
  match last (List.filter
                (fun d => is_case d && bool_decide (cd_code d = Some case))
                data) with
  | None =>
      CooccurrenceQueries.get_common_mistakes rules case = []
      ∧ CooccurrenceQueries.get_why_not_alternative rules case alt = None
      ∧ CooccurrenceQueries.get_case_description rules case
        = "Unknown case: " ++ case
  | Some d =>
      CooccurrenceQueries.get_common_mistakes rules case
      = default [] (cd_common_mistakes d)
      ∧ CooccurrenceQueries.get_why_not_alternative rules case alt
        = default ∅ (cd_why_not_alternatives d) !! alt
      ∧ CooccurrenceQueries.get_case_description rules case
        = default case (cd_name d) ++ " ("
          ++ default "UNKNOWN" (cd_semantic_role d) ++ "): "
          ++ String.substring 0 100 (default "" (cd_description d)) ++ "..."
  end.
Proof.
  cbv zeta.
  unfold CooccurrenceQueries.get_common_mistakes,
    CooccurrenceQueries.get_why_not_alternative,
    CooccurrenceQueries.get_case_description.
  cbn [CooccurrenceRules.constraints].
  unfold extract_case_constraints.
  rewrite fold_insert_last, filter_and, lookup_empty.
  cbn [RuleExtractor.init raw_data role_function_rules].
  destruct (last _) as [d|] eqn:Hlast; [|done].
  apply last_Some in Hlast as [l' Hl'].
  assert (d ∈ List.filter
                (fun d => is_case d && bool_decide (cd_code d = Some case)) data)
    as Hin by (rewrite Hl'; set_solver).
  apply list_elem_of_In, filter_In in Hin as [_ Hd].
  apply andb_true_iff in Hd as [_ Hcode%bool_decide_eq_true_1].
  unfold constraints_of.
  cbn [common_mistakes why_not_alternatives case_name semantic_role description].
  rewrite Hcode. repeat split. by destruct (cd_name d).
Qed.

(** * The language-model client *)

Lemma chat_history (self : LLMClient.t) (user_message : string)
    (system_prompt : option string) (max_tokens : Z) (temperature : float) :
  let self' := (LLMClient.chat self user_message system_prompt max_tokens
                  temperature).2 in
  let text := (LLMClient.chat self user_message system_prompt max_tokens
                 temperature).1 in
  let history := LLMClient.conversation_history self in
  let system :=
    if negb (nonempty history) && LLMClient.given system_prompt
    then [ {| LLMClient.role := "system";
              LLMClient.content := default "" system_prompt |} ]
    else [] in
  let user :=
    {| LLMClient.role := "user"; LLMClient.content := user_message |} in
  LLMClient.client self' = LLMClient.client self
  ∧ LLMClient.model self' = LLMClient.model self
  ∧ ((LLMClient.conversation_history self'
      = (history ++ system ++ [user]
         ++ [ {| LLMClient.role := "assistant"; LLMClient.content := text |} ])%list)
     ∨ (LLMClient.conversation_history self'
        = (history ++ system ++ [user])%list
        ∧ ∃ str_e, text = "Error calling LLM: " ++ str_e)).
Proof.
  cbv zeta. unfold LLMClient.chat, list_append.
  destruct (negb _ && _);
    destruct (LLMClient.client self _ _ _ _) as [m|e]; cbn;
    repeat split; rewrite <- ?app_assoc; cbn; eauto.
Qed.

(** X12. [chat] only appends to the conversation: what was there stays in
    place, the user's message is always recorded, the conversation grows by
    one to three messages, and it ends with the assistant's answer unless
    the call failed, in which case the text returned is an error text and
    the conversation ends with the user's message. *)
Theorem chat_appends (self : LLMClient.t) (user_message : string)
    (system_prompt : option string) (max_tokens : Z) (temperature : float) :
  let self' := (LLMClient.chat self user_message system_prompt max_tokens
                  temperature).2 in
  let text := (LLMClient.chat self user_message system_prompt max_tokens
                 temperature).1 in
  let user :=
    {| LLMClient.role := "user"; LLMClient.content := user_message |} in
  LLMClient.conversation_history self
    `prefix_of` LLMClient.conversation_history self'
  ∧ user ∈ LLMClient.conversation_history self'
  ∧ (LLMClient.get_conversation_length self + 1
     ≤ LLMClient.get_conversation_length self'
     ≤ LLMClient.get_conversation_length self + 3)%nat
  ∧ (last (LLMClient.conversation_history self')
     = Some {| LLMClient.role := "assistant"; LLMClient.content := text |}
     ∨ (last (LLMClient.conversation_history self') = Some user
        ∧ ∃ str_e, text = "Error calling LLM: " ++ str_e)).
Proof.
  cbv zeta. unfold LLMClient.get_conversation_length.
  destruct (chat_history self user_message system_prompt max_tokens temperature)
    as (_ & _ & [-> | [-> Herr]]);
    destruct (negb _ && _); cbn [app]; rewrite ?app_nil_l.
  all: split; [by apply prefix_app_r|].
  all: split; [set_solver|].
  all: split; [rewrite !length_app; cbn; lia|].
  - left. by rewrite last_app.
  - left. by rewrite last_app.
  - right. split; [|done]. by rewrite last_app.
  - right. split; [|done]. by rewrite last_app.
Qed.

Lemma well_formed_snoc_user (h : list LLMClient.Message) (c : string) :
  well_formed_history h →
  well_formed_history (h ++ [ {| LLMClient.role := "user";
                                 LLMClient.content := c |} ])%list.
Proof.
  intros Hwf i m Hi.
  apply lookup_app_Some in Hi as [Hi | [Hge Hi]].
  - destruct (Hwf i m Hi) as (Hr & Hs & Ha). split; [done|]. split; [done|].
    intros Hrole. destruct (Ha Hrole) as (j & u & -> & Hj & Hu).
    exists j, u. split; [done|]. split; [|done]. by apply lookup_app_l_Some.
  - apply list_lookup_singleton_Some in Hi as [_ <-]. cbn.
    split; [tauto|]. split; intros [=].
Qed.

Lemma well_formed_snoc_assistant (h : list LLMClient.Message) (c a : string) :
  well_formed_history h →
  well_formed_history
    ((h ++ [ {| LLMClient.role := "user"; LLMClient.content := c |} ])
     ++ [ {| LLMClient.role := "assistant"; LLMClient.content := a |} ])%list.
Proof.
  intros Hwf i m Hi.
  apply lookup_app_Some in Hi as [Hi | [Hge Hi]].
  - destruct (well_formed_snoc_user h c Hwf i m Hi) as (Hr & Hs & Ha).
    split; [done|]. split; [done|].
    intros Hrole. destruct (Ha Hrole) as (j & u & -> & Hj & Hu).
    exists j, u. split; [done|]. split; [|done]. by apply lookup_app_l_Some.
  - apply list_lookup_singleton_Some in Hi as [Hi <-]. cbn.
    split; [tauto|]. split; [intros [=]|]. intros _.
    rewrite length_app in *. cbn in *.
    exists (length h), {| LLMClient.role := "user"; LLMClient.content := c |}.
    split; [lia|]. split; [|done].
    rewrite lookup_app_l by (rewrite length_app; cbn; lia).
    by rewrite lookup_app_r, Nat.sub_diag by lia.
Qed.

Lemma well_formed_system (s : string) :
  well_formed_history [ {| LLMClient.role := "system"; LLMClient.content := s |} ].
Proof.
  intros i m Hi. apply list_lookup_singleton_Some in Hi as [-> <-]. cbn.
  split; [tauto|]. split; [done|]. intros [=].
Qed.

Lemma well_formed_nil : well_formed_history [].
Proof. intros i m Hi. by rewrite lookup_nil in Hi. Qed.

Lemma chat_well_formed (self : LLMClient.t) (user_message : string)
    (system_prompt : option string) (max_tokens : Z) (temperature : float) :
  well_formed_history (LLMClient.conversation_history self) →
  well_formed_history
    (LLMClient.conversation_history
       (LLMClient.chat self user_message system_prompt max_tokens temperature).2).
Proof.
  intros Hwf. unfold LLMClient.chat, list_append.
  set (h1 := if negb _ && _ then _ else _).
  assert (well_formed_history h1) as Hwf1.
  { subst h1. destruct (LLMClient.conversation_history self) as [|m h];
      cbn [nonempty negb andb]; [|done].
    destruct (LLMClient.given system_prompt); [|done].
    apply well_formed_system. }
  destruct (LLMClient.client self _ _ _ _) as [a|e]; cbn.
  - by apply well_formed_snoc_assistant.
  - by apply well_formed_snoc_user.
Qed.

(** X13. Whatever series of [chat] and [reset_conversation] calls a fresh
    client goes through, and whether the calls to the service succeed or
    fail, its conversation keeps its shape: only the roles system, user and
    assistant occur, a system message can only be the first message, and
    every assistant message directly follows a user message.  The client
    keeps its service and its model name. *)
Theorem conversation_well_formed (client : LLMClient.Groq) (self : LLMClient.t) :
  LLMClient.reachable client self →
  well_formed_history (LLMClient.conversation_history self)
  ∧ LLMClient.client self = client
  ∧ LLMClient.model self = "llama-3.3-70b-versatile".
Proof.
  induction 1 as [|self u sp mt t Hreach (IH & Hc & Hm)|self Hreach (IH & Hc & Hm)].
  - split; [apply well_formed_nil|done].
  - split; [by apply chat_well_formed|].
    destruct (chat_history self u sp mt t) as (-> & -> & _). done.
  - split; [apply well_formed_nil|done].
Qed.

Lemma conversation_well_formed_witness :
  well_formed_history
    (LLMClient.conversation_history
       (LLMClient.chat
          (LLMClient.init (fun _ _ _ _ => LLMClient.Failed "timeout"))
          "hello" (Some "be brief") 200 0.3%float).2).
Proof.
  apply (conversation_well_formed (fun _ _ _ _ => LLMClient.Failed "timeout")).
  apply LLMClient.reach_chat, LLMClient.reach_init.
Defined.

(** * Retrieval *)

(** The score is clamped whatever the distance, also for a distance that is
    not a number. *)
Lemma clamp_score_range (distance : float) :
  let s := Retrieval.clamp_score distance in
  s = 0%float ∨ s = 1%float
  ∨ (s = PrimFloat.sub 1 (PrimFloat.div distance 2)
     ∧ PrimFloat.ltb 0 s = true ∧ PrimFloat.ltb s 1 = true).
Proof.
  cbv zeta. unfold Retrieval.clamp_score, Retrieval.py_max, Retrieval.py_min.
  set (score := PrimFloat.sub 1 (PrimFloat.div distance 2)).
  destruct (PrimFloat.ltb score 1) eqn:H1.
  - destruct (PrimFloat.ltb 0 score) eqn:H0; [|by left].
    right; right. done.
  - change (PrimFloat.ltb 0 1) with true. cbv iota. by right; left.
Qed.

Lemma collect_Return (results : Retrieval.QueryResult)
    (indices : list nat) (acc chunks : list RAGSystem.RetrievedChunk) :
  Retrieval.collect results acc indices = Retrieval.Return chunks →
  ∃ l, chunks = (acc ++ l)%list
       ∧ Forall2 (fun i ch => Retrieval.chunk_at results i = Retrieval.Return ch)
           indices l.
Proof.
  revert acc. induction indices as [|i rest IH]; intros acc H; cbn in H.
  - injection H as <-. exists []. by rewrite app_nil_r.
  - destruct (Retrieval.chunk_at results i) as [ch|] eqn:Hi; [|done].
    apply IH in H as (l & -> & Hl). exists (ch :: l).
    unfold list_append. rewrite <- app_assoc. split; [done|].
    by constructor.
Qed.

Lemma collect_IndexError (results : Retrieval.QueryResult)
    (indices : list nat) (acc : list RAGSystem.RetrievedChunk) :
  Retrieval.collect results acc indices = Retrieval.IndexError ↔
  ∃ i, i ∈ indices ∧ Retrieval.chunk_at results i = Retrieval.IndexError.
Proof.
  revert acc. induction indices as [|i rest IH]; intros acc; cbn.
  - split; [done|]. by intros (i & ?%elem_of_nil & _).
  - destruct (Retrieval.chunk_at results i) as [ch|] eqn:Hi.
    + rewrite IH. split.
      * intros (k & Hk & Hf). exists k. split; [by right|done].
      * intros (k & Hk & Hf). exists k. split; [|done].
        apply elem_of_cons in Hk as [-> | Hk]; [congruence|done].
    + split; [|done]. intros _. exists i. split; [left|done].
Qed.

(** X14. Every chunk that [retrieve] returns has a score of 0.0, of 1.0, or
    strictly between the two, whatever distances the collection reports. *)
Theorem retrieve_scores_clamped (collection : Retrieval.Collection)
    (query : string) (n_results : Z) (filter_case : option string)
    (chunks : list RAGSystem.RetrievedChunk) :
  Retrieval.retrieve collection query n_results filter_case
  = Retrieval.Return chunks →
  Forall (fun ch =>
            RAGSystem.score ch = 0%float ∨ RAGSystem.score ch = 1%float
            ∨ (PrimFloat.ltb 0 (RAGSystem.score ch) = true
               ∧ PrimFloat.ltb (RAGSystem.score ch) 1 = true))
    chunks.
Proof.
  unfold Retrieval.retrieve.
  set (results := collection _ _ _).
  destruct (Retrieval.ids results) as [|ids0 ?]; [by intros [= <-]|].
  destruct (0 <? length ids0)%nat; [|by intros [= <-]].
  intros (found & -> & Hl)%collect_Return. rewrite app_nil_l.
  induction Hl as [|i ch rest l' Hch _ IH]; constructor; [|done].
  unfold Retrieval.chunk_at in Hch.
  destruct (_ ≫= _) as [m|]; [|done].
  destruct (_ ≫= _) as [d|]; [|done].
  injection Hch as <-. cbn [RAGSystem.score].
  destruct (clamp_score_range d) as [-> | [-> | (_ & H0 & H1)]]; tauto.
Qed.

Lemma retrieve_scores_clamped_witness :
  Forall (fun ch =>
            RAGSystem.score ch = 0%float ∨ RAGSystem.score ch = 1%float
            ∨ (PrimFloat.ltb 0 (RAGSystem.score ch) = true
               ∧ PrimFloat.ltb (RAGSystem.score ch) 1 = true))
    [ {| RAGSystem.case_code := "ERG"; RAGSystem.case_name := "Ergative";
         RAGSystem.semantic_role := "AGENT";
         RAGSystem.description := "The Ergative case";
         RAGSystem.citation := "Grammar 4.1"; RAGSystem.score := 0%float |} ].
Proof.
  apply (retrieve_scores_clamped SampleRetrieval.collection "agent" 1
           (Some "ERG")).
  vm_compute. reflexivity.
Defined.

(** The filter that [retrieve] hands to the collection. *)
Lemma retrieve_unfold (collection : Retrieval.Collection) (query : string)
    (n_results : Z) (filter_case : option string) :
  Retrieval.retrieve collection query n_results filter_case
  = let results :=
      collection query n_results
        (match filter_case with
         | Some c => if String.eqb c "" then None else Some c
         | None => None
         end) in
    match Retrieval.ids results with
    | [] => Retrieval.Return []
    | ids0 :: _ => Retrieval.collect results [] (seq 0 (length ids0))
    end.
Proof.
  unfold Retrieval.retrieve. cbv zeta.
  assert (match filter_case with
          | Some c => if negb (String.eqb c "") then Some c else None
          | None => None
          end
          = match filter_case with
            | Some c => if String.eqb c "" then None else Some c
            | None => None
            end) as ->.
  { destruct filter_case as [c|]; [|done]. by destruct (String.eqb c ""). }
  destruct (Retrieval.ids _) as [|ids0 ?]; [done|].
  destruct ids0; cbn; done.
Qed.

(** X15. [retrieve] returns one chunk per id of the first result list, in
    rank order, the chunk of rank [i] being built from the metadata and the
    distance of rank [i]; it raises [IndexError] exactly when some rank has
    no metadata or no distance; and an empty text as [filter_case] means no
    filter. *)
Theorem retrieve_shape (collection : Retrieval.Collection) (query : string)
    (n_results : Z) (filter_case : option string) :
  let results :=
    collection query n_results
      (match filter_case with
       | Some c => if String.eqb c "" then None else Some c
       | None => None
       end) in
  let ranks := length (default [] (head (Retrieval.ids results))) in
  (Retrieval.retrieve collection query n_results filter_case
   = Retrieval.IndexError ↔
   ∃ i, (i < ranks)%nat
        ∧ (Retrieval.metadatas results !! 0%nat ≫= (fun ms => ms !! i) = None
           ∨ Retrieval.distances results !! 0%nat ≫= (fun ds => ds !! i) = None))
  ∧ (∀ chunks,
       Retrieval.retrieve collection query n_results filter_case
       = Retrieval.Return chunks →
       length chunks = ranks
       ∧ ∀ i ch, chunks !! i = Some ch →
                 Retrieval.chunk_at results i = Retrieval.Return ch).
Proof.
  cbv zeta. rewrite retrieve_unfold. cbv zeta.
  set (results := collection _ _ _).
  destruct (Retrieval.ids results) as [|ids0 ?]; cbn [head default from_option id].
  { split.
    - split; [done|]. intros (i & Hi & _). cbn in Hi. lia.
    - intros chunks [= <-]. split; [done|]. intros i ch. by rewrite lookup_nil. }
  split.
  - rewrite collect_IndexError. split.
    + intros (i & Hi & Hf). exists i.
      apply elem_of_seq in Hi. split; [lia|].
      unfold Retrieval.chunk_at in Hf.
      destruct (Retrieval.metadatas results !! 0%nat ≫= _); [|by left].
      destruct (Retrieval.distances results !! 0%nat ≫= _); [done|by right].
    + intros (i & Hi & Hf). exists i. split; [apply elem_of_seq; lia|].
      unfold Retrieval.chunk_at.
      destruct (Retrieval.metadatas results !! 0%nat ≫= _); [|done].
      destruct Hf as [Hf | Hf]; [done|]. by rewrite Hf.
  - intros chunks (found & -> & Hl)%collect_Return. rewrite app_nil_l.
    split.
    + apply Forall2_length in Hl. by rewrite length_seq in Hl.
    + intros i ch Hi.
      destruct (Forall2_lookup_r _ _ _ _ _ Hl Hi) as (k & Hk & Hch).
      apply lookup_seq in Hk as [-> _]. done.
Qed.

Lemma retrieve_shape_witness :
  length [ {| RAGSystem.case_code := "ERG"; RAGSystem.case_name := "Ergative";
              RAGSystem.semantic_role := "AGENT";
              RAGSystem.description := "The Ergative case";
              RAGSystem.citation := "Grammar 4.1";
              RAGSystem.score := 0%float |} ] = 1%nat.
Proof.
  apply (proj2 (retrieve_shape SampleRetrieval.collection "agent" 1 (Some "ERG"))).
  vm_compute. reflexivity.
Defined.

(** X16. [retrieve_for_case] asks for the code as query text, filtered on
    the code (for the empty code: not filtered at all), and answers with
    the top-ranked chunk; it answers [None] exactly when the collection
    returns no id. *)
Theorem retrieve_for_case_top (collection : Retrieval.Collection)
    (case_code : string) :
  let results :=
    collection case_code 1%Z
      (if String.eqb case_code "" then None else Some case_code) in
  (Retrieval.retrieve_for_case collection case_code = Retrieval.Return None ↔
   default [] (head (Retrieval.ids results)) = [])
  ∧ (∀ ch, Retrieval.retrieve_for_case collection case_code
           = Retrieval.Return (Some ch) →
           Retrieval.chunk_at results 0 = Retrieval.Return ch).
Proof.
  cbv zeta. unfold Retrieval.retrieve_for_case.
  rewrite retrieve_unfold. cbv zeta.
  set (results := collection _ _ _).
  destruct (Retrieval.ids results) as [|ids0 ?];
    cbn [head default from_option id]; [by split|].
  destruct (Retrieval.collect results [] (seq 0 (length ids0)))
    as [chunks|] eqn:Hc.
  - apply collect_Return in Hc as (found & -> & Hl). rewrite app_nil_l.
    pose proof (Forall2_length _ _ _ Hl) as Hlen. rewrite length_seq in Hlen.
    split.
    + destruct found as [|ch found].
      * split; [|done]. intros _. by apply nil_length_inv.
      * split; [done|]. intros ->. done.
    + intros ch Hch. destruct found as [|ch' found]; [done|].
      injection Hch as ->. destruct ids0 as [|i0 ids0]; [done|].
      cbn [length seq] in Hl. by apply Forall2_cons_1 in Hl as [Hl _].
  - split; [|done]. split; [done|]. intros ->. done.
Qed.

Lemma retrieve_for_case_top_witness :
  Retrieval.chunk_at
    (SampleRetrieval.collection "AFF" 1%Z (Some "AFF")) 0
  = Retrieval.Return
      {| RAGSystem.case_code := "AFF"; RAGSystem.case_name := "Affective";
         RAGSystem.semantic_role := "EXPERIENCER";
         RAGSystem.description := "The Affective case";
         RAGSystem.citation := "Grammar 4.1"; RAGSystem.score := 0.75%float |}.
Proof.
  apply (proj2 (retrieve_for_case_top SampleRetrieval.collection "AFF")).
  vm_compute. reflexivity.
Defined.

(** * The co-pilot pipeline *)

Lemma append_cons (c : ascii) (s t : string) :
  String c s ++ t = String c (s ++ t).
Proof. reflexivity. Qed.

Lemma append_nil_l (s : string) : "" ++ s = s.
Proof. reflexivity. Qed.

Lemma append_assoc (s t u : string) : (s ++ t) ++ u = s ++ t ++ u.
Proof.
  induction s as [|c s IH]; [done|]. rewrite !append_cons. by rewrite IH.
Qed.

Lemma through_close_brace_Some (s m : string) :
  CopilotPipeline.through_close_brace s = Some m →
  ∃ body post, s = body ++ String "}"%char post ∧ m = body ++ "}"
               ∧ ¬ In "}"%char (list_ascii_of_string body).
Proof.
  revert m. induction s as [|c s IH]; intros m H; [done|].
  cbn [CopilotPipeline.through_close_brace] in H.
  destruct (Ascii.eqb_spec c "}"%char) as [-> | Hc].
  - injection H as <-. exists "", s. repeat split. by intros [].
  - destruct (CopilotPipeline.through_close_brace s) as [m'|]; [|done].
    injection H as <-.
    destruct (IH m' eq_refl) as (body & post & -> & -> & Hno).
    exists (String c body), post. repeat split.
    cbn [list_ascii_of_string In]. intros [? | ?]; by subst.
Qed.

Lemma through_close_brace_app (body post : string) :
  ¬ In "}"%char (list_ascii_of_string body) →
  CopilotPipeline.through_close_brace (body ++ String "}"%char post)
  = Some (body ++ "}").
Proof.
  induction body as [|c body IH]; intros Hno.
  - rewrite !append_nil_l. cbn [CopilotPipeline.through_close_brace].
    by destruct (Ascii.eqb_spec "}"%char "}"%char).
  - rewrite !append_cons. cbn [CopilotPipeline.through_close_brace].
    destruct (Ascii.eqb_spec c "}"%char) as [-> | Hc].
    + destruct Hno. by left.
    + rewrite IH; [done|]. intros ?. apply Hno. by right.
Qed.

Lemma search_braces_sound (response m : string) :
  CopilotPipeline.search_braces response = Some m →
  ∃ pre body post,
    response = pre ++ m ++ post ∧ m = "{" ++ body ++ "}" ∧ body ≠ ""
    ∧ ¬ In "}"%char (list_ascii_of_string body).
Proof.
  induction response as [|c rest IH]; intros H; [done|].
  cbn [CopilotPipeline.search_braces] in H.
  assert (CopilotPipeline.search_braces rest = Some m →
          ∃ pre body post,
            String c rest = pre ++ m ++ post ∧ m = "{" ++ body ++ "}"
            ∧ body ≠ "" ∧ ¬ In "}"%char (list_ascii_of_string body)) as Hrest.
  { intros Hr. destruct (IH Hr) as (pre & body & post & -> & -> & Hb & Hno).
    exists (String c pre), body, post. by repeat split. }
  destruct (Ascii.eqb_spec c "{"%char) as [-> | Hc]; [|by apply Hrest].
  destruct rest as [|c' rest']; [done|].
  destruct (Ascii.eqb_spec c' "}"%char) as [-> | Hc']; [by apply Hrest|].
  destruct (CopilotPipeline.through_close_brace (String c' rest'))
    as [m'|] eqn:Hm; cbn [fmap option_fmap option_map] in H;
    [|by apply Hrest].
  injection H as <-.
  destruct (through_close_brace_Some _ _ Hm) as (body & post & Hs & -> & Hno).
  exists "", body, post. rewrite Hs, append_nil_l.
  split; [|split; [done|split; [|done]]].
  - symmetry. rewrite append_cons. f_equal. apply append_assoc.
  - intros ->. rewrite append_nil_l in Hs. injection Hs as -> _. done.
Qed.

Lemma search_braces_complete (pre body post : string) :
  body ≠ "" → ¬ In "}"%char (list_ascii_of_string body) →
  is_Some (CopilotPipeline.search_braces (pre ++ "{" ++ body ++ "}" ++ post)).
Proof.
  intros Hb Hno. induction pre as [|c pre IH].
  - rewrite append_nil_l.
    change ("{" ++ body ++ "}" ++ post)
      with (String "{" (body ++ String "}" post)).
    cbn [CopilotPipeline.search_braces].
    destruct (Ascii.eqb_spec "{"%char "{"%char) as [_|]; [|done].
    destruct body as [|c' body]; [done|].
    rewrite append_cons.
    destruct (Ascii.eqb_spec c' "}"%char) as [-> | Hc'].
    { destruct Hno. by left. }
    rewrite <- append_cons.
    rewrite through_close_brace_app by done.
    cbn [fmap option_fmap option_map]. eauto.
  - rewrite append_cons. cbn [CopilotPipeline.search_braces].
    destruct (if Ascii.eqb c "{" then _ else _); eauto.
Qed.

(** X17. The search for a brace group in the model's answer finds a group
    exactly when the answer contains an opening brace, then at least one
    character, none of them a closing brace, then a closing brace; the group
    found is such a piece of the answer, so it holds a single closing brace,
    its last character. *)
Theorem search_braces_spec (response : string) :
  (∀ m, CopilotPipeline.search_braces response = Some m →
        ∃ pre body post,
          response = pre ++ m ++ post ∧ m = "{" ++ body ++ "}" ∧ body ≠ ""
          ∧ ¬ In "}"%char (list_ascii_of_string body))
  ∧ (CopilotPipeline.search_braces response = None ↔
     ¬ ∃ pre body post,
         response = pre ++ "{" ++ body ++ "}" ++ post ∧ body ≠ ""
         ∧ ¬ In "}"%char (list_ascii_of_string body)).
Proof.
  split; [apply search_braces_sound|]. split.
  - intros Hnone (pre & body & post & -> & Hb & Hno).
    destruct (search_braces_complete pre body post Hb Hno) as [m Hm].
    congruence.
  - intros Hnot.
    destruct (CopilotPipeline.search_braces response) as [m|] eqn:Hm; [|done].
    destruct Hnot.
    destruct (search_braces_sound _ _ Hm) as (pre & body & post & -> & -> & Hb & Hno).
    exists pre, body, post. split; [|done].
    by rewrite !append_assoc.
Qed.

Lemma search_braces_spec_witness :
  ∃ pre body post,
    "Sure: {{a}} done" = pre ++ "{{a}" ++ post ∧ "{{a}" = "{" ++ body ++ "}"
    ∧ body ≠ "" ∧ ¬ In "}"%char (list_ascii_of_string body).
Proof.
  apply (proj1 (search_braces_spec "Sure: {{a}} done") "{{a}").
  reflexivity.
Defined.

(** A rejected verdict names its first error, and that error has a
    message. *)
Lemma rejected_has_message (self : ValidationEngine.t) (stats : Stats)
    (j : gmap string pyval) :
  passed (validate self stats j).1 = false →
  ∃ e es, errors (validate self stats j).1 = e :: es ∧ is_Some (message e).
Proof.
  intros Hrej. rewrite validate_errors.
  destruct (_validate_coherence self j) as [|e es] eqn:H.
  - rewrite (validate_accepts _ _ _ H) in Hrej. cbv zeta in Hrej.
    by destruct (PrimFloat.ltb _ _).
  - exists e, es. split; [done|].
    apply (coherence_errors_complete self j). rewrite H. by left.
Qed.

(** ** The engine over a collection *)

(** The semantic stage of the engine over a collection either raises, its
    retriever raising on the case code, or is the semantic stage of the
    engine with the answers of the retriever. *)
Lemma semantic_outcome (self : EngineOverCollection.t) (j : gmap string pyval) :
  match EngineOverCollection._validate_semantic self j with
  | Retrieval.Return sem =>
      sem = _validate_semantic (EngineOverCollection.engine self) j
  | Retrieval.IndexError =>
      ∃ collection code,
        EngineOverCollection.rag self = Some collection
        ∧ dict_get j "case" = VStr code ∧ code ≠ ""
        ∧ Retrieval.retrieve_for_case collection code = Retrieval.IndexError
  end.
Proof.
  unfold EngineOverCollection._validate_semantic, _validate_semantic,
    EngineOverCollection.engine.
  cbv zeta. cbn [ValidationEngine.rag].
  destruct (EngineOverCollection.rag self) as [collection|];
    cbn [fmap option_fmap option_map]; [|done].
  destruct (dict_get j "case") as [| | | |code| |] eqn:Hc; try done.
  cbn [truthy]. destruct (String.eqb_spec code "") as [-> | Hne];
    cbn [negb]; [done|].
  cbn [EngineOverCollection.answers RAGSystem.retrieve_for_case].
  destruct (Retrieval.retrieve_for_case collection code) as [[ch|]|] eqn:Hr;
    [done|done|].
  by exists collection, code.
Qed.

Lemma semantic_raises (self : EngineOverCollection.t) (j : gmap string pyval) :
  EngineOverCollection._validate_semantic self j = Retrieval.IndexError
  ↔ ∃ collection code,
      EngineOverCollection.rag self = Some collection
      ∧ dict_get j "case" = VStr code ∧ code ≠ ""
      ∧ Retrieval.retrieve_for_case collection code = Retrieval.IndexError.
Proof.
  split.
  - intros H. pose proof (semantic_outcome self j) as Hs. by rewrite H in Hs.
  - intros (collection & code & Hrag & Hcase & Hne & Hr).
    unfold EngineOverCollection._validate_semantic. cbv zeta.
    rewrite Hrag, Hcase. cbn [truthy].
    destruct (String.eqb_spec code "") as [-> | _]; [done|].
    cbn [negb]. by rewrite Hr.
Qed.

(** A call of [validate] on the engine over a collection either raises, at
    the semantic stage, or is the call on the engine with the answers of
    the retriever. *)
Lemma validate_outcome (self : EngineOverCollection.t) (stats : Stats)
    (j : gmap string pyval) :
  match EngineOverCollection.validate self stats j with
  | Retrieval.Return x => x = validate (EngineOverCollection.engine self) stats j
  | Retrieval.IndexError =>
      _validate_coherence (EngineOverCollection.engine self) j = []
      ∧ EngineOverCollection._validate_semantic self j = Retrieval.IndexError
  end.
Proof.
  unfold EngineOverCollection.validate, validate. cbv zeta.
  cbn [_validate_structure nonempty].
  destruct (_validate_coherence (EngineOverCollection.engine self) j)
    as [|e es]; cbn [nonempty]; [|done].
  pose proof (semantic_outcome self j) as Hs.
  destruct (EngineOverCollection._validate_semantic self j) as [sem|]; [|done].
  subst sem. destruct (nonempty _); [done|]. by destruct (PrimFloat.ltb _ _).
Qed.

Lemma validate_Return (self : EngineOverCollection.t) (s0 s1 : Stats)
    (j : gmap string pyval) (r : ValidationResult) :
  EngineOverCollection.validate self s0 j = Retrieval.Return (r, s1) →
  validate (EngineOverCollection.engine self) s0 j = (r, s1).
Proof.
  intros H. pose proof (validate_outcome self s0 j) as Ho.
  by rewrite H in Ho.
Qed.

Lemma validate_raises (self : EngineOverCollection.t) (stats : Stats)
    (j : gmap string pyval) :
  EngineOverCollection.validate self stats j = Retrieval.IndexError
  ↔ _validate_coherence (EngineOverCollection.engine self) j = []
    ∧ EngineOverCollection._validate_semantic self j = Retrieval.IndexError.
Proof.
  split.
  - intros H. pose proof (validate_outcome self stats j) as Ho.
    by rewrite H in Ho.
  - intros [Hcoh Hsem]. unfold EngineOverCollection.validate. cbv zeta.
    cbn [_validate_structure nonempty]. by rewrite Hcoh, Hsem.
Qed.

(** Whether the call raises, and its verdict, do not depend on the
    counters. *)
Lemma validate_Return_stats (self : EngineOverCollection.t) (s0 s1 stats0 : Stats)
    (j : gmap string pyval) (r : ValidationResult) :
  EngineOverCollection.validate self s0 j = Retrieval.Return (r, s1) →
  ∃ stats',
    EngineOverCollection.validate self stats0 j = Retrieval.Return (r, stats').
Proof.
  intros H.
  destruct (EngineOverCollection.validate self stats0 j) as [[r' s']|] eqn:H0.
  - exists s'. apply validate_Return in H, H0.
    pose proof (validate_stats_irrelevant (EngineOverCollection.engine self)
                  s0 stats0 j) as Hi.
    rewrite H, H0 in Hi. cbn [fst] in Hi. by subst.
  - apply validate_raises in H0. apply (validate_raises self s0) in H0.
    congruence.
Qed.

Lemma validate_raises_validator (self : EngineOverCollection.t) (stats : Stats)
    (j : gmap string pyval) :
  EngineOverCollection.validate self stats j = Retrieval.IndexError →
  validator_raises self.
Proof.
  intros [Hcoh (collection & code & ? & ? & ? & ?)%semantic_raises]%validate_raises.
  by exists collection, j, code.
Qed.

(** Case analysis of a pipeline call: every [match], [if] and pair binding
    on the way to its result. *)
Ltac unravel H :=
  repeat match type of H with
    | context [match ?x with _ => _ end] => destruct x eqn:?
    | context [if ?b then _ else _] => destruct b eqn:?
    end;
  try discriminate H.

(** The calls of the validator that returned, as calls of the engine with
    the answers of the retriever. *)
Ltac returned :=
  repeat match goal with
    | Hv : EngineOverCollection.validate _ _ _ = Retrieval.Return (_, _) |- _ =>
        apply validate_Return in Hv
    end.

Lemma without_rag_veto (self : CopilotPipeline.t) (st st' : CopilotPipeline.State)
    (user_input : string) (s : gmap string pyval) (valid : bool)
    (msg : option string) (stats0 : Stats) :
  CopilotPipeline.suggest_without_rag self st user_input
  = Retrieval.Return ((s, valid, msg), st') →
  (∃ r stats',
     EngineOverCollection.validate (CopilotPipeline.validator self) stats0 s
     = Retrieval.Return (r, stats')
     ∧ valid = passed r)
  ∨ (valid = false ∧ msg = Some "Failed to parse LLM response"
     ∧ CopilotPipeline.stats st' = CopilotPipeline.stats st).
Proof.
  unfold CopilotPipeline.suggest_without_rag. intros H. unravel H.
  all: injection H as <- <- <- <-.
  all: try (left;
            match goal with
            | Hv : EngineOverCollection.validate _ _ _ = Retrieval.Return (?r, _)
              |- _ =>
                destruct (validate_Return_stats _ _ _ stats0 _ _ Hv) as [stats' ?];
                by exists r, stats'
            end).
  right. done.
Qed.

Lemma with_rag_veto (self : CopilotPipeline.t) (st st' : CopilotPipeline.State)
    (user_input : string) (max_retries : Z) (s : gmap string pyval)
    (valid : bool) (msg : option string) (attempts : Z) (stats0 : Stats) :
  CopilotPipeline.suggest_with_rag self st user_input max_retries
  = Retrieval.Return ((s, valid, msg, attempts), st') →
  (∃ r stats',
     EngineOverCollection.validate (CopilotPipeline.validator self) stats0 s
     = Retrieval.Return (r, stats')
     ∧ valid = passed r)
  ∨ (valid = false ∧ msg = Some "Failed to parse LLM response"
     ∧ CopilotPipeline.stats st' = CopilotPipeline.stats st).
Proof.
  unfold CopilotPipeline.suggest_with_rag. intros H. unravel H.
  all: injection H as <- <- <- <- <-.
  all: try (left;
            match goal with
            | Hv : EngineOverCollection.validate _ _ ?sug
                   = Retrieval.Return (?r, _)
              |- context [EngineOverCollection.validate _ _ ?sug] =>
                destruct (validate_Return_stats _ _ _ stats0 _ _ Hv) as [stats' ?];
                by exists r, stats'
            end).
  right. done.
Qed.

(** X18. The validator decides: when either suggestion method reports a
    suggestion as valid, the validator, asked about that very suggestion
    (whatever its counters show), returns a verdict and accepts it, also
    after a retry. *)
Theorem validator_veto (self : CopilotPipeline.t) (st : CopilotPipeline.State)
    (user_input : string) (stats0 : Stats) :
  (∀ s msg st',
     CopilotPipeline.suggest_without_rag self st user_input
     = Retrieval.Return ((s, true, msg), st') →
     ∃ r stats',
       EngineOverCollection.validate (CopilotPipeline.validator self) stats0 s
       = Retrieval.Return (r, stats')
       ∧ passed r = true)
  ∧ (∀ max_retries s msg attempts st',
       CopilotPipeline.suggest_with_rag self st user_input max_retries
       = Retrieval.Return ((s, true, msg, attempts), st') →
       ∃ r stats',
         EngineOverCollection.validate (CopilotPipeline.validator self) stats0 s
         = Retrieval.Return (r, stats')
         ∧ passed r = true).
Proof.
  split.
  - intros s msg st' H.
    destruct (without_rag_veto _ _ _ _ _ _ _ stats0 H)
      as [(r & stats' & Hv & Hp) | [? _]]; [|done].
    by exists r, stats'.
  - intros max_retries s msg attempts st' H.
    destruct (with_rag_veto _ _ _ _ _ _ _ _ _ stats0 H)
      as [(r & stats' & Hv & Hp) | [? _]]; [|done].
    by exists r, stats'.
Qed.

Lemma validator_veto_witness :
  ∃ r stats',
    EngineOverCollection.validate
      (SamplePipeline.validator SampleRetrieval.collection) initial_stats
      (candidate (VStr "AFF") (VStr "STA"))
    = Retrieval.Return (r, stats')
    ∧ passed r = true.
Proof.
  apply (proj2 (validator_veto SamplePipeline.pipeline SamplePipeline.start
                  "feeling cold" initial_stats)
           1%Z (candidate (VStr "AFF") (VStr "STA"))
           (Some "Valid after retry (confidence: 0.95)") 2%Z
           (match CopilotPipeline.suggest_with_rag SamplePipeline.pipeline
                    SamplePipeline.start "feeling cold" 1 with
            | Retrieval.Return (_, st') => st'
            | Retrieval.IndexError => SamplePipeline.start
            end)).
  vm_compute. reflexivity.
Defined.

Lemma chat_length (self self' : LLMClient.t) (user_message text : string)
    (max_tokens : Z) (temperature : float) :
  LLMClient.chat self user_message None max_tokens temperature = (text, self') →
  (LLMClient.get_conversation_length self + 1
   ≤ LLMClient.get_conversation_length self'
   ≤ LLMClient.get_conversation_length self + 2)%nat.
Proof.
  intros H.
  pose proof (chat_history self user_message None max_tokens temperature) as Hh.
  cbv zeta in Hh. rewrite H in Hh. cbn [fst snd LLMClient.given] in Hh.
  rewrite andb_false_r in Hh. unfold LLMClient.get_conversation_length.
  destruct Hh as (_ & _ & [-> | [-> _]]); rewrite !length_app; cbn; lia.
Qed.

Ltac account :=
  returned;
  repeat match goal with
    | Hv : validate ?v ?s0 ?sug = (?r, ?s1) |- _ =>
        let Hc := fresh "Hc" in
        pose proof (validate_counters v s0 sug) as Hc;
        rewrite Hv in Hc; cbn [fst snd] in Hc;
        destruct Hc as (Hc & _); clear Hv
    | Hl : LLMClient.chat _ _ None _ _ = (_, _) |- _ =>
        apply chat_length in Hl
    end.

(** X19. Accounting of [suggest_with_rag]: it reports one or two attempts,
    and two exactly when the validator was consulted twice; it consults the
    validator at most twice, and at most once when no retry is allowed; the
    conversation it leaves holds between one and four messages, at most two
    when no retry is allowed. *)
Theorem suggest_with_rag_accounting (self : CopilotPipeline.t)
    (st st' : CopilotPipeline.State) (user_input : string) (max_retries : Z)
    (s : gmap string pyval) (valid : bool) (msg : option string) (attempts : Z) :
  CopilotPipeline.suggest_with_rag self st user_input max_retries
  = Retrieval.Return ((s, valid, msg, attempts), st') →
  let consulted :=
    (total_validations (CopilotPipeline.stats st')
     - total_validations (CopilotPipeline.stats st))%Z in
  let messages := LLMClient.get_conversation_length (CopilotPipeline.llm st') in
  (attempts = 1 ∨ attempts = 2)%Z
  ∧ (attempts = 2 ↔ consulted = 2)%Z
  ∧ (0 ≤ consulted ≤ 2)%Z
  ∧ (1 ≤ messages ≤ 4)%nat
  ∧ ((max_retries ≤ 0)%Z → (consulted ≤ 1)%Z ∧ (messages ≤ 2)%nat).
Proof.
  unfold CopilotPipeline.suggest_with_rag. intros H. unravel H.
  all: injection H as <- <- <- <- <-.
  all: cbn [CopilotPipeline.stats CopilotPipeline.llm].
  all: account.
  all: unfold LLMClient.get_conversation_length, LLMClient.reset_conversation,
         LLMClient.set_history in *;
       cbn [LLMClient.conversation_history length] in *.
  all: repeat match goal with
         | Hb : (_ <? _)%Z = true |- _ => apply Z.ltb_lt in Hb
         | Hb : (_ <? _)%Z = false |- _ => apply Z.ltb_ge in Hb
         end.
  all: repeat split; try lia.
Qed.

Lemma suggest_with_rag_accounting_witness :
  (2 = 1 ∨ 2 = 2)%Z.
Proof.
  apply (suggest_with_rag_accounting SamplePipeline.pipeline SamplePipeline.start
           (match CopilotPipeline.suggest_with_rag SamplePipeline.pipeline
                    SamplePipeline.start "feeling cold" 1 with
            | Retrieval.Return (_, st') => st'
            | Retrieval.IndexError => SamplePipeline.start
            end)
           "feeling cold" 1%Z (candidate (VStr "AFF") (VStr "STA")) true
           (Some "Valid after retry (confidence: 0.95)") 2%Z).
  vm_compute. reflexivity.
Defined.

Lemma first_message_rejected (self : EngineOverCollection.t) (s0 stats0 s1 : Stats)
    (sug : gmap string pyval) (r : ValidationResult) (fallback : string) :
  EngineOverCollection.validate self s0 sug = Retrieval.Return (r, s1) →
  passed r = false →
  ∃ stats' e es,
    EngineOverCollection.validate self stats0 sug = Retrieval.Return (r, stats')
    ∧ errors r = e :: es
    ∧ CopilotPipeline.first_message r fallback = message e
    ∧ is_Some (message e).
Proof.
  intros Hv Hp.
  destruct (validate_Return_stats _ _ _ stats0 _ _ Hv) as [stats' H0].
  apply validate_Return in Hv.
  pose proof (rejected_has_message (EngineOverCollection.engine self) s0 sug)
    as Hm.
  rewrite Hv in Hm. cbn [fst] in Hm.
  destruct (Hm Hp) as (e & es & He & Hs). exists stats', e, es.
  unfold CopilotPipeline.first_message. by rewrite He.
Qed.

(** X20. A rejection is always explained.  When either suggestion method
    reports a suggestion as not valid, either the answer of the model could
    not be parsed (the message says so, the raw answer is returned and the
    validator was not consulted), or the message is the message of the first
    error that the validator reports for the returned suggestion; the
    fallback texts for a rejection without error are never used. *)
Theorem rejection_explained (self : CopilotPipeline.t)
    (st : CopilotPipeline.State) (user_input : string) (stats0 : Stats) :
  (∀ s msg st',
     CopilotPipeline.suggest_without_rag self st user_input
     = Retrieval.Return ((s, false, msg), st') →
     (msg = Some "Failed to parse LLM response"
      ∧ (∃ response, s = CopilotPipeline.raw response)
      ∧ CopilotPipeline.stats st' = CopilotPipeline.stats st)
     ∨ ∃ r stats' e es,
         EngineOverCollection.validate (CopilotPipeline.validator self) stats0 s
         = Retrieval.Return (r, stats')
         ∧ errors r = e :: es ∧ msg = message e ∧ is_Some msg)
  ∧ (∀ max_retries s msg attempts st',
       CopilotPipeline.suggest_with_rag self st user_input max_retries
       = Retrieval.Return ((s, false, msg, attempts), st') →
       (msg = Some "Failed to parse LLM response"
        ∧ (∃ response, s = CopilotPipeline.raw response)
        ∧ CopilotPipeline.stats st' = CopilotPipeline.stats st)
       ∨ ∃ r stats' e es,
           EngineOverCollection.validate (CopilotPipeline.validator self) stats0 s
           = Retrieval.Return (r, stats')
           ∧ errors r = e :: es ∧ msg = message e ∧ is_Some msg).
Proof.
  split.
  - intros s msg st'. unfold CopilotPipeline.suggest_without_rag.
    intros H. unravel H.
    all: injection H as <- <- <-.
    + right.
      match goal with
      | Hv : EngineOverCollection.validate _ ?s0 ?sug = Retrieval.Return (?r, ?s1),
        Hp : passed ?r = false |- _ =>
          destruct (first_message_rejected _ s0 stats0 s1 sug r "Unknown error"
                      Hv Hp) as (stats' & e & es & H0 & He & Hm & Hs);
          exists r, stats', e, es
      end.
      by rewrite Hm.
    + left. eauto.
  - intros max_retries s msg attempts st'.
    unfold CopilotPipeline.suggest_with_rag. intros H. unravel H.
    all: injection H as <- <- <- <-.
    all: try (left; by eauto).
    all: right.
    all: match goal with
         | Hv : EngineOverCollection.validate _ ?s0 ?sug
                = Retrieval.Return (?r, ?s1),
           Hp : passed ?r = false
           |- context [CopilotPipeline.first_message ?r ?fb] =>
             destruct (first_message_rejected _ s0 stats0 s1 sug r fb Hv Hp)
               as (stats' & e & es & H0 & He & Hm & Hs);
             exists r, stats', e, es
         end.
    all: by rewrite Hm.
Qed.

Lemma rejection_explained_witness :
  (Some "AFF (Affective) cannot co-occur with DYN function. Semantic role: EXPERIENCER. Allowed: STA. Forbidden: DYN, MNF."
   = Some "Failed to parse LLM response"
   ∧ (∃ response,
        candidate (VStr "AFF") (VStr "DYN") = CopilotPipeline.raw response)
   ∧ CopilotPipeline.stats
       (match CopilotPipeline.suggest_without_rag SamplePipeline.pipeline
                SamplePipeline.start "feeling cold" with
        | Retrieval.Return (_, st') => st'
        | Retrieval.IndexError => SamplePipeline.start
        end)
     = CopilotPipeline.stats SamplePipeline.start)
  ∨ ∃ r stats' e es,
      EngineOverCollection.validate
        (SamplePipeline.validator SampleRetrieval.collection) initial_stats
        (candidate (VStr "AFF") (VStr "DYN"))
      = Retrieval.Return (r, stats')
      ∧ errors r = e :: es
      ∧ Some "AFF (Affective) cannot co-occur with DYN function. Semantic role: EXPERIENCER. Allowed: STA. Forbidden: DYN, MNF."
        = message e
      ∧ is_Some (Some "AFF (Affective) cannot co-occur with DYN function. Semantic role: EXPERIENCER. Allowed: STA. Forbidden: DYN, MNF.").
Proof.
  apply (proj1 (rejection_explained SamplePipeline.pipeline SamplePipeline.start
                  "feeling cold" initial_stats)).
  vm_compute. reflexivity.
Defined.

(** X21. The suggestion methods raise [IndexError] only through a
    retriever.  [suggest_with_rag] raises when the retrieval for the user's
    text does; when it raises without that, and whenever
    [suggest_without_rag] raises, the retriever of the validator raised on
    the case code of a suggestion that had passed the coherence checks.  The
    validator itself raises exactly then: a suggestion with a coherence
    error never reaches its retriever.  So with a validator whose retriever
    answers on every code, [suggest_without_rag] returns, and
    [suggest_with_rag] raises exactly when the retrieval for the user's text
    does. *)
Theorem raises_only_through_retrievers (self : CopilotPipeline.t)
    (st : CopilotPipeline.State) (user_input : string) (max_retries : Z) :
  let v := CopilotPipeline.validator self in
  let with_rag :=
    CopilotPipeline.suggest_with_rag self st user_input max_retries in
  let without_rag := CopilotPipeline.suggest_without_rag self st user_input in
  let retrieved :=
    Retrieval.retrieve (CopilotPipeline.rag self) user_input 3 None in
  (retrieved = Retrieval.IndexError → with_rag = Retrieval.IndexError)
  ∧ (with_rag = Retrieval.IndexError →
     retrieved = Retrieval.IndexError ∨ validator_raises v)
  ∧ (without_rag = Retrieval.IndexError → validator_raises v)
  ∧ (∀ stats j,
       EngineOverCollection.validate v stats j = Retrieval.IndexError
       ↔ _validate_coherence (EngineOverCollection.engine v) j = []
         ∧ ∃ collection code,
             EngineOverCollection.rag v = Some collection
             ∧ dict_get j "case" = VStr code ∧ code ≠ ""
             ∧ Retrieval.retrieve_for_case collection code
               = Retrieval.IndexError)
  ∧ ((∀ collection code,
        EngineOverCollection.rag v = Some collection →
        Retrieval.retrieve_for_case collection code ≠ Retrieval.IndexError) →
     without_rag ≠ Retrieval.IndexError
     ∧ (with_rag = Retrieval.IndexError ↔ retrieved = Retrieval.IndexError)).
Proof.
  cbv zeta.
  assert (Retrieval.retrieve (CopilotPipeline.rag self) user_input 3 None
          = Retrieval.IndexError →
          CopilotPipeline.suggest_with_rag self st user_input max_retries
          = Retrieval.IndexError) as Hfirst.
  { intros Hr. unfold CopilotPipeline.suggest_with_rag,
      CopilotPipeline._retrieve_context. by rewrite Hr. }
  assert (CopilotPipeline.suggest_with_rag self st user_input max_retries
          = Retrieval.IndexError →
          Retrieval.retrieve (CopilotPipeline.rag self) user_input 3 None
          = Retrieval.IndexError
          ∨ validator_raises (CopilotPipeline.validator self)) as Hwith.
  { unfold CopilotPipeline.suggest_with_rag, CopilotPipeline._retrieve_context.
    destruct (Retrieval.retrieve _ _ _ _) as [chunks|]; [|by left].
    intros H. right. destruct (negb (nonempty chunks)); unravel H.
    all: eapply validate_raises_validator; eassumption. }
  assert (CopilotPipeline.suggest_without_rag self st user_input
          = Retrieval.IndexError →
          validator_raises (CopilotPipeline.validator self)) as Hwithout.
  { unfold CopilotPipeline.suggest_without_rag. intros H. unravel H.
    all: eapply validate_raises_validator; eassumption. }
  split; [done|]. split; [done|]. split; [done|]. split.
  - intros stats j. rewrite validate_raises. by rewrite semantic_raises.
  - intros Hanswers.
    assert (¬ validator_raises (CopilotPipeline.validator self)) as Hno.
    { intros (collection & j & code & Hrag & _ & _ & _ & Hr).
      by apply (Hanswers collection code). }
    split; [by intros ?%Hwithout|]. split; [|done].
    by intros [? | ?]%Hwith.
Qed.

Lemma raises_only_through_retrievers_witness :
  Retrieval.retrieve SampleRetrieval.collection "feeling cold" 3 None
  = Retrieval.IndexError
  ∨ validator_raises
      (SamplePipeline.validator SampleRetrieval.filter_broken_collection).
Proof.
  apply (proj1 (proj2 (raises_only_through_retrievers
                         SamplePipeline.fragile_pipeline SamplePipeline.start
                         "feeling cold" 1))).
  vm_compute. reflexivity.
Defined.

(** * Filling the collection *)

Lemma substring_length (n : nat) (s : string) :
  (String.length (String.substring 0 n s) ≤ n)%nat.
Proof.
  revert s. induction n as [|n IH]; intros [|c s]; cbn; try lia.
  specialize (IH s). lia.
Qed.

Lemma prepare_Stored (chunks : list EmbedStore.GrammarChunk)
    (docs0 : list string) (metas0 : list Retrieval.Metadata) (ids0 : list string)
    (docs : list string) (metas : list Retrieval.Metadata) (ids : list string) :
  EmbedStore.prepare chunks docs0 metas0 ids0 = EmbedStore.Stored docs metas ids →
  Forall chunk_storable chunks
  ∧ ∃ docs1 metas1 ids1,
      docs = (docs0 ++ docs1)%list ∧ metas = (metas0 ++ metas1)%list
      ∧ ids = (ids0 ++ ids1)%list
      ∧ length docs1 = length chunks ∧ length metas1 = length chunks
      ∧ length ids1 = length chunks
      ∧ Forall (fun d => d ≠ "") docs1
      ∧ Forall (fun m => (String.length (Retrieval.md_description m) ≤ 200)%nat)
          metas1
      ∧ Forall2 (fun chunk m => EmbedStore.gc_code chunk = Some (Retrieval.md_code m))
          chunks metas1
      ∧ Forall2 (fun chunk i => EmbedStore.gc_id chunk = Some i) chunks ids1.
Proof.
  revert docs0 metas0 ids0.
  induction chunks as [|chunk rest IH]; intros docs0 metas0 ids0 H.
  - injection H as <- <- <-. split; [done|].
    exists [], [], []. rewrite !app_nil_r. by repeat split.
  - cbn [EmbedStore.prepare] in H. unfold EmbedStore.subscript in H.
    destruct (EmbedStore.gc_code chunk) as [code|] eqn:Hcode;
      [|by destruct (String.eqb _ ""), (EmbedStore.gc_name chunk)].
    destruct (EmbedStore.gc_name chunk) as [name|] eqn:Hname;
      [|by destruct (String.eqb _ "")].
    destruct (EmbedStore.gc_id chunk) as [id|] eqn:Hid;
      [|by destruct (String.eqb _ "")].
    set (doc := if String.eqb (default "" (EmbedStore.gc_embedding_text chunk)) ""
                then name ++ " " ++ code ++ " "
                     ++ default "" (EmbedStore.gc_semantic_role chunk) ++ " "
                     ++ default "" (EmbedStore.gc_description chunk)
                else default "" (EmbedStore.gc_embedding_text chunk)).
    assert (doc ≠ "") as Hdoc.
    { subst doc.
      destruct (String.eqb_spec (default "" (EmbedStore.gc_embedding_text chunk)) "")
        as [_ | Hne]; [|done].
      destruct name as [|c name]; [|done]. by destruct code. }
    assert (EmbedStore.prepare rest (list_append docs0 doc)
              (list_append metas0
                 {| Retrieval.md_code := code; Retrieval.md_name := name;
                    Retrieval.md_semantic_role :=
                      default "" (EmbedStore.gc_semantic_role chunk);
                    Retrieval.md_description :=
                      String.substring 0 200
                        (default "" (EmbedStore.gc_description chunk));
                    Retrieval.md_citation :=
                      default "" (EmbedStore.gc_citation chunk) |})
              (list_append ids0 id)
            = EmbedStore.Stored docs metas ids) as H'.
    { subst doc. by destruct (String.eqb _ ""). }
    clear H. apply IH in H' as (Hall & docs1 & metas1 & ids1 & -> & -> & ->
                                 & Hl1 & Hl2 & Hl3 & Hd & Hm & Hc & Hi).
    split.
    { constructor; [|done]. unfold chunk_storable.
      rewrite Hcode, Hname, Hid. eauto. }
    unfold list_append. rewrite <- !app_assoc.
    eexists (doc :: docs1), (_ :: metas1), (id :: ids1).
    do 3 (split; [reflexivity|]). cbn [length].
    do 3 (split; [by f_equal|]).
    split; [by constructor|].
    split; [constructor; [apply substring_length|done]|].
    split; by constructor.
Qed.

Lemma prepare_KeyError (chunks : list EmbedStore.GrammarChunk)
    (docs0 : list string) (metas0 : list Retrieval.Metadata) (ids0 : list string)
    (key : string) :
  EmbedStore.prepare chunks docs0 metas0 ids0 = EmbedStore.KeyError key →
  ∃ chunk, chunk ∈ chunks
           ∧ ((key = "code" ∧ EmbedStore.gc_code chunk = None)
              ∨ (key = "name" ∧ EmbedStore.gc_name chunk = None)
              ∨ (key = "id" ∧ EmbedStore.gc_id chunk = None)).
Proof.
  revert docs0 metas0 ids0.
  induction chunks as [|chunk rest IH]; intros docs0 metas0 ids0 H; [done|].
  cbn [EmbedStore.prepare] in H. unfold EmbedStore.subscript in H.
  destruct (EmbedStore.gc_code chunk) as [code|] eqn:Hcode.
  2:{ exists chunk. split; [by left|].
      destruct (String.eqb _ ""), (EmbedStore.gc_name chunk);
        injection H as <-; tauto. }
  destruct (EmbedStore.gc_name chunk) as [name|] eqn:Hname.
  2:{ exists chunk. split; [by left|].
      destruct (String.eqb _ ""); injection H as <-; tauto. }
  destruct (EmbedStore.gc_id chunk) as [id|] eqn:Hid.
  2:{ exists chunk. split; [by left|].
      destruct (String.eqb _ ""); injection H as <-; tauto. }
  assert (∃ d m i, EmbedStore.prepare rest d m i = EmbedStore.KeyError key)
    as (d & m & i & H') by (destruct (String.eqb _ ""); eauto).
  apply IH in H' as (chunk' & Hin & Hk). exists chunk'. split; [by right|done].
Qed.

(** X22. What [_embed_and_store] hands to the collection is aligned: one
    document, one metadata record and one id per chunk, in order, the
    metadata carrying the chunk's code and the id being the chunk's id; no
    document is empty and no stored description exceeds 200 characters.  It
    stores something only if every chunk has a code, a name and an id, and
    the [KeyError] it raises otherwise names one of these keys, absent from
    some chunk. *)
Theorem embed_and_store_aligned (chunks : list EmbedStore.GrammarChunk) :
  match EmbedStore._embed_and_store chunks with
  | EmbedStore.Stored documents metadatas ids =>
      Forall chunk_storable chunks
      ∧ length documents = length chunks ∧ length metadatas = length chunks
      ∧ length ids = length chunks
      ∧ Forall (fun d => d ≠ "") documents
      ∧ Forall (fun m => (String.length (Retrieval.md_description m) ≤ 200)%nat)
          metadatas
      ∧ Forall2 (fun chunk m =>
                   EmbedStore.gc_code chunk = Some (Retrieval.md_code m))
          chunks metadatas
      ∧ Forall2 (fun chunk i => EmbedStore.gc_id chunk = Some i) chunks ids
  | EmbedStore.KeyError key =>
      ∃ chunk, chunk ∈ chunks
               ∧ ((key = "code" ∧ EmbedStore.gc_code chunk = None)
                  ∨ (key = "name" ∧ EmbedStore.gc_name chunk = None)
                  ∨ (key = "id" ∧ EmbedStore.gc_id chunk = None))
  end.
Proof.
  unfold EmbedStore._embed_and_store.
  destruct (EmbedStore.prepare chunks [] [] []) as [docs metas ids|key] eqn:H.
  - apply prepare_Stored in H
      as (Hall & docs1 & metas1 & ids1 & -> & -> & -> & H').
    by rewrite !app_nil_l.
  - by apply prepare_KeyError in H.
Qed.

(** * The experiment *)

Lemma record_consistent (arm : Experiment.Arm) (case : Experiment.TestCase)
    (suggestion : gmap string pyval) (is_valid : bool) (attempts : option Z) :
  consistent arm →
  consistent (Experiment.record arm case suggestion is_valid attempts)
  ∧ length (Experiment.details
              (Experiment.record arm case suggestion is_valid attempts))
    = S (length (Experiment.details arm))
  ∧ Experiment.valid (Experiment.record arm case suggestion is_valid attempts)
    = (Experiment.valid arm + Z.b2z is_valid)%Z.
Proof.
  intros (Hv & Hc & Hf & Hb). unfold consistent, Experiment.record, list_append.
  cbn [Experiment.valid Experiment.correct_case Experiment.correct_function
       Experiment.fully_correct Experiment.details].
  rewrite !List.filter_app, !length_app, Hv, Hc, Hf, Hb.
  cbn [List.filter Experiment.detail_valid Experiment.case_correct
       Experiment.func_correct].
  destruct is_valid, (Experiment.equals_text _ (Experiment.expected_case case)),
    (Experiment.equals_text _ (Experiment.expected_func case));
    cbn [andb length Z.b2z]; repeat split; lia.
Qed.

Ltac account_passed :=
  returned;
  repeat match goal with
    | Hv : validate ?v ?s0 ?sug = (?r, ?s1), Hp : passed ?r = _ |- _ =>
        let Hc := fresh "Hc" in
        pose proof (validate_counters v s0 sug) as Hc;
        rewrite Hv in Hc; cbn [fst snd] in Hc; rewrite Hp in Hc;
        destruct Hc as (_ & Hc & _); clear Hv
    end.

Lemma without_rag_passed (self : CopilotPipeline.t) (st st' : CopilotPipeline.State)
    (user_input : string) (s : gmap string pyval) (is_valid : bool)
    (msg : option string) :
  CopilotPipeline.suggest_without_rag self st user_input
  = Retrieval.Return ((s, is_valid, msg), st') →
  (stats_passed (CopilotPipeline.stats st) + Z.b2z is_valid
   ≤ stats_passed (CopilotPipeline.stats st'))%Z.
Proof.
  unfold CopilotPipeline.suggest_without_rag. intros H. unravel H.
  all: injection H as <- <- <- <-.
  all: cbn [CopilotPipeline.stats Z.b2z]; account_passed; lia.
Qed.

Lemma with_rag_passed (self : CopilotPipeline.t) (st st' : CopilotPipeline.State)
    (user_input : string) (max_retries : Z) (s : gmap string pyval)
    (is_valid : bool) (msg : option string) (attempts : Z) :
  CopilotPipeline.suggest_with_rag self st user_input max_retries
  = Retrieval.Return ((s, is_valid, msg, attempts), st') →
  (stats_passed (CopilotPipeline.stats st) + Z.b2z is_valid
   ≤ stats_passed (CopilotPipeline.stats st'))%Z.
Proof.
  unfold CopilotPipeline.suggest_with_rag. intros H. unravel H.
  all: injection H as <- <- <- <- <-.
  all: cbn [CopilotPipeline.stats Z.b2z]; account_passed; lia.
Qed.

Lemma run_cases_tallies (pipeline : CopilotPipeline.t)
    (cases : list Experiment.TestCase) (st st' : CopilotPipeline.State)
    (a b a' b' : Experiment.Arm) :
  Experiment.run_cases pipeline st cases a b = Retrieval.Return ((a', b'), st') →
  consistent a → consistent b →
  consistent a' ∧ consistent b'
  ∧ length (Experiment.details a')
    = (length (Experiment.details a) + length cases)%nat
  ∧ length (Experiment.details b')
    = (length (Experiment.details b) + length cases)%nat
  ∧ ((Experiment.valid a' - Experiment.valid a)
     + (Experiment.valid b' - Experiment.valid b)
     ≤ stats_passed (CopilotPipeline.stats st')
       - stats_passed (CopilotPipeline.stats st))%Z.
Proof.
  revert st a b. induction cases as [|case rest IH]; intros st a b H Ha Hb.
  - injection H as <- <- <-. do 2 (split; [done|]). cbn [length]. lia.
  - cbn [Experiment.run_cases] in H.
    destruct (CopilotPipeline.suggest_without_rag pipeline st _)
      as [[[[s1 v1] m1] st1]|] eqn:H1; [|done].
    destruct (CopilotPipeline.suggest_with_rag pipeline st1 _ 1)
      as [[[[[s2 v2] m2] n2] st2]|] eqn:H2; [|done].
    apply without_rag_passed in H1. apply with_rag_passed in H2.
    destruct (record_consistent a case s1 v1 None Ha) as (Ha1 & Hla & Hva).
    destruct (record_consistent b case s2 v2 (Some n2) Hb) as (Hb1 & Hlb & Hvb).
    destruct (IH _ _ _ H Ha1 Hb1) as (Ha' & Hb' & Hla' & Hlb' & Hp).
    do 2 (split; [done|]). cbn [length]. lia.
Qed.

Lemma consistent_bounds (arm : Experiment.Arm) :
  consistent arm →
  let n := Z.of_nat (length (Experiment.details arm)) in
  (0 ≤ Experiment.fully_correct arm ≤ Experiment.correct_case arm
   ∧ Experiment.correct_case arm ≤ n
   ∧ Experiment.fully_correct arm ≤ Experiment.correct_function arm
   ∧ Experiment.correct_function arm ≤ n
   ∧ 0 ≤ Experiment.valid arm ≤ n)%Z.
Proof.
  intros (-> & -> & -> & ->). cbv zeta.
  induction (Experiment.details arm) as [|d ds IH]; cbn [List.filter length].
  - lia.
  - destruct (Experiment.detail_valid d), (Experiment.case_correct d),
      (Experiment.func_correct d); cbn [andb length]; lia.
Qed.

(** X23. When [run_experiment] returns, each arm holds one detail per
    selected test case, its four tallies count the flags of its details, so
    that fully correct answers are at most the answers with the correct
    case, at most those with the correct function, and every tally is at
    most the number of cases; and the two arms together count as valid no
    more suggestions than the validator accepted during the run.  At most
    the 20 test cases are run, all of them when [num_cases] is [None] or
    0. *)
Theorem experiment_tallies (now : string) (pipeline : CopilotPipeline.t)
    (st st' : CopilotPipeline.State) (num_cases : option Z)
    (results : Experiment.Results) :
  Experiment.run_experiment now pipeline st num_cases
  = Retrieval.Return (results, st') →
  let total := Experiment.total_cases results in
  total = length (Experiment.selected num_cases)
  ∧ (total ≤ 20)%nat
  ∧ (num_cases = None ∨ num_cases = Some 0%Z → total = 20%nat)
  ∧ (∀ arm, arm = Experiment.without_rag results
            ∨ arm = Experiment.with_rag results →
       length (Experiment.details arm) = total ∧ consistent arm
       ∧ (0 ≤ Experiment.fully_correct arm ≤ Experiment.correct_case arm
          ∧ Experiment.correct_case arm ≤ Z.of_nat total
          ∧ Experiment.fully_correct arm ≤ Experiment.correct_function arm
          ∧ Experiment.correct_function arm ≤ Z.of_nat total
          ∧ 0 ≤ Experiment.valid arm ≤ Z.of_nat total)%Z)
  ∧ (Experiment.valid (Experiment.without_rag results)
     + Experiment.valid (Experiment.with_rag results)
     ≤ stats_passed (CopilotPipeline.stats st')
       - stats_passed (CopilotPipeline.stats st))%Z.
Proof.
  unfold Experiment.run_experiment. cbv zeta.
  destruct (Experiment.run_cases _ _ _ _ _) as [[[a b] st1]|] eqn:H; [|done].
  intros [= <- <-].
  cbn [Experiment.total_cases Experiment.without_rag Experiment.with_rag].
  assert (consistent Experiment.empty_arm) as He by (by repeat split).
  destruct (run_cases_tallies _ _ _ _ _ _ _ _ H He He)
    as (Ha & Hb & Hla & Hlb & Hp).
  cbn [Experiment.empty_arm Experiment.details Experiment.valid length] in *.
  rewrite Nat.add_0_l in Hla, Hlb.
  split; [done|]. split; [|split; [|split]].
  - unfold Experiment.selected, Experiment.slice_to.
    destruct num_cases as [n|]; [|done].
    destruct (negb _); [|done].
    destruct (0 <=? n)%Z; rewrite length_take; cbn; lia.
  - by intros [-> | ->].
  - intros arm [-> | ->].
    + split; [done|]. split; [done|].
      rewrite <- Hla. by apply consistent_bounds.
    + split; [done|]. split; [done|].
      rewrite <- Hlb. by apply consistent_bounds.
  - lia.
Qed.

Lemma experiment_tallies_witness :
  (1 ≤ 20)%nat.
Proof.
  pose proof (experiment_tallies "2025-01-01T00:00:00" SamplePipeline.pipeline
                SamplePipeline.start
                (match Experiment.run_experiment "2025-01-01T00:00:00"
                         SamplePipeline.pipeline SamplePipeline.start (Some 1%Z)
                 with
                 | Retrieval.Return (_, st') => st'
                 | Retrieval.IndexError => SamplePipeline.start
                 end)
                (Some 1%Z)
                (match Experiment.run_experiment "2025-01-01T00:00:00"
                         SamplePipeline.pipeline SamplePipeline.start (Some 1%Z)
                 with
                 | Retrieval.Return (r, _) => r
                 | Retrieval.IndexError =>
                     {| Experiment.timestamp := ""; Experiment.total_cases := 0;
                        Experiment.without_rag := Experiment.empty_arm;
                        Experiment.with_rag := Experiment.empty_arm |}
                 end)) as H.
  exact (proj1 (proj2 (H ltac:(vm_compute; reflexivity)))).
Defined.
